(** * Model parallelism for the Neuron accelerator: a shallow embedding

    This development embeds, function by function, the parts of

      - [optimum/neuron/distributed/parallel_layers.py]
      - [optimum/neuron/accelerate/accelerator.py]

    that decide the properties stated at the end of each module.

    Conventions of the embedding.

    - Python objects live in a store ([heap]) indexed by their identity
      ([id(x)] is the location).  An object carries the linearised list of
      its classes ([isinstance] looks into it) and its attribute dictionary.
    - A function that can raise returns a [result]; a function that also
      mutates objects is a state transformer [heap -> heap * result A]: the
      store reached when an exception is raised is kept, as in Python.
    - Functions of other packages (torch, neuronx_distributed, accelerate,
      peft) and of modules of this repository other than the two above are
      taken as parameters, gathered in one record per module.  Environment
      guards installed by decorators ([requires_neuronx_distributed],
      [requires_torch_xla]) are taken as satisfied, and calls to the logger
      are not part of the state.
    - Integers are [Z]; [//] and [%] are floor division and its remainder
      ([Z.div], [Z.modulo]) and raise [ZeroDivisionError] on a zero divisor. *)

From Stdlib Require Import ZArith Lia Ascii String.
From stdpp Require Import base option list strings gmap.

Open Scope Z_scope.
Set Warnings "-register-all".


(* ================================================================== *)
(** * Python values, exceptions, objects and the object store          *)
(* ================================================================== *)

Module Py.

Inductive exn : Type :=
  | ValueError
  | AttributeError
  | KeyError
  | TypeError
  | IndexError
  | ZeroDivisionError
  | ExternalError.

Inductive result (A : Type) : Type :=
  | Ok (a : A)
  | Raise (e : exn).
Arguments Ok {A} a.
Arguments Raise {A} e.

Definition rbind {A B} (r : result A) (k : A -> result B) : result B :=
  match r with
  | Ok a => k a
  | Raise e => Raise e
  end.

Definition is_ok {A} (r : result A) : bool :=
  match r with Ok _ => true | Raise _ => false end.

Definition loc := nat.

(** Values.  [VData] is an immutable record (a dataclass instance),
    [VThunk l] the closure [lambda: x] where [x] is the object at [l],
    [VBoundMethod l f] the method [f] of the class of the object at [l],
    bound to it, and [VPatched specs f] the function [f] wrapped so that the
    names of [specs] are patched while it runs. *)
Inductive value : Type :=
  | VNone
  | VBool (b : bool)
  | VInt (z : Z)
  | VStr (s : string)
  | VRef (l : loc)
  | VTuple (vs : list value)
  | VDict (d : list (string * value))
  | VTensor (shape : list Z) (device : string)
  | VData (cls : string) (fields : list (string * value))
  | VThunk (l : loc)
  | VBoundMethod (l : loc) (f : string)
  | VPatched (specs : list (string * string)) (f : value).

Arguments VRef l%_nat.
Arguments VThunk l%_nat.
Arguments VBoundMethod l%_nat f.

Record object : Type := mkObject {
  ob_mro : list string;
  ob_attrs : gmap string value
}.

Definition heap := gmap loc object.

(** ** The state-and-exception monad *)

Definition ST (S A : Type) : Type := S -> S * result A.

Definition ret {S A} (a : A) : ST S A := fun s => (s, Ok a).
Definition raise {S A} (e : exn) : ST S A := fun s => (s, Raise e).
Definition bind {S A B} (m : ST S A) (k : A -> ST S B) : ST S B :=
  fun s => match m s with
           | (s', Ok a) => k a s'
           | (s', Raise e) => (s', Raise e)
           end.
Definition lift {S A} (r : result A) : ST S A := fun s => (s, r).
Definition read {S A} (f : S -> A) : ST S A := fun s => (s, Ok (f s)).

(** Computations on the object store. *)
Definition M (A : Type) : Type := ST heap A.

(** A computation that only reads the store. *)
Definition heap_preserving {A} (m : M A) : Prop :=
  forall h h' r, m h = (h', r) -> h' = h.

(** ** Strings *)

Definition str_in (s : string) (l : list string) : bool :=
  existsb (String.eqb s) l.

Fixpoint rev_chars (s : string) (acc : string) : string :=
  match s with
  | EmptyString => acc
  | String c s' => rev_chars s' (String c acc)
  end.

(** [split_first_dot s acc]: [s] is read from its first character; the
    result is [Some (before, after)] at the first ["."], with [before]
    reversed onto [acc]. *)
Fixpoint split_first_dot (s : string) (acc : string) : option (string * string) :=
  match s with
  | EmptyString => None
  | String c s' =>
      if Ascii.eqb c "."%char then Some (acc, s')
      else split_first_dot s' (String c acc)
  end.

(** [s.rsplit(".", maxsplit=1)]: [inl s] when there is no dot, otherwise
    [inr (head, last)] split at the last dot. *)
Definition rsplit_dot (s : string) : string + (string * string) :=
  match split_first_dot (rev_chars s EmptyString) EmptyString with
  | None => inl s
  | Some (last, rev_head) => inr (rev_chars rev_head EmptyString, last)
  end.

(** [s.split(".")]. *)
Fixpoint split_dots_aux (s : string) (cur : string) : list string :=
  match s with
  | EmptyString => [rev_chars cur EmptyString]
  | String c s' =>
      if Ascii.eqb c "."%char
      then rev_chars cur EmptyString :: split_dots_aux s' EmptyString
      else split_dots_aux s' (String c cur)
  end.
Definition split_dots (s : string) : list string := split_dots_aux s EmptyString.

(** ** Dictionaries, in insertion order *)

Section dict.
Context {K V : Type} `{EqDecision K}.

Fixpoint dict_get (d : list (K * V)) (k : K) : option V :=
  match d with
  | [] => None
  | (k', v) :: d' => if decide (k = k') then Some v else dict_get d' k
  end.

Definition dict_mem (d : list (K * V)) (k : K) : bool :=
  match dict_get d k with Some _ => true | None => false end.

Definition dict_getitem (d : list (K * V)) (k : K) : result V :=
  match dict_get d k with Some v => Ok v | None => Raise KeyError end.

(** [d[k] = v]: an existing key keeps its position. *)
Fixpoint dict_set (d : list (K * V)) (k : K) (v : V) : list (K * V) :=
  match d with
  | [] => [(k, v)]
  | (k', v') :: d' =>
      if decide (k = k') then (k', v) :: d' else (k', v') :: dict_set d' k v
  end.

Fixpoint dict_remove (d : list (K * V)) (k : K) : list (K * V) :=
  match d with
  | [] => []
  | (k', v') :: d' =>
      if decide (k = k') then d' else (k', v') :: dict_remove d' k
  end.

(** [d.pop(k)]. *)
Definition dict_pop (d : list (K * V)) (k : K) : result (V * list (K * V)) :=
  match dict_get d k with
  | Some v => Ok (v, dict_remove d k)
  | None => Raise KeyError
  end.

Definition dict_keys (d : list (K * V)) : list K := map fst d.

(** [dict(pairs)] and dictionary comprehensions. *)
Definition dict_of_list (l : list (K * V)) : list (K * V) :=
  fold_left (fun d kv => dict_set d (fst kv) (snd kv)) l [].
End dict.

(** ** Attributes *)

Definition get_attrs (h : heap) (l : loc) : gmap string value :=
  match h !! l with
  | Some o => ob_attrs o
  | None => ∅
  end.

Definition lookup_attr (h : heap) (v : value) (name : string) : option value :=
  match v with
  | VRef l => get_attrs h l !! name
  | VData _ fields => dict_get fields name
  | _ => None
  end.

Definition hasattr (h : heap) (v : value) (name : string) : bool :=
  match lookup_attr h v name with Some _ => true | None => false end.

Definition getattr (v : value) (name : string) : M value :=
  fun h => match lookup_attr h v name with
           | Some x => (h, Ok x)
           | None => (h, Raise AttributeError)
           end.

Definition getattr_default (v : value) (name : string) (dflt : value) : M value :=
  fun h => match lookup_attr h v name with
           | Some x => (h, Ok x)
           | None => (h, Ok dflt)
           end.

Definition set_obj_attr (o : object) (name : string) (x : value) : object :=
  mkObject (ob_mro o) (<[name := x]> (ob_attrs o)).

Definition setattr (v : value) (name : string) (x : value) : M unit :=
  fun h => match v with
           | VRef l =>
               match h !! l with
               | Some o => (<[l := set_obj_attr o name x]> h, Ok tt)
               | None => (h, Raise AttributeError)
               end
           | _ => (h, Raise AttributeError)
           end.

(** A new object gets an identity that no live object has. *)
Definition alloc (o : object) : M value :=
  fun h => let l := fresh (dom h) in (<[l := o]> h, Ok (VRef l)).

Definition isinstance (h : heap) (v : value) (cls : string) : bool :=
  match v with
  | VRef l =>
      match h !! l with
      | Some o => str_in cls (ob_mro o)
      | None => false
      end
  | _ => false
  end.

(** [x.__class__.__name__]. *)
Definition class_name (h : heap) (v : value) : string :=
  match v with
  | VRef l =>
      match h !! l with
      | Some o => match ob_mro o with c :: _ => c | [] => "object" end
      | None => "object"
      end
  | _ => "object"
  end.

(** [torch.nn.Module.get_submodule]: the empty target is the module
    itself; every atom of the dotted path has to be an attribute that is a
    module. *)
Fixpoint get_submodule_atoms (h : heap) (v : value) (atoms : list string) : result value :=
  match atoms with
  | [] => Ok v
  | a :: rest =>
      match lookup_attr h v a with
      | Some (VRef l) => get_submodule_atoms h (VRef l) rest
      | Some _ => Raise AttributeError
      | None => Raise AttributeError
      end
  end.

Definition get_submodule (v : value) (target : string) : M value :=
  fun h => if String.eqb target "" then (h, Ok v)
           else (h, get_submodule_atoms h v (split_dots target)).

(** ** Integers *)

Definition as_int (v : value) : result Z :=
  match v with
  | VInt z => Ok z
  | VBool b => Ok (Z.b2z b)
  | _ => Raise TypeError
  end.

Definition py_mod (a b : Z) : result Z :=
  if Z.eqb b 0 then Raise ZeroDivisionError else Ok (Z.modulo a b).

Definition py_floordiv (a b : Z) : result Z :=
  if Z.eqb b 0 then Raise ZeroDivisionError else Ok (Z.div a b).

Definition truthy (v : value) : bool :=
  match v with
  | VNone => false
  | VBool b => b
  | VInt z => negb (Z.eqb z 0)
  | VStr s => negb (String.eqb s "")
  | VTuple vs => match vs with [] => false | _ => true end
  | VDict d => match d with [] => false | _ => true end
  | _ => true
  end.

Definition is_none (v : value) : bool :=
  match v with VNone => true | _ => false end.

End Py.

Export Py.

Declare Scope py_scope.
Delimit Scope py_scope with py.
Notation "'let!' x ':=' c 'in' k" := (bind c (fun x => k))
  (at level 10, x pattern, c at level 100, k at level 200) : py_scope.
Notation "'do!' c 'in' k" := (bind c (fun _ => k))
  (at level 10, c at level 100, k at level 200) : py_scope.
Notation "'try!' x ':=' c 'in' k" := (rbind c (fun x => k))
  (at level 10, x pattern, c at level 100, k at level 200) : py_scope.
Open Scope py_scope.

(* ================================================================== *)
(** * Sequence parallelism: [SequenceCollectiveOpInfo] and
      [IOSequenceParallelizer] (parallel_layers.py)                    *)
(* ================================================================== *)

Module SequenceParallel.

(** The [layer] field: a module class or a pattern over qualified names. *)
Inductive layer_selector : Type :=
  | LayerType (cls : string)
  | LayerPattern (pattern : string).

Record SequenceCollectiveOpInfo : Type := mkSequenceCollectiveOpInfo {
  collective_op : string;
  layer : layer_selector;
  io : string;
  first_or_last : string
}.

Definition __post_init__ (self : SequenceCollectiveOpInfo) : result unit :=
  if negb (str_in (collective_op self) ["scatter"; "gather"]) then Raise ValueError
  else if negb (str_in (io self) ["input"; "output"]) then Raise ValueError
  else Ok tt.

(** Calling the (frozen) dataclass: the generated [__init__] stores the four
    fields and then runs [__post_init__]. *)
Definition new_SequenceCollectiveOpInfo
    (collective_op : string) (layer : layer_selector) (io first_or_last : string)
  : result SequenceCollectiveOpInfo :=
  let self := mkSequenceCollectiveOpInfo collective_op layer io first_or_last in
  try! _ := __post_init__ self in
  Ok self.

Section io_sequence_parallelizer.

(** Tensors, Python values that are neither tensors nor tuples nor
    modules, and keyword arguments. *)
Context {T O K : Type}.

Inductive pyval : Type :=
  | PTensor (t : T)
  | PTuple (vs : list pyval)
  | PModule (l : loc)
  | POther (o : O).

(** What torch, neuronx_distributed and [re] provide. *)
Record torch_ops : Type := mkTorchOps {
  transpose_0_1 : T -> result T;
  contiguous : T -> result T;
  scatter_to_sequence_parallel_region : T -> result T;
  (* the second argument is [to_model_parallel] *)
  gather_from_sequence_parallel_region : T -> bool -> result T;
  (* [o[i]] and [o[i:]] for a value that is not a tuple *)
  other_getitem : O -> Z -> result pyval;
  other_slice_from : O -> Z -> result pyval;
  (* [re.match(pattern, name)] is not [None] *)
  re_match : string -> string -> bool
}.

Definition forward_fn : Type := list pyval -> K -> result pyval.

Record nn_module : Type := mkModule {
  m_mro : list string;
  m_forward : forward_fn
}.

(** A model: its modules with their qualified names, in the order of
    [named_modules()]. *)
Record nn_model : Type := mkModel {
  named_modules : list (string * loc)
}.

Context (E : torch_ops).

Definition is_tensor (v : pyval) : bool :=
  match v with PTensor _ => true | _ => false end.

(** The receiver of [x.transpose(0, 1)]. *)
Definition as_tensor (v : pyval) : result T :=
  match v with
  | PTensor t => Ok t
  | _ => Raise AttributeError
  end.

(** The argument of a collective. *)
Definition as_tensor_arg (v : pyval) : result T :=
  match v with
  | PTensor t => Ok t
  | _ => Raise ExternalError
  end.

(** [args[i]] on the tuple of positional arguments. *)
Definition args_get (args : list pyval) (i : nat) : result pyval :=
  match nth_error args i with
  | Some v => Ok v
  | None => Raise IndexError
  end.

(** [output[0]]. *)
Definition index0 (output : pyval) : result pyval :=
  match output with
  | PTuple (x :: _) => Ok x
  | PTuple [] => Raise IndexError
  | POther o => other_getitem E o 0
  | _ => Raise TypeError
  end.

(** [output[1:]]. *)
Definition slice1 (output : pyval) : result pyval :=
  match output with
  | PTuple vs => Ok (PTuple (drop 1 vs))
  | POther o => other_slice_from E o 1
  | _ => Raise TypeError
  end.

(** [(x,) + rest]. *)
Definition tuple_cons (x : pyval) (rest : pyval) : result pyval :=
  match rest with
  | PTuple vs => Ok (PTuple (x :: vs))
  | _ => Raise TypeError
  end.

Definition first_and_last_step (matches : bool) (module : loc)
    (st : option loc * option loc) : option loc * option loc :=
  if matches then
    (match fst st with None => Some module | Some f => Some f end, Some module)
  else st.

Definition first_and_last_result (st : option loc * option loc) : result (loc * loc) :=
  match st with
  | (Some f, Some l) => Ok (f, l)
  | _ => Raise ValueError
  end.

Definition get_first_and_last_layers_matching_pattern
    (model : nn_model) (pattern : string) : result (loc * loc) :=
  first_and_last_result
    (fold_left (fun st nm => first_and_last_step (re_match E pattern (fst nm)) (snd nm) st)
               (named_modules model) (None, None)).

Definition module_isinstance (h : gmap loc nn_module) (l : loc) (type_ : string) : bool :=
  match h !! l with
  | Some m => str_in type_ (m_mro m)
  | None => false
  end.

Definition get_first_and_last_layers_of_type
    (h : gmap loc nn_module) (model : nn_model) (type_ : string) : result (loc * loc) :=
  first_and_last_result
    (fold_left (fun st nm => first_and_last_step (module_isinstance h (snd nm) type_) (snd nm) st)
               (named_modules model) (None, None)).

(** The four closures of [_sequence_parallelize], over the original
    (bound) forward of the selected layer. *)

Definition scatter_input_forward (orig : forward_fn) : forward_fn :=
  fun args kwargs =>
    try! to_scatter := args_get args 1 in
    try! t := as_tensor to_scatter in
    try! t := transpose_0_1 E t in
    try! t := contiguous E t in
    try! scattered := scatter_to_sequence_parallel_region E t in
    orig (PTensor scattered :: drop 2 args) kwargs.

Definition scatter_output_forward (orig : forward_fn) : forward_fn :=
  fun args kwargs =>
    try! output := orig (drop 1 args) kwargs in
    try! to_scatter := (if is_tensor output then Ok output else index0 output) in
    try! t := as_tensor to_scatter in
    try! t := transpose_0_1 E t in
    try! t := contiguous E t in
    try! scattered := scatter_to_sequence_parallel_region E t in
    if is_tensor output then Ok (PTensor scattered)
    else try! rest := slice1 output in tuple_cons (PTensor scattered) rest.

Definition gather_output_forward (orig : forward_fn) : forward_fn :=
  fun args kwargs =>
    try! output := orig (drop 1 args) kwargs in
    try! to_gather := (if is_tensor output then Ok output else index0 output) in
    try! t := as_tensor_arg to_gather in
    try! gathered := gather_from_sequence_parallel_region E t false in
    try! t := transpose_0_1 E gathered in
    try! gathered := contiguous E t in
    if is_tensor output then Ok (PTensor gathered)
    else try! rest := slice1 output in tuple_cons (PTensor gathered) rest.

Definition gather_input_forward (orig : forward_fn) : forward_fn :=
  fun args kwargs =>
    try! to_gather := args_get args 1 in
    try! t := as_tensor_arg to_gather in
    try! gathered := gather_from_sequence_parallel_region E t false in
    try! t := transpose_0_1 E gathered in
    try! gathered := contiguous E t in
    orig (PTensor gathered :: drop 2 args) kwargs.

(** [f.__get__(layer)]: the method bound to [layer]. *)
Definition bind_method (f : forward_fn) (layer : loc) : forward_fn :=
  fun args kwargs => f (PModule layer :: args) kwargs.

Definition select_layers (h : gmap loc nn_module) (model : nn_model)
    (sel : layer_selector) : result (loc * loc) :=
  match sel with
  | LayerPattern p => get_first_and_last_layers_matching_pattern model p
  | LayerType c => get_first_and_last_layers_of_type h model c
  end.

Definition set_forward (l : loc) (wrap : forward_fn -> forward_fn)
    (h : gmap loc nn_module) : gmap loc nn_module * result unit :=
  match h !! l with
  | Some m => (<[l := mkModule (m_mro m) (bind_method (wrap (m_forward m)) l)]> h, Ok tt)
  | None => (h, Raise AttributeError)
  end.

Definition _sequence_parallelize (model : nn_model) (info : SequenceCollectiveOpInfo)
    (h : gmap loc nn_module) : gmap loc nn_module * result unit :=
  if String.eqb (collective_op info) "scatter" then
    match select_layers h model (layer info) with
    | Raise e => (h, Raise e)
    | Ok (first_layer, last_layer) =>
        let scatter_layer :=
          if String.eqb (first_or_last info) "first" then first_layer else last_layer in
        if String.eqb (io info) "input"
        then set_forward scatter_layer scatter_input_forward h
        else set_forward scatter_layer scatter_output_forward h
    end
  else
    match select_layers h model (layer info) with
    | Raise e => (h, Raise e)
    | Ok (first_layer, last_layer) =>
        let gather_layer :=
          if String.eqb (first_or_last info) "first" then first_layer else last_layer in
        if String.eqb (io info) "output"
        then set_forward gather_layer gather_output_forward h
        else set_forward gather_layer gather_input_forward h
    end.

(** [IOSequenceParallelizer.sequence_parallelize]. *)
Fixpoint sequence_parallelize_loop (model : nn_model) (infos : list SequenceCollectiveOpInfo)
    (h : gmap loc nn_module) : gmap loc nn_module * result unit :=
  match infos with
  | [] => (h, Ok tt)
  | info :: rest =>
      match _sequence_parallelize model info h with
      | (h', Ok _) => sequence_parallelize_loop model rest h'
      | (h', Raise e) => (h', Raise e)
      end
  end.

Definition sequence_parallelize (sequence_parallel_enabled : bool)
    (sequence_collective_op_infos : option (list SequenceCollectiveOpInfo))
    (model : nn_model) (h : gmap loc nn_module) : gmap loc nn_module * result unit :=
  match sequence_collective_op_infos with
  | None => (h, Ok tt)
  | Some infos =>
      if negb sequence_parallel_enabled || match infos with [] => true | _ => false end
      then (h, Ok tt)
      else sequence_parallelize_loop model infos h
  end.

(** The tensor that replaces the output: transposed, made contiguous and
    scattered, or gathered, transposed and made contiguous. *)
Definition reshaped_for (op : string) (t : T) : result T :=
  if String.eqb op "scatter" then
    try! t := transpose_0_1 E t in
    try! t := contiguous E t in
    scatter_to_sequence_parallel_region E t
  else
    try! g := gather_from_sequence_parallel_region E t false in
    try! t := transpose_0_1 E g in
    contiguous E t.

Definition rmap {A B} (f : A -> B) (r : result A) : result B :=
  match r with Ok a => Ok (f a) | Raise e => Raise e end.

End io_sequence_parallelizer.

Arguments pyval : clear implicits.
Arguments torch_ops : clear implicits.
Arguments forward_fn : clear implicits.
Arguments nn_module : clear implicits.

End SequenceParallel.

(* ================================================================== *)
(** * Parallel layers (parallel_layers.py)                             *)
(* ================================================================== *)

Module ParallelLayers.

(** A name given either directly or per model class
    ([Union[str, Dict[str, str]]]). *)
Inductive name_spec : Type :=
  | NameStr (s : string)
  | NameDict (d : list (string * string)).

(** The name that a specification gives for a model class: the entry of
    the class in a dictionary ([d.get(model.__class__.__name__, None)]), or
    the name itself. *)
Definition name_for_class (spec : name_spec) (model_class : string) : option string :=
  match spec with
  | NameDict d => dict_get d model_class
  | NameStr s => Some s
  end.

(** The two attribute names read from a [NormalizedConfig]; an absent one
    raises [AttributeError] when it is read. *)
Record normalized_config : Type := mkNormalizedConfig {
  nc_NUM_ATTENTION_HEADS : option string;
  nc_ALL_HEAD_SIZE_NAME : option string
}.

(** The arguments of a call to [linear_to_parallel_linear]; [None] is an
    argument that the call site does not pass. *)
Record linear_kwargs : Type := mkLinearKwargs {
  lk_axis : string;
  lk_input_is_parallel : option bool;
  lk_gather_output : option bool;
  lk_linear_layer_weight_info : value;
  lk_linear_layer_bias_weight_info : value;
  lk_sequence_parallel_enabled : bool;
  lk_skip_weight_load : value;
  lk_device : value
}.

(** The arguments of the constructor [OptimumGQAQKVColumnParallelLinear]. *)
Record gqa_args : Type := mkGqaArgs {
  ga_query_proj_name : string;
  ga_key_proj_name : string;
  ga_value_proj_name : string;
  ga_output_proj_name : option string;
  ga_num_attention_heads : value;
  ga_num_key_value_heads : value;
  ga_input_size : Z;
  ga_output_sizes : list value;
  ga_gather_output : bool;
  ga_bias : bool;
  ga_sequence_parallel_enabled : bool;
  ga_device : value;
  ga_kv_size_multiplier : value
}.

(** The arguments of
    [maybe_load_weights_to_output_projection_when_using_gqa_qkv_column_parallel_linear]. *)
Record output_projection_load_args : Type := mkOutputProjectionLoadArgs {
  op_output_projection : value;
  op_num_attention_heads : value;
  op_num_key_value_heads : value;
  op_kv_size_multiplier : value;
  op_original_output_projection : value;
  op_linear_layer_weight_info : value;
  op_linear_layer_bias_weight_info : value;
  op_try_from_checkpoint : bool;
  op_try_from_original_layer : bool
}.

(** What the rest of the program provides: [.utils], [..utils],
    neuronx_distributed, torch, peft and [NormalizedConfigManager]. *)
Record externals : Type := mkExternals {
  (* [get_tensor_model_parallel_size()] *)
  tp_size : Z;
  is_peft_available : bool;
  (* [model.named_modules()], in iteration order *)
  named_modules : heap -> value -> list (string * loc);
  (* [NormalizedConfigManager.get_normalized_config_class(model_type)(config)] *)
  get_normalized_config : heap -> value -> value -> result normalized_config;
  (* [get_linear_weight_info(weight_map, name, device=, fail_if_not_found=)] *)
  get_linear_weight_info : value -> string -> value -> option bool -> result (value * value);
  linear_to_parallel_linear : value -> linear_kwargs -> M value;
  (* embedding, lm_head_layer, embedding_weight_info, lm_head_weight_info,
     lm_head_bias_weight_info, device *)
  embedding_to_parallel_embedding : value -> value -> value -> value -> value -> value -> M value;
  OptimumGQAQKVColumnParallelLinear : gqa_args -> M value;
  (* model, layer, try_from_checkpoint, try_from_original_layer *)
  maybe_load_weights_to_gqa_qkv_column_parallel_linear : value -> value -> bool -> bool -> M unit;
  mark_parameter_init_status_during_parallelization : value -> bool -> M unit;
  maybe_load_weights_to_output_projection : output_projection_load_args -> M unit;
  patch_everywhere : string -> string -> M unit;
  (* [tuner_layer.get_base_layer()] *)
  get_base_layer : heap -> value -> result value
}.

(** Class names used by [isinstance]. *)
Definition ColumnParallelLinear : string := "ColumnParallelLinear".
Definition RowParallelLinear : string := "RowParallelLinear".
Definition BaseTunerLayer : string := "BaseTunerLayer".
Definition FakeProj_class : string := "FakeProj".
Definition ParallelCrossEntropyLoss : string := "ParallelCrossEntropyLoss".
Definition parallel_cross_entropy : string := "parallel_cross_entropy".

(** Modelled from the spec: the constructor of [WeightInformation]
    ([.utils]), which "identifies a named weight, optional checkpoint source
    location, and target device". *)
Definition WeightInformation (filename : value) (qualified_name : string)
    (weight_map device : value) : value :=
  VData "WeightInformation"
    [("filename", filename); ("qualified_name", VStr qualified_name);
     ("weight_map", weight_map); ("device", device)].

(** Modelled from the spec: the constructor of [FakeProj] ([.utils]), "a
    lightweight stand-in installed in place of an original Q/K/V attribute
    after GQA fusion; holds a back-reference to the fused projection and an
    output index".  The back-reference is the pair of a closure returning
    the parent layer and the name of the fused projection on it. *)
Definition FakeProj (fully_qualified_name proj_name : string) (output_index : Z)
    (get_parent_module : value) (parent_module_fully_qualified_name : string)
    (gqa_qkv_proj_name : string) : M value :=
  alloc (mkObject [FakeProj_class; "Module"]
    (list_to_map
       [("fully_qualified_name", VStr fully_qualified_name);
        ("proj_name", VStr proj_name);
        ("output_index", VInt output_index);
        ("get_parent_module", get_parent_module);
        ("parent_module_fully_qualified_name", VStr parent_module_fully_qualified_name);
        ("gqa_qkv_proj_name", VStr gqa_qkv_proj_name)])).

Section parallel_layers.

Context (E : externals).

(** ** Helpers shared by the transformations *)

Definition kwargs := list (string * value).

Definition kwargs_getitem (kw : kwargs) (k : string) : M value :=
  lift (dict_getitem kw k).

Definition as_dict (v : value) : result (list (string * value)) :=
  match v with
  | VDict d => Ok d
  | _ => Raise TypeError
  end.

(** [{id(module): name for name, module in model.named_modules()}[id(layer)]] *)
Fixpoint last_name_of (nm : list (string * loc)) (l : loc) (acc : option string) : option string :=
  match nm with
  | [] => acc
  | (name, l') :: rest =>
      last_name_of rest l (if Nat.eqb l' l then Some name else acc)
  end.

Definition layer_qualified_name_in (model layer : value) : M string :=
  fun h =>
    match layer with
    | VRef l =>
        match last_name_of (named_modules E h model) l None with
        | Some name => (h, Ok name)
        | None => (h, Raise KeyError)
        end
    | _ => (h, Raise KeyError)
    end.

(** [ParallelLayer._get_module_and_attribute_name] *)
Definition _get_module_and_attribute_name (module : value) (fully_qualified_name : string)
  : M (value * string) :=
  match rsplit_dot fully_qualified_name with
  | inl attribute_name => ret (module, attribute_name)
  | inr (head, attribute_name) =>
      let! leaf_module := get_submodule module head in
      ret (leaf_module, attribute_name)
  end.

(** [ParallelLayer.prepare_parallel_layer_specific_kwargs] *)
Definition prepare_parallel_layer_specific_kwargs
    (PARALLEL_LAYER_SPECIFIC_KWARGS : option kwargs) (given : kwargs) : kwargs :=
  let defaults := match PARALLEL_LAYER_SPECIFIC_KWARGS with Some d => d | None => [] end in
  dict_of_list
    (map (fun kv => (fst kv, match dict_get given (fst kv) with
                             | Some v => v
                             | None => snd kv
                             end)) defaults).

(** [ParallelLayer.transform], over the [_transform] of the subclass. *)
Definition transform
    (PARALLEL_LAYER_SPECIFIC_KWARGS : option kwargs)
    (_transform : value -> value -> bool -> value -> kwargs -> M value)
    (model layer : value) (sequence_parallel_enabled : bool) (device : value)
    (should_parallelize_layer_predicate_func : option (heap -> value -> bool))
    (given : kwargs) : M value :=
  let kw := prepare_parallel_layer_specific_kwargs PARALLEL_LAYER_SPECIFIC_KWARGS given in
  fun h =>
    match should_parallelize_layer_predicate_func with
    | Some p =>
        if negb (p h layer) then (h, Ok layer)
        else _transform model layer sequence_parallel_enabled device kw h
    | None => _transform model layer sequence_parallel_enabled device kw h
    end.

Definition with_prefix (prefix name : string) : string :=
  if String.eqb prefix "" then name else prefix +:+ "." +:+ name.

(** [num % tp_size != 0] *)
Definition not_divisible_by (a b : Z) : result bool :=
  try! r := py_mod a b in Ok (negb (Z.eqb r 0)).

(** [v[i]] on a tuple or list. *)
Definition value_index (v : value) (i : nat) : result value :=
  match v with
  | VTuple vs =>
      match nth_error vs i with
      | Some x => Ok x
      | None => Raise IndexError
      end
  | _ => Raise TypeError
  end.

(** ** [ParallelEmbedding] *)

Record ParallelEmbedding : Type := mkParallelEmbedding {
  EMBEDDING_NAME : name_spec;
  VOCAB_SIZE_NAME : option string;
  LM_HEAD_NAME : option name_spec
}.

(** What the first part of [ParallelEmbedding._transform] computes. *)
Record embedding_located : Type := mkEmbeddingLocated {
  el_lm_head_name : option string;
  el_model_has_lm_head : bool;
  el_parent_lm_head : option (value * string);
  el_embedding_name : string;
  el_embedding_weight_info : value;
  el_lm_head_weight_info : value;
  el_lm_head_bias_weight_info : value;
  el_num_embeddings : value
}.

(** Lines 185-197: is there an LM head to parallelize with the embedding? *)
Definition locate_lm_head (cls : ParallelEmbedding) (model layer : value)
  : M (option string * bool * option (value * string)) :=
  match LM_HEAD_NAME cls with
  | Some spec =>
      let! model_class := read (fun h => class_name h model) in
      let lm_head_name := name_for_class spec model_class in
      match lm_head_name with
      | Some name =>
          let! pa := _get_module_and_attribute_name layer name in
          let! has := read (fun h => hasattr h (fst pa) (snd pa)) in
          ret (lm_head_name, has, Some pa)
      | None => ret (None, false, None)
      end
  | None => ret (None, false, None)
  end.

(** Lines 199-207. *)
Definition locate_embedding_name (cls : ParallelEmbedding) (model : value) : M string :=
  match EMBEDDING_NAME cls with
  | NameDict d =>
      let! model_class := read (fun h => class_name h model) in
      match dict_get d model_class with
      | Some name => ret name
      | None =>
          match dict_get d "default" with
          | Some name => ret name
          | None => raise ValueError
          end
      end
  | NameStr s => ret s
  end.

(** Lines 209-244: where the weights are, when the model carries a weight
    map. *)
Definition locate_weight_infos (model layer : value) (device : value)
    (embedding_name : string) (lm_head_name : option string) (model_has_lm_head : bool)
  : M (value * value * value) :=
  let! weight_map := getattr_default model "_weight_map" VNone in
  if is_none weight_map then ret (VNone, VNone, VNone)
  else
    let! layer_qualified_name := layer_qualified_name_in model layer in
    let embedding_weight_name :=
      with_prefix layer_qualified_name (embedding_name +:+ ".weight") in
    let! wm := lift (as_dict weight_map) in
    let! embedding_weight_info :=
      (if dict_mem wm embedding_name then
         let! filename := lift (dict_getitem wm embedding_weight_name) in
         ret (WeightInformation filename embedding_weight_name weight_map device)
       else ret VNone) in
    if model_has_lm_head then
      let name := match lm_head_name with Some n => n | None => "" end in
      let lm_head_weight_name := with_prefix layer_qualified_name (name +:+ ".weight") in
      let lm_head_bias_weight_name := with_prefix layer_qualified_name (name +:+ ".bias") in
      let lm_head_weight_info :=
        match dict_get wm lm_head_weight_name with
        | Some filename => WeightInformation filename lm_head_weight_name weight_map device
        | None => VNone
        end in
      let lm_head_bias_weight_info :=
        match dict_get wm lm_head_bias_weight_name with
        | Some filename => WeightInformation filename lm_head_bias_weight_name weight_map device
        | None => VNone
        end in
      ret (embedding_weight_info, lm_head_weight_info, lm_head_bias_weight_info)
    else ret (embedding_weight_info, VNone, VNone).

(** Lines 246-255. *)
Definition locate_num_embeddings (layer : value) (embedding_name : string) : M value :=
  let! embedding_layer := get_submodule layer embedding_name in
  if is_peft_available E then
    let! tuner := read (fun h => isinstance h embedding_layer BaseTunerLayer) in
    if tuner then
      let! base := (fun h => (h, get_base_layer E h embedding_layer)) in
      getattr base "num_embeddings"
    else getattr embedding_layer "num_embeddings"
  else getattr embedding_layer "num_embeddings".

(** Lines 185-255 of [ParallelEmbedding._transform]. *)
Definition ParallelEmbedding_locate (cls : ParallelEmbedding)
    (model layer : value) (device : value) : M embedding_located :=
  let! lm := locate_lm_head cls model layer in
  let '(lm_head_name, model_has_lm_head, parent_lm_head) := lm in
  let! embedding_name := locate_embedding_name cls model in
  let! infos :=
    locate_weight_infos model layer device embedding_name lm_head_name
      model_has_lm_head in
  let '(embedding_weight_info, lm_head_weight_info, lm_head_bias_weight_info) := infos in
  let! num_embeddings := locate_num_embeddings layer embedding_name in
  ret (mkEmbeddingLocated lm_head_name model_has_lm_head parent_lm_head embedding_name
         embedding_weight_info lm_head_weight_info lm_head_bias_weight_info num_embeddings).

(** Lines 266-281: the replacement itself. *)
Definition ParallelEmbedding_replace (layer : value) (device : value)
    (loc_ : embedding_located) : M value :=
  let! embedding := get_submodule layer (el_embedding_name loc_) in
  let! lm_head_layer :=
    (if el_model_has_lm_head loc_
     then get_submodule layer (match el_lm_head_name loc_ with Some n => n | None => "" end)
     else ret VNone) in
  let! parallel_layers :=
    embedding_to_parallel_embedding E embedding lm_head_layer
      (el_embedding_weight_info loc_) (el_lm_head_weight_info loc_)
      (el_lm_head_bias_weight_info loc_) device in
  let! pa := _get_module_and_attribute_name layer (el_embedding_name loc_) in
  let '(parent_embedding_module, embedding_attribute_name) := pa in
  if el_model_has_lm_head loc_ then
    let! p0 := lift (value_index parallel_layers 0) in
    do! setattr parent_embedding_module embedding_attribute_name p0 in
    let! p1 := lift (value_index parallel_layers 1) in
    match el_parent_lm_head loc_ with
    | Some (parent_lm_head_module, parent_lm_head_attribute_name) =>
        do! setattr parent_lm_head_module parent_lm_head_attribute_name p1 in
        ret layer
    | None => raise ExternalError
    end
  else
    do! setattr parent_embedding_module embedding_attribute_name parallel_layers in
    ret layer.

(** [ParallelEmbedding._transform] *)
Definition ParallelEmbedding_transform (cls : ParallelEmbedding)
    (model layer : value) (sequence_parallel_enabled : bool) (device : value)
    (parallel_layer_specific_kwargs : kwargs) : M value :=
  let! loc_ := ParallelEmbedding_locate cls model layer device in
  let! num_embeddings := lift (as_int (el_num_embeddings loc_)) in
  let! skip := lift (not_divisible_by num_embeddings (tp_size E)) in
  if skip then ret layer
  else ParallelEmbedding_replace layer device loc_.

(** ** [ParallelSelfAttention] *)

Record ParallelSelfAttention : Type := mkParallelSelfAttention {
  QUERIES_NAME : string;
  KEYS_NAME : string;
  VALUES_NAME : string;
  OUTPUT_PROJECTION_NAME : option string;
  NUM_ATTENTION_HEADS_NAME : option string;
  NUM_KEY_VALUE_HEADS_NAME : option string;
  NUM_KEY_VALUE_GROUPS_NAME : option string;
  ALL_HEAD_SIZE_NAME : option string
}.

Definition PARALLEL_LAYER_SPECIFIC_KWARGS : kwargs :=
  [("skip_linear_weight_load", VBool false); ("kv_size_multiplier", VNone)].

Definition GQA_QKV_PROJ_NAME : string := "qkv_proj".

(** [getattr(obj, name)] where [name] may be [None]. *)
Definition getattr_opt (v : value) (name : option string) : M value :=
  match name with
  | Some n => getattr v n
  | None => raise TypeError
  end.

(** [t.size(i)] and [t.device]. *)
Definition tensor_size (t : value) (i : nat) : result Z :=
  match t with
  | VTensor shape _ =>
      match nth_error shape i with
      | Some n => Ok n
      | None => Raise IndexError
      end
  | _ => Raise AttributeError
  end.

Definition tensor_device (t : value) : result string :=
  match t with
  | VTensor _ device => Ok device
  | _ => Raise AttributeError
  end.

(** [ParallelSelfAttention.get_layer_qualified_name] *)
Definition get_layer_qualified_name (model layer : value) : M string :=
  layer_qualified_name_in model layer.


(** [lambda: attention_layer] *)
Definition thunk_of (attention_layer : value) : value :=
  match attention_layer with
  | VRef l => VThunk l
  | _ => VNone
  end.

(** [ParallelSelfAttention.replace_qkv_by_gqa_qkv_column_parallel_linear] *)
Definition replace_qkv_by_gqa_qkv_column_parallel_linear (cls : ParallelSelfAttention)
    (model attention_layer : value) (sequence_parallel_enabled : bool)
    (kv_size_multiplier : value) (skip_linear_weight_load : value) : M unit :=
  match NUM_KEY_VALUE_HEADS_NAME cls with
  | None => raise ValueError
  | Some kv_heads_name =>
      let tp_size := tp_size E in
      let! num_key_value_heads := getattr attention_layer kv_heads_name in
      let! nkv := lift (as_int num_key_value_heads) in
      if Z.ltb tp_size nkv then raise ValueError
      else
        let! num_attention_heads := getattr_opt attention_layer (NUM_ATTENTION_HEADS_NAME cls) in
        let! query_linear := getattr attention_layer (QUERIES_NAME cls) in
        let! key_linear := getattr attention_layer (KEYS_NAME cls) in
        let! query_weight := getattr query_linear "weight" in
        let! hidden_size := lift (tensor_size query_weight 1) in
        let! query_out_features := getattr query_linear "out_features" in
        let! key_value_out_features := getattr key_linear "out_features" in
        let! kv_size_multiplier :=
          (if is_none kv_size_multiplier
           then let! q := lift (py_floordiv tp_size nkv) in ret (VInt q)
           else ret kv_size_multiplier) in
        let! query_weight := getattr query_linear "weight" in
        let! device := lift (tensor_device query_weight) in
        let device := if String.eqb device "meta" then VNone else VStr device in
        let! query_bias := getattr query_linear "bias" in
        let! gqa_qkv_column_parallel_linear :=
          OptimumGQAQKVColumnParallelLinear E
            (mkGqaArgs (QUERIES_NAME cls) (KEYS_NAME cls) (VALUES_NAME cls)
               (OUTPUT_PROJECTION_NAME cls) num_attention_heads num_key_value_heads
               hidden_size [query_out_features; key_value_out_features]
               false (negb (is_none query_bias)) sequence_parallel_enabled device
               kv_size_multiplier) in
        do! setattr attention_layer GQA_QKV_PROJ_NAME gqa_qkv_column_parallel_linear in
        do! maybe_load_weights_to_gqa_qkv_column_parallel_linear E model
              gqa_qkv_column_parallel_linear
              (negb (truthy skip_linear_weight_load)) (negb (truthy skip_linear_weight_load)) in
        let! attention_layer_qualified_name := get_layer_qualified_name model attention_layer in
        let! fake_q_proj :=
          FakeProj (attention_layer_qualified_name +:+ "." +:+ QUERIES_NAME cls) "q" 0
            (thunk_of attention_layer) attention_layer_qualified_name GQA_QKV_PROJ_NAME in
        do! setattr attention_layer (QUERIES_NAME cls) fake_q_proj in
        let! fake_k_proj :=
          FakeProj (attention_layer_qualified_name +:+ "." +:+ KEYS_NAME cls) "k" 1
            (thunk_of attention_layer) attention_layer_qualified_name GQA_QKV_PROJ_NAME in
        do! setattr attention_layer (KEYS_NAME cls) fake_k_proj in
        let! fake_v_proj :=
          FakeProj (attention_layer_qualified_name +:+ "." +:+ VALUES_NAME cls) "v" 2
            (thunk_of attention_layer) attention_layer_qualified_name GQA_QKV_PROJ_NAME in
        setattr attention_layer (VALUES_NAME cls) fake_v_proj
  end.

(** [v] is a [FakeProj] with the given output index whose parent is the
    object at [parent] and whose fused projection is the attribute
    [GQA_QKV_PROJ_NAME] of that parent. *)
Definition fake_proj_on (h : heap) (v : value) (output_index : Z) (parent : loc) : Prop :=
  isinstance h v FakeProj_class = true
  /\ lookup_attr h v "output_index" = Some (VInt output_index)
  /\ lookup_attr h v "get_parent_module" = Some (VThunk parent)
  /\ lookup_attr h v "gqa_qkv_proj_name" = Some (VStr GQA_QKV_PROJ_NAME).

(** What lines 454-489 of [ParallelSelfAttention._transform] compute. *)
Record attention_ctx : Type := mkAttentionCtx {
  ctx_skip_linear_weight_load : value;
  ctx_kv_size_multiplier : value;
  ctx_weight_map : value;
  ctx_layer_qualified_name : string;
  ctx_num_attention_heads_name : string;
  ctx_num_attention_heads : value;
  ctx_all_head_size_name : string
}.

Definition attr_name_or (declared : option string) (normalized : option string) : M string :=
  match declared with
  | Some n => ret n
  | None =>
      match normalized with
      | Some n => ret n
      | None => raise AttributeError
      end
  end.

Definition kv_names_inconsistent (cls : ParallelSelfAttention) : bool :=
  (bool_decide (NUM_KEY_VALUE_HEADS_NAME cls <> None)
     && bool_decide (NUM_KEY_VALUE_GROUPS_NAME cls = None))
  || (bool_decide (NUM_KEY_VALUE_HEADS_NAME cls = None)
        && bool_decide (NUM_KEY_VALUE_GROUPS_NAME cls <> None)).

(** Lines 454-489: the declared names are consistent and the head count
    and head size attributes are on the layer. *)
Definition ParallelSelfAttention_checks (cls : ParallelSelfAttention)
    (model layer : value) (parallel_layer_specific_kwargs : kwargs) : M attention_ctx :=
  if kv_names_inconsistent cls then raise AttributeError
  else
    let! skip_linear_weight_load :=
      kwargs_getitem parallel_layer_specific_kwargs "skip_linear_weight_load" in
    let! kv_size_multiplier :=
      kwargs_getitem parallel_layer_specific_kwargs "kv_size_multiplier" in
    let! weight_map := getattr_default model "_weight_map" VNone in
    let! config := getattr model "config" in
    let! model_type := getattr config "model_type" in
    let! normalized_config := (fun h => (h, get_normalized_config E h model_type config)) in
    let! layer_qualified_name := layer_qualified_name_in model layer in
    let! num_attention_heads_name :=
      attr_name_or (NUM_ATTENTION_HEADS_NAME cls) (nc_NUM_ATTENTION_HEADS normalized_config) in
    let! has := read (fun h => hasattr h layer num_attention_heads_name) in
    if negb has then raise AttributeError
    else
      let! num_attention_heads := getattr layer num_attention_heads_name in
      let! all_head_size_name :=
        attr_name_or (ALL_HEAD_SIZE_NAME cls) (nc_ALL_HEAD_SIZE_NAME normalized_config) in
      let! has := read (fun h => hasattr h layer all_head_size_name) in
      if negb has then raise AttributeError
      else
        ret (mkAttentionCtx skip_linear_weight_load kv_size_multiplier weight_map
               layer_qualified_name num_attention_heads_name num_attention_heads
               all_head_size_name).

(** Lines 491-500: the number of key/value heads and whether the fused
    GQA projection is needed. *)
Definition key_value_heads (cls : ParallelSelfAttention) (layer : value)
    (ctx : attention_ctx) : M (value * bool) :=
  match NUM_KEY_VALUE_HEADS_NAME cls with
  | Some kv_heads_name =>
      let! num_key_value_heads := getattr layer kv_heads_name in
      let! nkv := lift (as_int num_key_value_heads) in
      let! c1 := lift (not_divisible_by nkv (tp_size E)) in
      let! c2 := (if c1 then lift (not_divisible_by (tp_size E) nkv) else ret false) in
      if c1 && c2 then raise ValueError
      else ret (num_key_value_heads, Z.ltb nkv (tp_size E))
  | None =>
      let! num_key_value_heads := getattr layer (ctx_num_attention_heads_name ctx) in
      ret (num_key_value_heads, false)
  end.

(** Lines 511-528: the loop over the three projections. *)
Fixpoint column_shard_projections (layer : value) (sequence_parallel_enabled : bool)
    (device : value) (ctx : attention_ctx) (names : list string) : M unit :=
  match names with
  | [] => ret tt
  | name :: rest =>
      let! infos :=
        lift (get_linear_weight_info E (ctx_weight_map ctx)
                (ctx_layer_qualified_name ctx +:+ "." +:+ name) device (Some false)) in
      let! linear := getattr layer name in
      let! parallel_linear :=
        linear_to_parallel_linear E linear
          (mkLinearKwargs "column" None (Some false) (fst infos) (snd infos)
             sequence_parallel_enabled (ctx_skip_linear_weight_load ctx) device) in
      do! setattr layer name parallel_linear in
      column_shard_projections layer sequence_parallel_enabled device ctx rest
  end.

Definition shard_qkv_separately (cls : ParallelSelfAttention) (layer : value)
    (sequence_parallel_enabled : bool) (device : value) (ctx : attention_ctx) : M unit :=
  column_shard_projections layer sequence_parallel_enabled device ctx
    [QUERIES_NAME cls; KEYS_NAME cls; VALUES_NAME cls].

(** Lines 530-564: the output projection. *)
Definition shard_output_projection (cls : ParallelSelfAttention) (layer : value)
    (sequence_parallel_enabled : bool) (device : value) (ctx : attention_ctx)
    (needs_gqa_qkv_column_parallel_linear : bool) : M unit :=
  match OUTPUT_PROJECTION_NAME cls with
  | None => ret tt
  | Some output_name =>
      let! infos :=
        lift (get_linear_weight_info E (ctx_weight_map ctx)
                (ctx_layer_qualified_name ctx +:+ "." +:+ output_name) device (Some false)) in
      let! output_proj := getattr layer output_name in
      let! parallel_output_proj :=
        linear_to_parallel_linear E output_proj
          (mkLinearKwargs "row" (Some true) None (fst infos) (snd infos)
             sequence_parallel_enabled (ctx_skip_linear_weight_load ctx) device) in
      do! (if needs_gqa_qkv_column_parallel_linear then
             let! qga_qkv_layer := getattr layer GQA_QKV_PROJ_NAME in
             let! weight := getattr parallel_output_proj "weight" in
             do! mark_parameter_init_status_during_parallelization E weight false in
             let! nah := getattr qga_qkv_layer "num_attention_heads" in
             let! nkvh := getattr qga_qkv_layer "num_key_value_heads" in
             let! kvm := getattr qga_qkv_layer "kv_size_multiplier" in
             let! original := getattr layer output_name in
             maybe_load_weights_to_output_projection E
               (mkOutputProjectionLoadArgs parallel_output_proj nah nkvh kvm original
                  (fst infos) (snd infos)
                  (negb (truthy (ctx_skip_linear_weight_load ctx)))
                  (negb (truthy (ctx_skip_linear_weight_load ctx))))
           else ret tt) in
      setattr layer output_name parallel_output_proj
  end.

(** [setattr(obj, name, a // b)] *)
Definition set_floordiv (obj : value) (name : string) (a : value) (b : Z) : M unit :=
  let! a := lift (as_int a) in
  let! q := lift (py_floordiv a b) in
  setattr obj name (VInt q).

(** Lines 566-606: the head counts and the head size on the layer. *)
Definition update_head_counts (cls : ParallelSelfAttention) (layer : value)
    (ctx : attention_ctx) (num_key_value_heads : value)
    (needs_gqa_qkv_column_parallel_linear : bool) : M value :=
  let tp_size := tp_size E in
  do! set_floordiv layer (ctx_num_attention_heads_name ctx) (ctx_num_attention_heads ctx) tp_size in
  do! (match NUM_KEY_VALUE_HEADS_NAME cls with
       | None => ret tt
       | Some kv_heads_name =>
           if negb needs_gqa_qkv_column_parallel_linear then
             set_floordiv layer kv_heads_name num_key_value_heads tp_size
           else
             let! gqa_qkv_proj := getattr layer GQA_QKV_PROJ_NAME in
             let! kvm := getattr gqa_qkv_proj "kv_size_multiplier" in
             let! nkv := lift (as_int num_key_value_heads) in
             let! kvm := lift (as_int kvm) in
             let! new_num_key_value_heads := lift (py_floordiv (nkv * kvm) tp_size) in
             do! setattr layer kv_heads_name (VInt new_num_key_value_heads) in
             let! heads := getattr layer (ctx_num_attention_heads_name ctx) in
             let! heads := lift (as_int heads) in
             let! groups := lift (py_floordiv heads new_num_key_value_heads) in
             match NUM_KEY_VALUE_GROUPS_NAME cls with
             | Some groups_name => setattr layer groups_name (VInt groups)
             | None => raise TypeError
             end
       end) in
  let! all_head_size := getattr layer (ctx_all_head_size_name ctx) in
  do! set_floordiv layer (ctx_all_head_size_name ctx) all_head_size tp_size in
  ret layer.

(** Lines 502-606, once the path is chosen. *)
Definition ParallelSelfAttention_apply (cls : ParallelSelfAttention)
    (model layer : value) (sequence_parallel_enabled : bool) (device : value)
    (ctx : attention_ctx) (num_key_value_heads : value)
    (needs_gqa_qkv_column_parallel_linear : bool) : M value :=
  do! (if needs_gqa_qkv_column_parallel_linear then
         replace_qkv_by_gqa_qkv_column_parallel_linear cls model layer
           sequence_parallel_enabled (ctx_kv_size_multiplier ctx)
           (ctx_skip_linear_weight_load ctx)
       else shard_qkv_separately cls layer sequence_parallel_enabled device ctx) in
  do! shard_output_projection cls layer sequence_parallel_enabled device ctx
        needs_gqa_qkv_column_parallel_linear in
  update_head_counts cls layer ctx num_key_value_heads needs_gqa_qkv_column_parallel_linear.

(** [ParallelSelfAttention._transform] *)
Definition ParallelSelfAttention_transform (cls : ParallelSelfAttention)
    (model layer : value) (sequence_parallel_enabled : bool) (device : value)
    (parallel_layer_specific_kwargs : kwargs) : M value :=
  let! ctx := ParallelSelfAttention_checks cls model layer parallel_layer_specific_kwargs in
  let! kv := key_value_heads cls layer ctx in
  ParallelSelfAttention_apply cls model layer sequence_parallel_enabled device ctx
    (fst kv) (snd kv).

(** ** [ParallelCrossEntropy] *)

Record ParallelCrossEntropy : Type := mkParallelCrossEntropy {
  LAST_LINEAR_PROJECTION_NAME : option name_spec
}.

(** [value == "..."] for the members of a list of strings. *)
Definition value_in_strs (v : value) (l : list string) : bool :=
  match v with
  | VStr s => str_in s l
  | _ => false
  end.

(** [ParallelCrossEntropy.is_eligible_for_cross_entropy_parallelization] *)
Definition is_eligible_for_cross_entropy_parallelization (model : value) : M bool :=
  let! config := getattr model "config" in
  let! problem_type := getattr_default config "problem_type" (VStr "") in
  ret (negb (value_in_strs problem_type ["regression"; "multi_label_classification"])).

(** [model.forward]: the instance attribute if there is one, otherwise the
    method of the class bound to the model. *)
Definition get_forward (model : value) : M value :=
  fun h =>
    match lookup_attr h model "forward" with
    | Some f => (h, Ok f)
    | None =>
        match model with
        | VRef l => (h, Ok (VBoundMethod l "forward"))
        | _ => (h, Raise AttributeError)
        end
    end.

(** [ParallelCrossEntropy.patch_cross_entropy] *)
Definition patch_cross_entropy (model : value) : M unit :=
  do! patch_everywhere E "CrossEntropyLoss" ParallelCrossEntropyLoss in
  let! orig_forward := get_forward model in
  setattr model "forward"
    (VPatched [("torch.nn.functional.cross_entropy", parallel_cross_entropy);
               ("torch.nn.modules.loss.F.cross_entropy", parallel_cross_entropy)]
              orig_forward).

(** Lines 972-985: the weight information of the projection; a
    [ValueError] of [get_linear_weight_info] is caught. *)
Definition last_projection_weight_info (model linear_projection : value) (device : value)
  : M (value * value) :=
  let! weight_map := getattr_default model "_weight_map" VNone in
  if is_none weight_map then ret (VNone, VNone)
  else
    let! linear_projection_qualified_name := layer_qualified_name_in model linear_projection in
    match get_linear_weight_info E weight_map linear_projection_qualified_name device None with
    | Ok infos => ret infos
    | Raise ValueError => ret (VNone, VNone)
    | Raise e => raise e
    end.

(** Lines 972-1003: shard the projection column-wise, then patch. *)
Definition shard_last_projection (model layer : value) (device : value)
    (skip_linear_weight_load : value)
    (linear_projection_parent : value) (linear_projection_attr_name : string)
    (linear_projection : value) : M value :=
  let! infos := last_projection_weight_info model linear_projection device in
  let! current := getattr linear_projection_parent linear_projection_attr_name in
  let! parallel_linear_projection :=
    linear_to_parallel_linear E current
      (mkLinearKwargs "column" None (Some false) (fst infos) (snd infos)
         false skip_linear_weight_load device) in
  do! setattr linear_projection_parent linear_projection_attr_name parallel_linear_projection in
  do! patch_cross_entropy model in
  ret layer.

(** [ParallelCrossEntropy._transform] *)
Definition ParallelCrossEntropy_transform (cls : ParallelCrossEntropy)
    (model layer : value) (sequence_parallel_enabled : bool) (device : value)
    (parallel_layer_specific_kwargs : kwargs) : M value :=
  let! skip_linear_weight_load :=
    kwargs_getitem parallel_layer_specific_kwargs "skip_linear_weight_load" in
  let! linear_projection_name :=
    (match LAST_LINEAR_PROJECTION_NAME cls with
     | Some spec =>
         let! model_class := read (fun h => class_name h model) in
         ret (name_for_class spec model_class)
     | None => ret None
     end) in
  match linear_projection_name with
  | None => ret layer
  | Some name =>
      let! eligible := is_eligible_for_cross_entropy_parallelization model in
      if negb eligible then ret layer
      else
        let! pa := _get_module_and_attribute_name layer name in
        let '(linear_projection_parent, linear_projection_attr_name) := pa in
        let! linear_projection := getattr linear_projection_parent linear_projection_attr_name in
        let! is_column := read (fun h => isinstance h linear_projection ColumnParallelLinear) in
        if is_column then
          do! patch_cross_entropy model in
          ret layer
        else
          let! is_row := read (fun h => isinstance h linear_projection RowParallelLinear) in
          if is_row then raise ValueError
          else
            shard_last_projection model layer device skip_linear_weight_load
              linear_projection_parent linear_projection_attr_name linear_projection
  end.

End parallel_layers.

End ParallelLayers.

(* ================================================================== *)
(** * The accelerator (accelerator.py)                                 *)
(* ================================================================== *)

Module Accelerator.

Inductive dtype : Type := float32 | bfloat16.

Inductive NeuronDistributedType : Type :=
  | MODEL_PARALLELISM
  | XLA_FSDP
  | OTHER_DISTRIBUTED_TYPE.

(** The fields of a [NeuronAccelerator] that the functions below read or
    write.  Models are objects; [_model_cpu_parameters_to_xla] maps the
    identity of a model to the dictionary from the identity of each CPU
    parameter to the parameter on the device. *)
Record NeuronAccelerator : Type := mkNeuronAccelerator {
  _models : list loc;
  _model_cpu_parameters_to_xla : list (loc * list (loc * loc));
  mixed_precision : string;
  distributed_type : NeuronDistributedType;
  device : value;
  zero_1 : bool
}.

Definition with_cpu_parameters_to_xla (self : NeuronAccelerator)
    (d : list (loc * list (loc * loc))) : NeuronAccelerator :=
  mkNeuronAccelerator (_models self) d (mixed_precision self) (distributed_type self)
    (device self) (zero_1 self).

(** The state: the accelerator itself and the object store. *)
Definition astate : Type := NeuronAccelerator * heap.

Definition on_heap {A} (m : M A) : ST astate A :=
  fun s => match m (snd s) with (h', r) => ((fst s, h'), r) end.

Definition self_get {A} (f : NeuronAccelerator -> A) : ST astate A :=
  fun s => (s, Ok (f (fst s))).

Definition self_set (f : NeuronAccelerator -> NeuronAccelerator) : ST astate unit :=
  fun s => ((f (fst s), snd s), Ok tt).

(** The arguments of the constructor [NeuronZero1Optimizer]; [z_defaults]
    is the dictionary passed as [**defaults], when there is one. *)
Record zero1_args : Type := mkZero1Args {
  z_params : value;
  z_optimizer_class : string;
  z_optimizer_dtype : dtype;
  z_pin_layout : bool;
  z_sharding_groups : value;
  z_grad_norm_groups : value;
  z_defaults : option (list (string * value))
}.

(** What the rest of the program provides: torch, torch_xla,
    neuronx_distributed, accelerate, peft and the other modules of the
    package. *)
Record externals : Type := mkExternals {
  (* [model.named_parameters()] and [model.local_named_parameters()]:
     names and identities of the parameters, in iteration order *)
  named_parameters : heap -> loc -> list (string * loc);
  local_named_parameters : heap -> loc -> list (string * loc);
  (* [model.modules()] and [model.named_modules()] *)
  modules : heap -> loc -> list loc;
  named_modules : heap -> loc -> list (string * loc);
  (* [Parallelizer.was_parallelized(model)] *)
  was_parallelized : heap -> loc -> bool;
  get_tied_parameters_dict : heap -> loc -> value;
  (* [self.state.trn_config.parallelize_model(model, device=)] *)
  parallelize_model : loc -> value -> M loc;
  move_model_to_device : loc -> value -> M unit;
  (* [model.move_model_to_device()] of an [NxDPPModel] *)
  nxdpp_move_model_to_device : loc -> M unit;
  tie_parameters : loc -> value -> M unit;
  check_neuron_cc_flags_for_model : loc -> M unit;
  is_custom_modeling_model : heap -> loc -> bool;
  (* [super().prepare_model(model, device_placement=, evaluation_mode=)] *)
  super_prepare_model : loc -> bool -> bool -> ST astate loc;
  (* [model.to(torch.bfloat16)] *)
  to_bfloat16 : loc -> M unit;
  gradient_checkpointing_disable : loc -> M unit;
  apply_activation_checkpointing : loc -> M unit;
  xla_device : value;
  mark_step : M unit;
  (* [ModelPatcher(specs, ignore_missing_attributes=).patch()] *)
  ModelPatcher_patch : list (loc * string * value) -> bool -> M unit;
  is_peft_available : bool;
  replace_class_in_inheritance_hierarchy : loc -> string -> string -> M unit;
  (* [args_and_kwargs_to_kwargs_only(cls, args, kwargs)] *)
  args_and_kwargs_to_kwargs_only : string -> value -> value -> result (list (string * value));
  model_parallel_is_initialized : bool;
  (* [get_data_parallel_group(as_list=True)] and
     [get_tensor_model_parallel_group(as_list=True)] *)
  get_data_parallel_group : result value;
  get_tensor_model_parallel_group : result value;
  NeuronZero1Optimizer : zero1_args -> M value
}.

Definition MODEL_PATCHING_SPECS : list (string * value) :=
  [("config.layerdrop", VInt 0);
   ("no_sync", VData "lambda" [("returns", VStr "contextlib.nullcontext()")])].

Definition NxDPPMODEL_PATCHING_SPECS : list (string * value) := [].

Section accelerator.

Context (E : externals).

(** [x in l] for a list of objects. *)
Definition list_in (x : loc) (l : list loc) : bool := existsb (Nat.eqb x) l.

(** ** [_prepare_optimizer_for_zero_1] *)

Definition mixed_precision_to_dtype : list (string * dtype) :=
  [("no", float32); ("bf16", bfloat16)].

(** [args, kwargs = optimizer._args_to_recreate] *)
Definition unpack_pair (v : value) : result (value * value) :=
  match v with
  | VTuple [a; b] => Ok (a, b)
  | VTuple _ => Raise ValueError
  | _ => Raise TypeError
  end.

(** [args[0]] and [args[1:]] *)
Definition tuple_head (v : value) : result value :=
  match v with
  | VTuple (x :: _) => Ok x
  | VTuple [] => Raise IndexError
  | _ => Raise TypeError
  end.

Definition tuple_tail (v : value) : result value :=
  match v with
  | VTuple vs => Ok (VTuple (drop 1 vs))
  | _ => Raise TypeError
  end.

(** Lines 266-301: the arguments with which [NeuronZero1Optimizer] is
    called. *)
Definition zero_1_arguments (optimizer : value) (optimizer_dtype : dtype) : M zero1_args :=
  let! groups :=
    (if negb (model_parallel_is_initialized E) then ret (VNone, VNone)
     else
       let! sharding_groups := lift (get_data_parallel_group E) in
       let! grad_norm_groups := lift (get_tensor_model_parallel_group E) in
       ret (sharding_groups, grad_norm_groups)) in
  let! lazy := read (fun h => hasattr h optimizer "_args_to_recreate") in
  let! optimizer_class := read (fun h => class_name h optimizer) in
  if lazy then
    let! recreate := getattr optimizer "_args_to_recreate" in
    let! ak := lift (unpack_pair recreate) in
    let! params := lift (tuple_head (fst ak)) in
    let! rest := lift (tuple_tail (fst ak)) in
    let! defaults := lift (args_and_kwargs_to_kwargs_only E optimizer_class rest (snd ak)) in
    ret (mkZero1Args params optimizer_class optimizer_dtype false
           (fst groups) (snd groups) (Some defaults))
  else
    let! param_groups := getattr optimizer "param_groups" in
    ret (mkZero1Args param_groups optimizer_class optimizer_dtype false
           (fst groups) (snd groups) None).

Definition _prepare_optimizer_for_zero_1 (self : NeuronAccelerator)
    (optimizer : value) (device_placement : option bool) : M value :=
  match dict_get mixed_precision_to_dtype (mixed_precision self) with
  | None => raise ValueError
  | Some optimizer_dtype =>
      let! args := zero_1_arguments optimizer optimizer_dtype in
      NeuronZero1Optimizer E args
  end.

(** ** [patch_model_for_neuron] *)

Definition DynamicPatch_save_pretrained : value :=
  VData "DynamicPatch" [("patch_function", VStr "create_patched_save_pretrained")].

Definition patch_model_for_neuron (model : loc)
    (patching_specs : option (list (string * value))) : M loc :=
  let patching_specs :=
    match patching_specs with
    | None => MODEL_PATCHING_SPECS
    | Some specs => specs
    end in
  let! pretrained := read (fun h => isinstance h (VRef model) "PreTrainedModel") in
  let patching_specs :=
    if pretrained
    then patching_specs ++ [("save_pretrained", DynamicPatch_save_pretrained)]
    else patching_specs in
  let prepared_patching_specs :=
    map (fun spec => (model, fst spec, snd spec)) patching_specs in
  do! ModelPatcher_patch E prepared_patching_specs true in
  if is_peft_available E then
    let! peft := read (fun h => isinstance h (VRef model) "PeftModel") in
    if peft then
      do! replace_class_in_inheritance_hierarchy E model "PeftModel" "NeuronPeftModel" in
      ret model
    else
      let! uses_peft :=
        read (fun h =>
                existsb (fun nm => isinstance h (VRef (snd nm)) "BaseTunerLayer"
                                   || isinstance h (VRef (snd nm)) "ModulesToSaveWrapper")
                        (named_modules E h model)) in
      if uses_peft then raise ValueError else ret model
  else ret model.

(** ** [_prepare_model_for_mp] *)

(** Lines 400-404. *)
Fixpoint patch_stage_modules (stage_modules : list value) : M (list value) :=
  match stage_modules with
  | [] => ret []
  | VRef module :: rest =>
      let! patched := patch_model_for_neuron module (Some NxDPPMODEL_PATCHING_SPECS) in
      let! rest := patch_stage_modules rest in
      ret (VRef patched :: rest)
  | _ :: _ => raise TypeError
  end.

Definition patch_local_stage_modules (model : loc) : M unit :=
  let! stage_modules := getattr (VRef model) "local_stage_modules" in
  match stage_modules with
  | VTuple ms =>
      let! patched := patch_stage_modules ms in
      setattr (VRef model) "local_stage_modules" (VTuple patched)
  | _ => raise TypeError
  end.

(** A dictionary from strings to strings. *)
Fixpoint as_str_dict (d : list (string * value)) : result (list (string * string)) :=
  match d with
  | [] => Ok []
  | (k, VStr s) :: rest =>
      try! rest := as_str_dict rest in Ok ((k, s) :: rest)
  | _ :: _ => Raise TypeError
  end.

(** [names.get(key, key)] *)
Definition renamed (names : list (string * string)) (key : string) : string :=
  match dict_get names key with Some n => n | None => key end.

(** Lines 408-409:
    [cpu_ids[names.get(key, key)] = cpu_ids.pop(key)], for the keys that
    [cpu_ids] has when the loop starts. *)
Definition rekey_step (names : list (string * string)) (cpu_ids : list (string * loc))
    (key : string) : result (list (string * loc)) :=
  try! popped := dict_pop cpu_ids key in
  Ok (dict_set (snd popped) (renamed names key) (fst popped)).

Fixpoint rekey (names : list (string * string)) (keys : list string)
    (cpu_ids : list (string * loc)) : result (list (string * loc)) :=
  match keys with
  | [] => Ok cpu_ids
  | key :: rest =>
      try! cpu_ids := rekey_step names cpu_ids key in
      rekey names rest cpu_ids
  end.

(** [names] is the dictionary
    [model._gqa_qkv_metadata["original_names_to_gqa_qkv_names"]]. *)
Definition gqa_renaming (h : heap) (model : loc) (names : list (string * string)) : Prop :=
  exists metadata renaming,
    lookup_attr h (VRef model) "_gqa_qkv_metadata" = Some (VDict metadata)
    /\ dict_get metadata "original_names_to_gqa_qkv_names" = Some (VDict renaming)
    /\ as_str_dict renaming = Ok names.

(** Lines 407-409. *)
Definition update_cpu_ids (model : loc) (cpu_ids : list (string * loc))
  : M (list (string * loc)) :=
  let! metadata := getattr (VRef model) "_gqa_qkv_metadata" in
  let! names :=
    lift (match metadata with
          | VDict d => dict_getitem d "original_names_to_gqa_qkv_names"
          | _ => Raise TypeError
          end) in
  let! names :=
    lift (match names with
          | VDict d => as_str_dict d
          | _ => Raise TypeError
          end) in
  lift (rekey names (dict_keys cpu_ids) cpu_ids).

(** [{cpu_ids[name]: xla_params[name] for name, _ in named}] *)
Fixpoint cpu_to_xla (cpu_ids xla_params : list (string * loc))
    (named : list (string * loc)) (acc : list (loc * loc)) : result (list (loc * loc)) :=
  match named with
  | [] => Ok acc
  | (name, _) :: rest =>
      try! cpu := dict_getitem cpu_ids name in
      try! xla := dict_getitem xla_params name in
      cpu_to_xla cpu_ids xla_params rest (dict_set acc cpu xla)
  end.

(** [set(a).symmetric_difference(b)], as a list of its members. *)
Definition symmetric_difference (a b : list string) : list string :=
  filter (fun x => negb (str_in x b)) a ++ filter (fun x => negb (str_in x a)) b.

(** Two lists of names with the same members. *)
Definition same_names (a b : list string) : Prop := forall x, In x a <-> In x b.

Definition record_parameters (model : loc) (mapping : list (loc * loc)) : ST astate unit :=
  self_set (fun self =>
    with_cpu_parameters_to_xla self
      (dict_set (_model_cpu_parameters_to_xla self) model mapping)).

(** Lines 417-437: placement on the device, tying, and the record of the
    parameters. *)
Definition place_and_record (model : loc) (tied_parameters_dict : value)
    (cpu_ids : list (string * loc)) : ST astate unit :=
  let! pipeline := on_heap (read (fun h => isinstance h (VRef model) "NxDPPModel")) in
  if pipeline then
    do! on_heap (nxdpp_move_model_to_device E model) in
    do! on_heap (tie_parameters E model tied_parameters_dict) in
    let! xla_params := on_heap (read (fun h => dict_of_list (local_named_parameters E h model))) in
    let! named := on_heap (read (fun h => local_named_parameters E h model)) in
    let! mapping := lift (cpu_to_xla cpu_ids xla_params named []) in
    record_parameters model mapping
  else
    let! device := self_get device in
    do! on_heap (move_model_to_device E model device) in
    do! on_heap (tie_parameters E model tied_parameters_dict) in
    let! xla_params := on_heap (read (fun h => dict_of_list (named_parameters E h model))) in
    let symmetric_diff := symmetric_difference (dict_keys cpu_ids) (dict_keys xla_params) in
    match symmetric_diff with
    | _ :: _ => raise ValueError
    | [] =>
        let! named := on_heap (read (fun h => named_parameters E h model)) in
        let! mapping := lift (cpu_to_xla cpu_ids xla_params named []) in
        record_parameters model mapping
    end.

(** Lines 391-409: the names and identities of the CPU parameters, the
    parallelization itself, and the names re-keyed through the GQA
    renaming. *)
Definition parallelize_and_update_ids (model : loc)
  : ST astate (loc * value * list (string * loc)) :=
  let! cpu_ids := on_heap (read (fun h => dict_of_list (named_parameters E h model))) in
  let! tied_parameters_dict := on_heap (read (fun h => get_tied_parameters_dict E h model)) in
  let! model_main_input_name :=
    on_heap (getattr_default (VRef model) "main_input_name" VNone) in
  let! device := self_get device in
  let! model := on_heap (parallelize_model E model device) in
  do! (if negb (is_none model_main_input_name)
       then on_heap (setattr (VRef model) "main_input_name" model_main_input_name)
       else ret tt) in
  let! pipeline := on_heap (read (fun h => isinstance h (VRef model) "NxDPPModel")) in
  do! (if pipeline then on_heap (patch_local_stage_modules model) else ret tt) in
  let! cpu_ids := on_heap (update_cpu_ids model cpu_ids) in
  ret (model, tied_parameters_dict, cpu_ids).

(** Line 388. *)
Definition already_prepared (model : loc) : ST astate bool :=
  let! models := self_get _models in
  if list_in model models then ret true
  else on_heap (read (fun h => was_parallelized E h model)).

Definition _prepare_model_for_mp (model : loc) (device_placement : option bool)
    (evaluation_mode : bool) : ST astate loc :=
  let! done := already_prepared model in
  if done then ret model
  else
    let! parallelized := parallelize_and_update_ids model in
    let '(model, tied_parameters_dict, cpu_ids) := parallelized in
    do! place_and_record model tied_parameters_dict cpu_ids in
    ret model.

(** ** [prepare_model] *)

(** Lines 457-459 and 471-473. *)
Definition disable_cache_and_extra_outputs (model : loc) : M unit :=
  let! config := getattr (VRef model) "config" in
  do! setattr config "use_cache" (VBool false) in
  let! config := getattr (VRef model) "config" in
  do! setattr config "output_attentions" (VBool false) in
  let! config := getattr (VRef model) "config" in
  setattr config "output_hidden_states" (VBool false).

(** Lines 475-479. *)
Fixpoint disable_gradient_checkpointing (model : loc) (mods : list loc) (should : bool)
  : M bool :=
  match mods with
  | [] => ret should
  | mod_ :: rest =>
      let! flag := getattr_default (VRef mod_) "gradient_checkpointing" (VBool false) in
      if truthy flag then
        do! gradient_checkpointing_disable E model in
        disable_gradient_checkpointing model rest true
      else disable_gradient_checkpointing model rest should
  end.

(** Lines 482-486. *)
Fixpoint disable_attention_backends (mods : list loc) : M unit :=
  match mods with
  | [] => ret tt
  | module :: rest =>
      let! sdpa := getattr_default (VRef module) "_use_sdpa" (VBool false) in
      do! (if truthy sdpa then setattr (VRef module) "_use_sdpa" (VBool false) else ret tt) in
      let! flash := getattr_default (VRef module) "_use_flash_attention_2" (VBool false) in
      do! (if truthy flash
           then setattr (VRef module) "_use_flash_attention_2" (VBool false)
           else ret tt) in
      disable_attention_backends rest
  end.

Definition prepare_model (model : loc) (device_placement : option bool)
    (evaluation_mode : bool) : ST astate loc :=
  let! models := self_get _models in
  if list_in model models then ret model
  else
    do! on_heap (check_neuron_cc_flags_for_model E model) in
    let! custom := on_heap (read (fun h => is_custom_modeling_model E h model)) in
    if custom then
      do! on_heap (disable_cache_and_extra_outputs model) in
      let! device := self_get device in
      do! on_heap (move_model_to_device E model device) in
      super_prepare_model E model false evaluation_mode
    else
      let! model := on_heap (patch_model_for_neuron model None) in
      let! precision := self_get mixed_precision in
      do! (if String.eqb precision "bf16" then on_heap (to_bfloat16 E model) else ret tt) in
      do! on_heap (disable_cache_and_extra_outputs model) in
      let! mods := on_heap (read (fun h => modules E h model)) in
      let! should_apply_activation_checkpointing :=
        on_heap (disable_gradient_checkpointing model mods false) in
      let! mods := on_heap (read (fun h => modules E h model)) in
      do! on_heap (disable_attention_backends mods) in
      let! distributed := self_get distributed_type in
      let! model :=
        (match distributed with
         | MODEL_PARALLELISM =>
             let! model := _prepare_model_for_mp model device_placement evaluation_mode in
             do! (if should_apply_activation_checkpointing
                  then on_heap (apply_activation_checkpointing E model)
                  else ret tt) in
             ret model
         | _ =>
             do! (if should_apply_activation_checkpointing
                  then on_heap (apply_activation_checkpointing E model)
                  else ret tt) in
             do! on_heap (move_model_to_device E model (xla_device E)) in
             ret model
         end) in
      let! model := super_prepare_model E model false evaluation_mode in
      do! on_heap (mark_step E) in
      ret model.

End accelerator.

End Accelerator.

(* ================================================================== *)
(** * The other rules of parallel_layers.py                            *)
(* ================================================================== *)

(** The rules below are embedded one module per class, so that the
    attributes of a class keep their names: [ParallelMLP._transform] is
    the method [_transform] of the class [ParallelMLP]. *)

(** [ParallelEmbedding.overwrite_vocab_size_value_for_cross_entropy_computation] *)
Module VocabSize.
Import ParallelLayers.

Section vocab_size.
Context (E : externals).

(** [for name in names: obj = getattr(obj, name)] *)
Fixpoint getattr_path (obj : value) (names : list string) : M value :=
  match names with
  | [] => ret obj
  | name :: rest =>
      let! obj := getattr obj name in
      getattr_path obj rest
  end.

Definition overwrite_vocab_size_value_for_cross_entropy_computation
    (cls : ParallelEmbedding) (layer : value) : M unit :=
  let tp_size := tp_size E in
  match VOCAB_SIZE_NAME cls with
  | None => ret tt
  | Some vocab_size_name =>
      let attribute_names := split_dots vocab_size_name in
      let! obj := getattr_path layer (removelast attribute_names) in
      let vocab_size_attribute_name := List.last attribute_names "" in
      let! vocab_size := getattr obj vocab_size_attribute_name in
      set_floordiv obj vocab_size_attribute_name vocab_size tp_size
  end.

End vocab_size.
End VocabSize.

Module ParallelSelfAttentionWithFusedQKV.
Import ParallelLayers.

Record t : Type := mk {
  QUERY_KEY_VALUE_NAME : string;
  OUTPUT_PROJECTION_NAME : option string;
  NUM_ATTENTION_HEADS_NAME : option string;
  ALL_HEAD_SIZE_NAME : option string
}.

Definition PARALLEL_LAYER_SPECIFIC_KWARGS : kwargs :=
  [("skip_linear_weight_load", VBool false)].

Section rule.
Context (E : externals).

(** [linear_to_parallel_linear] called with [stride=]. *)
Context (linear_to_parallel_linear_with_stride : value -> linear_kwargs -> Z -> M value).

(** [None, None], replaced by what [get_linear_weight_info] finds when the
    model has a weight map. *)
Definition weight_info_if_mapped (weight_map : value) (name : string) (device : value)
  : M (value * value) :=
  if is_none weight_map then ret (VNone, VNone)
  else lift (get_linear_weight_info E weight_map name device None).

(** Lines 700-721. *)
Definition shard_output_projection (cls : t) (layer : value)
    (sequence_parallel_enabled : bool) (device : value) (weight_map : value)
    (layer_qualified_name : string) (skip_linear_weight_load : value) : M unit :=
  match OUTPUT_PROJECTION_NAME cls with
  | None => ret tt
  | Some output_name =>
      let! infos :=
        weight_info_if_mapped weight_map (layer_qualified_name +:+ "." +:+ output_name)
          device in
      let! output_proj := getattr layer output_name in
      let! parallel_output_proj :=
        linear_to_parallel_linear E output_proj
          (mkLinearKwargs "row" (Some true) None (fst infos) (snd infos)
             sequence_parallel_enabled skip_linear_weight_load device) in
      setattr layer output_name parallel_output_proj
  end.

(** Lines 678-733: the two projections, then the head count and the head
    size of the layer. *)
Definition shard_and_update (cls : t) (layer : value)
    (sequence_parallel_enabled : bool) (device : value) (weight_map : value)
    (layer_qualified_name : string) (skip_linear_weight_load : value)
    (num_attention_heads_name : string) (num_attention_heads : value)
    (all_head_size_name : string) : M value :=
  let tp_size := tp_size E in
  let! infos :=
    weight_info_if_mapped weight_map
      (layer_qualified_name +:+ "." +:+ QUERY_KEY_VALUE_NAME cls) device in
  let! query_key_value := getattr layer (QUERY_KEY_VALUE_NAME cls) in
  let! parallel_linear :=
    linear_to_parallel_linear_with_stride query_key_value
      (mkLinearKwargs "column" None (Some false) (fst infos) (snd infos)
         sequence_parallel_enabled skip_linear_weight_load device) 3 in
  do! setattr layer (QUERY_KEY_VALUE_NAME cls) parallel_linear in
  do! shard_output_projection cls layer sequence_parallel_enabled device weight_map
        layer_qualified_name skip_linear_weight_load in
  do! set_floordiv layer num_attention_heads_name num_attention_heads tp_size in
  let! all_head_size := getattr layer all_head_size_name in
  do! set_floordiv layer all_head_size_name all_head_size tp_size in
  ret layer.

(** [ParallelSelfAttentionWithFusedQKV._transform] *)
Definition _transform (cls : t) (model layer : value)
    (sequence_parallel_enabled : bool) (device : value)
    (parallel_layer_specific_kwargs : kwargs) : M value :=
  let! skip_linear_weight_load :=
    kwargs_getitem parallel_layer_specific_kwargs "skip_linear_weight_load" in
  let! weight_map := getattr_default model "_weight_map" VNone in
  let! config := getattr model "config" in
  let! model_type := getattr config "model_type" in
  let! normalized_config := (fun h => (h, get_normalized_config E h model_type config)) in
  let! layer_qualified_name :=
    (if is_none weight_map then ret ""
     else layer_qualified_name_in E model layer) in
  let! num_attention_heads_name :=
    attr_name_or (NUM_ATTENTION_HEADS_NAME cls) (nc_NUM_ATTENTION_HEADS normalized_config) in
  let! has := read (fun h => hasattr h layer num_attention_heads_name) in
  if negb has then raise AttributeError
  else
    let! num_attention_heads := getattr layer num_attention_heads_name in
    let! all_head_size_name :=
      attr_name_or (ALL_HEAD_SIZE_NAME cls) (nc_ALL_HEAD_SIZE_NAME normalized_config) in
    let! has := read (fun h => hasattr h layer all_head_size_name) in
    if negb has then raise AttributeError
    else
      shard_and_update cls layer sequence_parallel_enabled device weight_map
        layer_qualified_name skip_linear_weight_load num_attention_heads_name
        num_attention_heads all_head_size_name.

End rule.
End ParallelSelfAttentionWithFusedQKV.

Module ParallelSelfOutput.
Import ParallelLayers.

Record t : Type := mk {
  OUTPUT_PROJECTION_NAME : string
}.

(** The class itself ([OUTPUT_PROJECTION_NAME = "dense"]); subclasses
    override the name. *)
Definition default : t := mk "dense".

Definition PARALLEL_LAYER_SPECIFIC_KWARGS : kwargs :=
  [("skip_linear_weight_load", VBool false)].

Section rule.
Context (E : externals).

(** [ParallelSelfOutput._transform] *)
Definition _transform (cls : t) (model layer : value)
    (sequence_parallel_enabled : bool) (device : value)
    (parallel_layer_specific_kwargs : kwargs) : M value :=
  let! skip_linear_weight_load :=
    kwargs_getitem parallel_layer_specific_kwargs "skip_linear_weight_load" in
  let! weight_map := getattr_default model "_weight_map" VNone in
  let! infos :=
    (if is_none weight_map then ret (VNone, VNone)
     else
       let! layer_qualified_name := layer_qualified_name_in E model layer in
       lift (get_linear_weight_info E weight_map
               (layer_qualified_name +:+ "." +:+ OUTPUT_PROJECTION_NAME cls) device None)) in
  let! output_proj := getattr layer (OUTPUT_PROJECTION_NAME cls) in
  let! parallel_output_proj :=
    linear_to_parallel_linear E output_proj
      (mkLinearKwargs "row" (Some true) None (fst infos) (snd infos)
         sequence_parallel_enabled skip_linear_weight_load device) in
  do! setattr layer (OUTPUT_PROJECTION_NAME cls) parallel_output_proj in
  ret layer.

End rule.
End ParallelSelfOutput.

Module ParallelMLP.
Import ParallelLayers.

Record t : Type := mk {
  FIRST_LINEAR_NAME : string;
  SECOND_LINEAR_NAME : string
}.

Definition PARALLEL_LAYER_SPECIFIC_KWARGS : kwargs :=
  [("skip_linear_weight_load", VBool false)].

(** The qualified name of a module in a dictionary
    [{id(module): name for name, module in model.named_modules()}] that was
    built beforehand. *)
Definition qualified_name_from (names : list (string * loc)) (layer : value)
  : result string :=
  match layer with
  | VRef l =>
      match last_name_of names l None with
      | Some name => Ok name
      | None => Raise KeyError
      end
  | _ => Raise KeyError
  end.

Section rule.
Context (E : externals).

(** Lines 817-840: the first projection, sharded along its columns, keeps
    its output sharded. *)
Definition shard_first_linear (cls : t)
    (layer_to_fully_qualified_name : list (string * loc)) (weight_map : value)
    (layer : value) (sequence_parallel_enabled : bool) (device : value)
    (skip_linear_weight_load : value) : M unit :=
  let! ma := _get_module_and_attribute_name layer (FIRST_LINEAR_NAME cls) in
  let '(module, attribute_name) := ma in
  let! infos :=
    (if is_none weight_map then ret (VNone, VNone)
     else
       let! layer_qualified_name :=
         lift (qualified_name_from layer_to_fully_qualified_name module) in
       lift (get_linear_weight_info E weight_map
               (layer_qualified_name +:+ "." +:+ attribute_name) device None)) in
  let! linear := getattr module attribute_name in
  let! parallel_linear :=
    linear_to_parallel_linear E linear
      (mkLinearKwargs "column" None (Some false) (fst infos) (snd infos)
         sequence_parallel_enabled skip_linear_weight_load device) in
  setattr module attribute_name parallel_linear.

(** Lines 842-865: the second projection, sharded along its rows, takes a
    sharded input. *)
Definition shard_second_linear (cls : t)
    (layer_to_fully_qualified_name : list (string * loc)) (weight_map : value)
    (layer : value) (sequence_parallel_enabled : bool) (device : value)
    (skip_linear_weight_load : value) : M unit :=
  let! ma := _get_module_and_attribute_name layer (SECOND_LINEAR_NAME cls) in
  let '(module, attribute_name) := ma in
  let! infos :=
    (if is_none weight_map then ret (VNone, VNone)
     else
       let! layer_qualified_name :=
         lift (qualified_name_from layer_to_fully_qualified_name module) in
       lift (get_linear_weight_info E weight_map
               (layer_qualified_name +:+ "." +:+ attribute_name) device None)) in
  let! linear := getattr module attribute_name in
  let! parallel_linear :=
    linear_to_parallel_linear E linear
      (mkLinearKwargs "row" (Some true) None (fst infos) (snd infos)
         sequence_parallel_enabled skip_linear_weight_load device) in
  setattr module attribute_name parallel_linear.

(** [ParallelMLP._transform]; the dictionary of the qualified names is
    built once, before the first replacement. *)
Definition _transform (cls : t) (model layer : value)
    (sequence_parallel_enabled : bool) (device : value)
    (parallel_layer_specific_kwargs : kwargs) : M value :=
  let! skip_linear_weight_load :=
    kwargs_getitem parallel_layer_specific_kwargs "skip_linear_weight_load" in
  let! layer_to_fully_qualified_name := read (fun h => named_modules E h model) in
  let! weight_map := getattr_default model "_weight_map" VNone in
  do! shard_first_linear cls layer_to_fully_qualified_name weight_map layer
        sequence_parallel_enabled device skip_linear_weight_load in
  do! shard_second_linear cls layer_to_fully_qualified_name weight_map layer
        sequence_parallel_enabled device skip_linear_weight_load in
  ret layer.

End rule.
End ParallelMLP.


(* ================================================================== *)
(** * Concrete models, layers and environments                         *)
(* ================================================================== *)

(** Small instances on which the functions above are run: a Llama-like
    model with one attention layer, an embedding and an LM head, under
    tensor-parallel sizes chosen per example, and an accelerator with
    stand-ins for the external operations. *)

Module Fixtures.

Import ParallelLayers.

Definition refs_of (d : list (string * value)) : list (string * loc) :=
  flat_map (fun kv => match snd kv with VRef l => [(fst kv, l)] | _ => [] end) d.

(** The modules of a model are listed in its attribute [_modules]. *)
Definition fx_named_modules (h : heap) (model : value) : list (string * loc) :=
  match lookup_attr h model "_modules" with
  | Some (VDict d) => refs_of d
  | _ => []
  end.

Definition fx_linear_to_parallel_linear (layer : value) (kw : linear_kwargs) : M value :=
  alloc (mkObject
           [if String.eqb (lk_axis kw) "column" then ColumnParallelLinear else RowParallelLinear;
            "Module"]
           (list_to_map
              [("original", layer);
               ("weight", VTensor [] "xla");
               ("gather_output",
                match lk_gather_output kw with Some b => VBool b | None => VNone end)])).

Definition fx_embedding_to_parallel_embedding
    (embedding lm_head w1 w2 w3 device : value) : M value :=
  let! parallel_embedding :=
    alloc (mkObject ["ParallelEmbedding"; "Module"] (list_to_map [("original", embedding)])) in
  if is_none lm_head then ret parallel_embedding
  else
    let! parallel_head :=
      alloc (mkObject [ColumnParallelLinear; "Module"] (list_to_map [("original", lm_head)])) in
    ret (VTuple [parallel_embedding; parallel_head]).

Definition fx_gqa_constructor (args : gqa_args) : M value :=
  alloc (mkObject ["OptimumGQAQKVColumnParallelLinear"; ColumnParallelLinear; "Module"]
           (list_to_map
              [("num_attention_heads", ga_num_attention_heads args);
               ("num_key_value_heads", ga_num_key_value_heads args);
               ("kv_size_multiplier", ga_kv_size_multiplier args)])).

(** Loading marks the fused projection. *)
Definition fx_load_gqa_weights (model layer : value) (from_checkpoint from_layer : bool)
  : M unit :=
  fun h => (fst (setattr layer "weights_loaded" (VBool from_layer) h), Ok tt).

Definition fx_layers (tp : Z) : externals :=
  {| tp_size := tp;
     is_peft_available := false;
     named_modules := fx_named_modules;
     get_normalized_config := fun _ _ _ =>
       Ok (mkNormalizedConfig (Some "num_attention_heads") None);
     get_linear_weight_info := fun _ _ _ _ => Ok (VNone, VNone);
     linear_to_parallel_linear := fx_linear_to_parallel_linear;
     embedding_to_parallel_embedding := fx_embedding_to_parallel_embedding;
     OptimumGQAQKVColumnParallelLinear := fx_gqa_constructor;
     maybe_load_weights_to_gqa_qkv_column_parallel_linear := fx_load_gqa_weights;
     mark_parameter_init_status_during_parallelization := fun _ _ => ret tt;
     maybe_load_weights_to_output_projection := fun _ => ret tt;
     patch_everywhere := fun _ _ => ret tt;
     get_base_layer := fun _ _ => Raise AttributeError |}.

Definition fx_linear (in_features out_features : Z) : object :=
  mkObject ["Linear"; "Module"]
    (list_to_map
       [("weight", VTensor [out_features; in_features] "cpu");
        ("bias", VNone);
        ("out_features", VInt out_features)]).

(** A model ([0]) with its configuration ([1]), an attention layer ([2])
    with 8 heads of size 8 and [nkv] key/value heads, and the projections
    of the layer ([3] to [6]). *)
Definition fx_attention_heap (nkv : Z) : heap :=
  list_to_map
    [(0%nat, mkObject ["LlamaForCausalLM"; "PreTrainedModel"; "Module"]
               (list_to_map
                  [("config", VRef 1);
                   ("self_attn", VRef 2);
                   ("_modules", VDict [("", VRef 0); ("self_attn", VRef 2);
                                       ("self_attn.q_proj", VRef 3);
                                       ("self_attn.k_proj", VRef 4);
                                       ("self_attn.v_proj", VRef 5);
                                       ("self_attn.o_proj", VRef 6)])]));
     (1%nat, mkObject ["LlamaConfig"] (list_to_map [("model_type", VStr "llama")]));
     (2%nat, mkObject ["LlamaAttention"; "Module"]
               (list_to_map
                  [("num_heads", VInt 8);
                   ("num_key_value_heads", VInt nkv);
                   ("num_key_value_groups", VInt (8 / nkv));
                   ("hidden_size", VInt 64);
                   ("q_proj", VRef 3); ("k_proj", VRef 4);
                   ("v_proj", VRef 5); ("o_proj", VRef 6)]));
     (3%nat, fx_linear 64 64);
     (4%nat, fx_linear 64 (8 * nkv));
     (5%nat, fx_linear 64 (8 * nkv));
     (6%nat, fx_linear 64 64)].

Definition fx_llama_attention : ParallelSelfAttention :=
  {| QUERIES_NAME := "q_proj";
     KEYS_NAME := "k_proj";
     VALUES_NAME := "v_proj";
     OUTPUT_PROJECTION_NAME := Some "o_proj";
     NUM_ATTENTION_HEADS_NAME := Some "num_heads";
     NUM_KEY_VALUE_HEADS_NAME := Some "num_key_value_heads";
     NUM_KEY_VALUE_GROUPS_NAME := Some "num_key_value_groups";
     ALL_HEAD_SIZE_NAME := Some "hidden_size" |}.

Definition fx_attention_kwargs : kwargs :=
  prepare_parallel_layer_specific_kwargs (Some PARALLEL_LAYER_SPECIFIC_KWARGS) [].

(** A model ([0]) with an embedding of [vocab] rows ([1]), an LM head
    ([2]) and a configuration ([3]) with the given problem type. *)
Definition fx_lm_heap (vocab : Z) (problem_type : value) : heap :=
  list_to_map
    [(0%nat, mkObject ["LlamaForCausalLM"; "PreTrainedModel"; "Module"]
               (list_to_map
                  [("config", VRef 3);
                   ("embed_tokens", VRef 1);
                   ("lm_head", VRef 2);
                   ("_modules", VDict [("", VRef 0); ("embed_tokens", VRef 1);
                                       ("lm_head", VRef 2)])]));
     (1%nat, mkObject ["Embedding"; "Module"]
               (list_to_map [("num_embeddings", VInt vocab);
                             ("weight", VTensor [vocab; 64] "cpu")]));
     (2%nat, fx_linear 64 vocab);
     (3%nat, mkObject ["LlamaConfig"]
               (list_to_map [("model_type", VStr "llama");
                             ("vocab_size", VInt vocab);
                             ("problem_type", problem_type)]))].

Definition fx_llama_embedding : ParallelEmbedding :=
  {| EMBEDDING_NAME := NameStr "embed_tokens";
     VOCAB_SIZE_NAME := Some "config.vocab_size";
     LM_HEAD_NAME := Some (NameDict [("LlamaForCausalLM", "lm_head")]) |}.

Definition fx_llama_cross_entropy : ParallelCrossEntropy :=
  {| LAST_LINEAR_PROJECTION_NAME := Some (NameDict [("LlamaForCausalLM", "lm_head")]) |}.

Definition fx_skip_kwargs : kwargs := [("skip_linear_weight_load", VBool false)].

(** [fx_lm_heap vocab VNone] whose model carries a weight map that has the
    bare name of the embedding among its keys, and not the name of its
    weight. *)
Definition fx_mapped_lm_heap (vocab : Z) : heap :=
  fst (setattr (VRef 0) "_weight_map"
         (VDict [("embed_tokens", VStr "model-00001.safetensors")])
         (fx_lm_heap vocab VNone)).

(** A rule whose embedding is named per class, with no entry for
    [LlamaForCausalLM] and no default. *)
Definition fx_bert_embedding : ParallelEmbedding :=
  {| EMBEDDING_NAME := NameDict [("BertModel", "embeddings.word_embeddings")];
     VOCAB_SIZE_NAME := Some "config.vocab_size";
     LM_HEAD_NAME := None |}.

(** [fx_lm_heap 12 VNone] after the embedding rule under a tensor-parallel
    size of 4: the LM head is the column-parallel linear [5]. *)
Definition fx_tied_heap : heap :=
  fst (ParallelEmbedding_transform (fx_layers 4) fx_llama_embedding (VRef 0) (VRef 0) false
         VNone [] (fx_lm_heap 12 VNone)).

(** [fx_lm_heap 12 VNone] with a row-parallel LM head. *)
Definition fx_row_head_heap : heap :=
  <[2%nat := mkObject [RowParallelLinear; "Module"] (list_to_map [])]> (fx_lm_heap 12 VNone).

(** What the embedding rule locates in [fx_lm_heap vocab _]. *)
Definition fx_located (vocab : Z) : embedding_located :=
  mkEmbeddingLocated (Some "lm_head") true (Some (VRef 0, "lm_head")) "embed_tokens"
    VNone VNone VNone (VInt vocab).

(** What the checks of the attention rule compute on
    [fx_attention_heap _]. *)
Definition fx_attention_ctx : attention_ctx :=
  mkAttentionCtx (VBool false) VNone VNone "self_attn" "num_heads" (VInt 8) "hidden_size".

(** The store after the fused projection replaced the projections of the
    layer with two key/value heads, under a tensor-parallel size of 4. *)
Definition fx_after_gqa_replacement : heap :=
  fst (replace_qkv_by_gqa_qkv_column_parallel_linear (fx_layers 4) fx_llama_attention
         (VRef 0) (VRef 2) false VNone (VBool false) (fx_attention_heap 2)).

(** ** Sequence parallelism *)

Import SequenceParallel.

(** Tensors are named; an operation appends its name. *)
Definition fx_torch_ops : torch_ops string unit :=
  {| transpose_0_1 := fun t => Ok (t +:+ ".transpose(0,1)");
     contiguous := fun t => Ok (t +:+ ".contiguous()");
     scatter_to_sequence_parallel_region := fun t => Ok ("scatter(" +:+ t +:+ ")");
     gather_from_sequence_parallel_region := fun t _ => Ok ("gather(" +:+ t +:+ ")");
     other_getitem := fun _ _ => Raise TypeError;
     other_slice_from := fun _ _ => Raise TypeError;
     re_match := fun pattern name => String.prefix pattern name |}.

Definition fx_embedding_forward : forward_fn string unit unit :=
  fun args _ => Ok (PTensor "embeds").

Definition fx_block_forward : forward_fn string unit unit :=
  fun args _ => Ok (PTuple [PTensor "hidden"; PTensor "attentions"]).

Definition fx_sequence_heap : gmap loc (nn_module string unit unit) :=
  list_to_map
    [(0%nat, mkModule ["Model"; "Module"] fx_block_forward);
     (1%nat, mkModule ["Embedding"; "Module"] fx_embedding_forward);
     (2%nat, mkModule ["Block"; "Module"] fx_block_forward)].

Definition fx_sequence_model : nn_model :=
  mkModel [("", 0%nat); ("embed", 1%nat); ("block", 2%nat)].

Definition fx_scatter_embedding_output : SequenceCollectiveOpInfo :=
  mkSequenceCollectiveOpInfo "scatter" (LayerType "Embedding") "output" "first".

Definition fx_gather_block_output : SequenceCollectiveOpInfo :=
  mkSequenceCollectiveOpInfo "gather" (LayerPattern "block") "output" "last".

Definition fx_after_scatter : gmap loc (nn_module string unit unit) :=
  fst (_sequence_parallelize fx_torch_ops fx_sequence_model fx_scatter_embedding_output
         fx_sequence_heap).

End Fixtures.

Module AcceleratorFixtures.

Import Accelerator.

Definition params_of (h : heap) (l : loc) (attr : string) : list (string * loc) :=
  match lookup_attr h (VRef l) attr with
  | Some (VDict d) => Fixtures.refs_of d
  | _ => []
  end.

(** The stand-in for the parallelization installs the parameters and the
    GQA renaming that the model carries in [_sharded_parameters] and
    [_sharded_gqa_names]; with [_pipeline] it wraps the model in a new
    [NxDPPModel] that holds them as its local parameters. *)
Definition fx_parallelize_model (model : loc) (device : value) : M loc :=
  let! parameters := getattr (VRef model) "_sharded_parameters" in
  let! names := getattr (VRef model) "_sharded_gqa_names" in
  let metadata := VDict [("original_names_to_gqa_qkv_names", names)] in
  let! pipeline := getattr_default (VRef model) "_pipeline" (VBool false) in
  if truthy pipeline then
    let! wrapped :=
      alloc (mkObject ["NxDPPModel"; "Module"]
               (list_to_map
                  [("original_torch_module", VRef model);
                   ("local_stage_modules", VTuple [VRef model]);
                   ("_parameters", parameters);
                   ("_local_parameters", parameters);
                   ("_gqa_qkv_metadata", metadata)])) in
    match wrapped with
    | VRef l => ret l
    | _ => raise ExternalError
    end
  else
    do! setattr (VRef model) "_parameters" parameters in
    do! setattr (VRef model) "_gqa_qkv_metadata" metadata in
    ret model.

Definition fx_super_prepare_model (model : loc) (device_placement evaluation_mode : bool)
  : ST astate loc :=
  fun s =>
    ((mkNeuronAccelerator (_models (fst s) ++ [model])
        (_model_cpu_parameters_to_xla (fst s)) (mixed_precision (fst s))
        (distributed_type (fst s)) (device (fst s)) (zero_1 (fst s)),
      snd s),
     Ok model).

Definition fx_dtype_name (d : dtype) : string :=
  match d with float32 => "float32" | bfloat16 => "bfloat16" end.

Definition fx_zero1_constructor (args : zero1_args) : M value :=
  alloc (mkObject ["NeuronZero1Optimizer"; "Optimizer"]
           (list_to_map
              [("params", z_params args);
               ("optimizer_class", VStr (z_optimizer_class args));
               ("optimizer_dtype", VStr (fx_dtype_name (z_optimizer_dtype args)))])).

Definition fx_accelerate : externals :=
  {| named_parameters := fun h l => params_of h l "_parameters";
     local_named_parameters := fun h l => params_of h l "_local_parameters";
     modules := fun _ l => [l];
     named_modules := fun _ l => [("", l)];
     was_parallelized := fun h l => hasattr h (VRef l) "_gqa_qkv_metadata";
     get_tied_parameters_dict := fun _ _ => VDict [];
     parallelize_model := fx_parallelize_model;
     move_model_to_device := fun l device => setattr (VRef l) "device" device;
     nxdpp_move_model_to_device := fun l => setattr (VRef l) "device" (VStr "xla");
     tie_parameters := fun _ _ => ret tt;
     check_neuron_cc_flags_for_model := fun _ => ret tt;
     is_custom_modeling_model := fun _ _ => false;
     super_prepare_model := fx_super_prepare_model;
     to_bfloat16 := fun l => setattr (VRef l) "dtype" (VStr "bfloat16");
     gradient_checkpointing_disable := fun l =>
       setattr (VRef l) "gradient_checkpointing" (VBool false);
     apply_activation_checkpointing := fun _ => ret tt;
     xla_device := VStr "xla:0";
     mark_step := ret tt;
     ModelPatcher_patch := fun _ _ => ret tt;
     is_peft_available := false;
     replace_class_in_inheritance_hierarchy := fun _ _ _ => ret tt;
     args_and_kwargs_to_kwargs_only := fun _ _ kwargs =>
       match kwargs with VDict d => Ok d | _ => Raise TypeError end;
     model_parallel_is_initialized := false;
     get_data_parallel_group := Ok VNone;
     get_tensor_model_parallel_group := Ok VNone;
     NeuronZero1Optimizer := fx_zero1_constructor |}.

Definition fx_accelerator (precision : string) : NeuronAccelerator :=
  mkNeuronAccelerator [] [] precision MODEL_PARALLELISM (VStr "xla:0") true.

Definition fx_model_object (parameters sharded names : list (string * value))
    (pipeline : bool) : object :=
  mkObject ["LlamaForCausalLM"; "PreTrainedModel"; "Module"]
    (list_to_map
       [("config", VRef 1);
        ("main_input_name", VStr "input_ids");
        ("_parameters", VDict parameters);
        ("_sharded_parameters", VDict sharded);
        ("_sharded_gqa_names", VDict names);
        ("_pipeline", VBool pipeline)]).

Definition fx_config_object : object :=
  mkObject ["LlamaConfig"] (list_to_map [("model_type", VStr "llama")]).

(** A model whose query and key projections are fused by the
    parallelization: two parameters are renamed. *)
Definition fx_gqa_model_heap : heap :=
  list_to_map
    [(0%nat, fx_model_object
               [("q_proj.weight", VRef 10); ("k_proj.weight", VRef 11);
                ("o_proj.weight", VRef 12)]
               [("qkv_proj.weight_q", VRef 20); ("qkv_proj.weight_k", VRef 21);
                ("o_proj.weight", VRef 22)]
               [("q_proj.weight", VStr "qkv_proj.weight_q");
                ("k_proj.weight", VStr "qkv_proj.weight_k")]
               false);
     (1%nat, fx_config_object)].

(** A model split over pipeline stages: the local stage holds the first
    of the two parameters. *)
Definition fx_pipeline_model_heap : heap :=
  list_to_map
    [(0%nat, fx_model_object
               [("layers.0.weight", VRef 10); ("layers.1.weight", VRef 11)]
               [("layers.0.weight", VRef 20)]
               []
               true);
     (1%nat, fx_config_object)].

(** A parallelization that loses a parameter. *)
Definition fx_broken_model_heap : heap :=
  list_to_map
    [(0%nat, fx_model_object
               [("layers.0.weight", VRef 10); ("layers.1.weight", VRef 11)]
               [("layers.0.weight", VRef 20)]
               []
               false);
     (1%nat, fx_config_object)].

(** The intermediate states of [_prepare_model_for_mp] on the GQA model. *)
Definition fx_gqa_parallelized : heap :=
  snd (fst (parallelize_and_update_ids fx_accelerate 0%nat
              (fx_accelerator "bf16", fx_gqa_model_heap))).

Definition fx_gqa_placed : heap :=
  fst (move_model_to_device fx_accelerate 0%nat (VStr "xla:0") fx_gqa_parallelized).

Definition fx_gqa_ids : list (string * loc) :=
  [("qkv_proj.weight_q", 10%nat); ("qkv_proj.weight_k", 11%nat); ("o_proj.weight", 12%nat)].

(** Optimizers: one built eagerly, one whose construction is postponed. *)
Definition fx_optimizer_heap : heap :=
  list_to_map
    [(0%nat, mkObject ["AdamW"; "Optimizer"]
               (list_to_map [("param_groups", VTuple [VDict [("lr", VInt 1)]])]));
     (1%nat, mkObject ["AdamW"; "Optimizer"]
               (list_to_map
                  [("_args_to_recreate",
                    VTuple [VTuple [VTuple [VRef 10; VRef 11]]; VDict [("lr", VInt 1)]])]))].

End AcceleratorFixtures.

(** More instances: a model with a weight map, and a GPT-NeoX-like
    attention layer with a fused projection. *)
Module MoreFixtures.

Import ParallelLayers Fixtures.

(** [fx_lm_heap], with a weight map on the model that has the bare name of
    the embedding among its keys, and the weight of the embedding only if
    [with_weight] is set. *)
Definition fx_weight_map (with_weight : bool) : list (string * value) :=
  ("embed_tokens", VStr "model-00001.safetensors")
  :: (if with_weight then [("embed_tokens.weight", VStr "model-00002.safetensors")] else []).

Definition fx_mapped_heap (with_weight : bool) : heap :=
  fst (setattr (VRef 0) "_weight_map" (VDict (fx_weight_map with_weight))
         (fx_lm_heap 32000 VNone)).

Definition fx_plain_embedding : ParallelEmbedding :=
  {| EMBEDDING_NAME := NameStr "embed_tokens";
     VOCAB_SIZE_NAME := Some "config.vocab_size";
     LM_HEAD_NAME := None |}.




End MoreFixtures.

(* ================================================================== *)
(** * Properties                                                       *)
(* ================================================================== *)

(** ** General facts about the embedding *)

Lemma str_in_In (s : string) (l : list string) : str_in s l = true <-> In s l.
Proof.
  unfold str_in. rewrite existsb_exists. split.
  - intros (x & Hx & Heq). apply String.eqb_eq in Heq. now subst.
  - intros H. exists s. split; [exact H | apply String.eqb_refl].
Qed.

Lemma str_in_not_In (s : string) (l : list string) : str_in s l = false <-> ~ In s l.
Proof.
  rewrite <- str_in_In. destruct (str_in s l); split; intros; congruence.
Qed.

Lemma bind_ok {S A B} (m : ST S A) (k : A -> ST S B) s s' a :
  m s = (s', Ok a) -> bind m k s = k a s'.
Proof. intros H. unfold bind. now rewrite H. Qed.

Lemma bind_raise {S A B} (m : ST S A) (k : A -> ST S B) s s' e :
  m s = (s', Raise e) -> bind m k s = (s', Raise e).
Proof. intros H. unfold bind. now rewrite H. Qed.

Lemma bind_ok_inv {S A B} (m : ST S A) (k : A -> ST S B) s s' b :
  bind m k s = (s', Ok b) ->
  exists a s1, m s = (s1, Ok a) /\ k a s1 = (s', Ok b).
Proof.
  unfold bind. destruct (m s) as [s1 [a|e]]; [eauto | discriminate].
Qed.

Lemma bind_assoc {S A B C} (m : ST S A) (k : A -> ST S B) (g : B -> ST S C) s :
  bind (bind m k) g s = bind m (fun a => bind (k a) g) s.
Proof. unfold bind. destruct (m s) as [s1 [a|e]]; reflexivity. Qed.

Lemma bind_ext {S A B} (m : ST S A) (k k' : A -> ST S B) s :
  (forall a s1, k a s1 = k' a s1) -> bind m k s = bind m k' s.
Proof. intros H. unfold bind. destruct (m s) as [s1 [a|e]]; [apply H | reflexivity]. Qed.

(** ** [SequenceCollectiveOpInfo] *)

Section sequence_collective_op_info.
Import SequenceParallel.

Lemma post_init_ok (self : SequenceCollectiveOpInfo) :
  __post_init__ self = Ok tt <->
  In (collective_op self) ["scatter"; "gather"] /\ In (io self) ["input"; "output"].
Proof.
  unfold __post_init__. rewrite <- !str_in_In.
  destruct (str_in (collective_op self) _), (str_in (io self) _); simpl;
    intuition congruence.
Qed.

Lemma post_init_raises (self : SequenceCollectiveOpInfo) e :
  __post_init__ self = Raise e -> e = ValueError.
Proof.
  unfold __post_init__.
  destruct (str_in (collective_op self) _), (str_in (io self) _); simpl; congruence.
Qed.

(** C9.  Constructing a [SequenceCollectiveOpInfo] raises [ValueError]
    if and only if [collective_op] is not one of "scatter", "gather" or
    [io] is not one of "input", "output"; it raises nothing else; every
    instance that is constructed has [collective_op] and [io] in these
    sets; and whatever [first_or_last] is, construction succeeds with the
    four fields as given once the other two fields are in range. *)
Theorem C9_construction_validates_op_and_io
    (co : string) (l : layer_selector) (i fl : string) :
  (new_SequenceCollectiveOpInfo co l i fl = Raise ValueError <->
     ~ In co ["scatter"; "gather"] \/ ~ In i ["input"; "output"])
  /\ (forall e, new_SequenceCollectiveOpInfo co l i fl = Raise e -> e = ValueError)
  /\ (forall info, new_SequenceCollectiveOpInfo co l i fl = Ok info ->
        In (collective_op info) ["scatter"; "gather"]
        /\ In (io info) ["input"; "output"])
  /\ (In co ["scatter"; "gather"] -> In i ["input"; "output"] ->
        new_SequenceCollectiveOpInfo co l i fl
        = Ok (mkSequenceCollectiveOpInfo co l i fl)).
Proof.
  unfold new_SequenceCollectiveOpInfo, rbind.
  pose proof (post_init_ok (mkSequenceCollectiveOpInfo co l i fl)) as Hok.
  pose proof (post_init_raises (mkSequenceCollectiveOpInfo co l i fl)) as Hraise.
  simpl in Hok.
  destruct (__post_init__ (mkSequenceCollectiveOpInfo co l i fl)) as [[]|e] eqn:Hrun.
  - destruct Hok as [Hok _]. specialize (Hok eq_refl). destruct Hok as [Hco Hio].
    repeat split.
    + discriminate.
    + intros [H|H]; contradiction.
    + discriminate.
    + inversion H; subst; exact Hco.
    + inversion H; subst; exact Hio.
  - pose proof (Hraise e eq_refl) as ->.
    assert (Hnot : ~ (In co ["scatter"; "gather"] /\ In i ["input"; "output"])).
    { intros H. apply Hok in H. discriminate. }
    repeat split.
    + intros _.
      destruct (in_dec string_dec co ["scatter"; "gather"]) as [Hc|Hc]; [|now left].
      right. intros Hi. apply Hnot. now split.
    + intros e' He'. congruence.
    + discriminate.
    + discriminate.
    + intros Hc Hi. exfalso. apply Hnot. now split.
Qed.

End sequence_collective_op_info.

(** ** [IOSequenceParallelizer._sequence_parallelize] *)

Section io_sequence_parallelizer_facts.
Import SequenceParallel.
Context {T O K : Type} (E : torch_ops T O).

Abbreviation forward := (forward_fn T O K).

Lemma rbind_ok_inv {A B} (r : result A) (k : A -> result B) b :
  rbind r k = Ok b -> exists a, r = Ok a /\ k a = Ok b.
Proof. destruct r as [a|e]; simpl; [eauto | discriminate]. Qed.

(** The two wrappers of the output side, on an original forward that
    returned a bare tensor. *)
Lemma scatter_output_forward_tensor (orig : forward) args kw t :
  orig (drop 1 args) kw = Ok (PTensor t) ->
  scatter_output_forward E orig args kw = rmap PTensor (reshaped_for E "scatter" t).
Proof.
  intros H. unfold scatter_output_forward, reshaped_for. rewrite H. simpl.
  destruct (transpose_0_1 E t) as [t1|e]; simpl; [|reflexivity].
  destruct (contiguous E t1) as [t2|e]; simpl; [|reflexivity].
  destruct (scatter_to_sequence_parallel_region E t2); reflexivity.
Qed.

Lemma gather_output_forward_tensor (orig : forward) args kw t :
  orig (drop 1 args) kw = Ok (PTensor t) ->
  gather_output_forward E orig args kw = rmap PTensor (reshaped_for E "gather" t).
Proof.
  intros H. unfold gather_output_forward, reshaped_for. rewrite H. simpl.
  destruct (gather_from_sequence_parallel_region E t false) as [g|e]; simpl; [|reflexivity].
  destruct (transpose_0_1 E g) as [t1|e]; simpl; [|reflexivity].
  destruct (contiguous E t1); reflexivity.
Qed.

(** ... and on an original forward that returned a tuple that starts
    with a tensor. *)
Lemma scatter_output_forward_tuple (orig : forward) args kw t rest :
  orig (drop 1 args) kw = Ok (PTuple (PTensor t :: rest)) ->
  scatter_output_forward E orig args kw
  = rmap (fun x => PTuple (PTensor x :: rest)) (reshaped_for E "scatter" t).
Proof.
  intros H. unfold scatter_output_forward, reshaped_for. rewrite H. simpl.
  destruct (transpose_0_1 E t) as [t1|e]; simpl; [|reflexivity].
  destruct (contiguous E t1) as [t2|e]; simpl; [|reflexivity].
  destruct (scatter_to_sequence_parallel_region E t2); reflexivity.
Qed.

Lemma gather_output_forward_tuple (orig : forward) args kw t rest :
  orig (drop 1 args) kw = Ok (PTuple (PTensor t :: rest)) ->
  gather_output_forward E orig args kw
  = rmap (fun x => PTuple (PTensor x :: rest)) (reshaped_for E "gather" t).
Proof.
  intros H. unfold gather_output_forward, reshaped_for. rewrite H. simpl.
  destruct (gather_from_sequence_parallel_region E t false) as [g|e]; simpl; [|reflexivity].
  destruct (transpose_0_1 E g) as [t1|e]; simpl; [|reflexivity].
  destruct (contiguous E t1); reflexivity.
Qed.

Lemma tuple_cons_not_tensor (x rest out : pyval T O) :
  tuple_cons x rest = Ok out -> is_tensor out = false.
Proof. destruct rest; simpl; intros H; inversion H; reflexivity. Qed.

(** A bare tensor comes out only if a bare tensor went in. *)
Lemma scatter_output_forward_tensor_inv (orig : forward) args kw x :
  scatter_output_forward E orig args kw = Ok (PTensor x) ->
  exists t, orig (drop 1 args) kw = Ok (PTensor t).
Proof.
  unfold scatter_output_forward. intros H.
  apply rbind_ok_inv in H as (out & Hout & H). rewrite Hout.
  destruct out as [t|vs|l|o]; [eauto | | |];
    simpl in H;
    repeat (apply rbind_ok_inv in H as (? & _ & H));
    first [discriminate | apply tuple_cons_not_tensor in H; discriminate].
Qed.

Lemma gather_output_forward_tensor_inv (orig : forward) args kw x :
  gather_output_forward E orig args kw = Ok (PTensor x) ->
  exists t, orig (drop 1 args) kw = Ok (PTensor t).
Proof.
  unfold gather_output_forward. intros H.
  apply rbind_ok_inv in H as (out & Hout & H). rewrite Hout.
  destruct out as [t|vs|l|o]; [eauto | | |];
    simpl in H;
    repeat (apply rbind_ok_inv in H as (? & _ & H));
    first [discriminate | apply tuple_cons_not_tensor in H; discriminate].
Qed.

(** What [_sequence_parallelize] installs on the output side. *)
Lemma sequence_parallelize_output_installs model info
    (h h' : gmap loc (nn_module T O K)) :
  io info = "output" ->
  _sequence_parallelize E model info h = (h', Ok tt) ->
  exists l m,
    h !! l = Some m
    /\ h' = <[l := mkModule (m_mro m)
                     (bind_method
                        ((if String.eqb (collective_op info) "scatter"
                          then scatter_output_forward E
                          else gather_output_forward E) (m_forward m)) l)]> h.
Proof.
  intros Hio. unfold _sequence_parallelize. rewrite Hio.
  destruct (String.eqb (collective_op info) "scatter");
    destruct (select_layers E h model (layer info)) as [[f l]|e]; try discriminate;
    simpl; unfold set_forward;
    match goal with |- context [h !! ?x] => destruct (h !! x) as [m|] eqn:Hm end;
    intros H; inversion H; subst; eauto.
Qed.

(** C7.  When [_sequence_parallelize] wraps the forward of a layer on the
    "output" side (scatter or gather), it replaces the forward of exactly
    one layer, and for every call: if the original forward returns a bare
    tensor, the new forward returns the bare reshaped tensor (or the
    error of the collective); if the original returns a tuple that starts
    with a tensor, the new forward returns the tuple of the reshaped
    tensor followed by the remaining elements unchanged; and the new
    forward returns a bare tensor only if the original did. *)
Theorem C7_output_wrapper_keeps_return_shape model info
    (h h' : gmap loc (nn_module T O K)) :
  io info = "output" ->
  _sequence_parallelize E model info h = (h', Ok tt) ->
  exists l m m',
    h !! l = Some m
    /\ h' = <[l := m']> h
    /\ m_mro m' = m_mro m
    /\ forall args kw,
         (forall t, m_forward m args kw = Ok (PTensor t) ->
            m_forward m' args kw
            = rmap PTensor (reshaped_for E (collective_op info) t))
         /\ (forall t rest, m_forward m args kw = Ok (PTuple (PTensor t :: rest)) ->
            m_forward m' args kw
            = rmap (fun x => PTuple (PTensor x :: rest))
                   (reshaped_for E (collective_op info) t))
         /\ (forall x, m_forward m' args kw = Ok (PTensor x) ->
            exists t, m_forward m args kw = Ok (PTensor t)).
Proof.
  intros Hio Hrun.
  destruct (sequence_parallelize_output_installs _ _ _ _ Hio Hrun) as (l & m & Hm & ->).
  eexists l, m, _. split; [exact Hm|]. split; [reflexivity|]. split; [reflexivity|].
  intros args kw. simpl. unfold bind_method.
  destruct (String.eqb (collective_op info) "scatter") eqn:Hop.
  - assert (Hr : forall t, reshaped_for E (collective_op info) t = reshaped_for E "scatter" t).
    { intros t. unfold reshaped_for. rewrite Hop. reflexivity. }
    repeat split.
    + intros t Ht. rewrite Hr. now apply scatter_output_forward_tensor.
    + intros t rest Ht. rewrite Hr. now apply scatter_output_forward_tuple.
    + intros x Hx. apply scatter_output_forward_tensor_inv in Hx. exact Hx.
  - assert (Hr : forall t, reshaped_for E (collective_op info) t = reshaped_for E "gather" t).
    { intros t. unfold reshaped_for. rewrite Hop. reflexivity. }
    repeat split.
    + intros t Ht. rewrite Hr. now apply gather_output_forward_tensor.
    + intros t rest Ht. rewrite Hr. now apply gather_output_forward_tuple.
    + intros x Hx. apply gather_output_forward_tensor_inv in Hx. exact Hx.
Qed.

End io_sequence_parallelizer_facts.

(** ** Dictionaries *)

Section dict_facts.
Context {K V : Type} `{EqDecision K}.
Implicit Types (d : list (K * V)) (k : K) (v : V).

Lemma dict_get_Some_keys d k v : dict_get d k = Some v -> In k (dict_keys d).
Proof.
  induction d as [|[k' v'] d IH]; simpl; [discriminate|].
  destruct (decide (k = k')) as [->|Hne]; [now left|].
  intros H. right. now apply IH.
Qed.

Lemma dict_get_None_keys d k : dict_get d k = None <-> ~ In k (dict_keys d).
Proof.
  induction d as [|[k' v'] d IH]; simpl; [tauto|].
  destruct (decide (k = k')) as [->|Hne].
  - split; [discriminate | intros H; exfalso; apply H; now left].
  - rewrite IH. split; [intros H [Heq|Hin]; [congruence | contradiction] | tauto].
Qed.

Lemma dict_keys_get d k : In k (dict_keys d) -> exists v, dict_get d k = Some v.
Proof.
  intros Hin. destruct (dict_get d k) as [v|] eqn:Hget; [eauto|].
  apply dict_get_None_keys in Hget. contradiction.
Qed.

Lemma dict_keys_set d k v x :
  In x (dict_keys (dict_set d k v)) <-> x = k \/ In x (dict_keys d).
Proof.
  induction d as [|[k' v'] d IH]; simpl.
  - split; [intros [H|[]]; now left | intros [H|[]]; now left].
  - destruct (decide (k = k')) as [->|Hne]; simpl.
    + split; [tauto | intros [->|H]; tauto].
    + unfold dict_keys in IH. rewrite IH. split; [tauto | tauto].
Qed.

Lemma dict_keys_fold (l : list (K * V)) d x :
  In x (dict_keys (fold_left (fun d kv => dict_set d (fst kv) (snd kv)) l d))
  <-> In x (dict_keys d) \/ In x (map fst l).
Proof.
  revert d. induction l as [|[k v] l IH]; intros d; simpl; [tauto|].
  rewrite IH, dict_keys_set. split; [intros [[->|H]|H]; auto | intros [H|[->|H]]; auto].
Qed.

Lemma dict_keys_of_list (l : list (K * V)) x :
  In x (dict_keys (dict_of_list l)) <-> In x (map fst l).
Proof. unfold dict_of_list. rewrite dict_keys_fold. simpl. tauto. Qed.
End dict_facts.

Section dict_nodup_facts.
Context {K V : Type} `{EqDecision K}.
Implicit Types (d : list (K * V)) (k : K) (v : V).

Lemma dict_keys_remove_subset d k x :
  In x (dict_keys (dict_remove d k)) -> In x (dict_keys d).
Proof.
  induction d as [|[k' v'] d IH]; simpl; [tauto|].
  destruct (decide (k = k')) as [->|Hne]; simpl; [tauto|].
  intros [Hx|Hx]; [now left | right; now apply IH].
Qed.

Lemma dict_remove_nodup d k : List.NoDup (dict_keys d) -> List.NoDup (dict_keys (dict_remove d k)).
Proof.
  induction d as [|[k' v'] d IH]; simpl; intros Hnd; [constructor|].
  apply NoDup_cons_iff in Hnd as [Hnotin Hnd].
  destruct (decide (k = k')) as [->|Hne]; simpl; [exact Hnd|].
  apply NoDup_cons_iff. split; [|now apply IH].
  intros Hin. apply Hnotin. now apply (dict_keys_remove_subset d k).
Qed.

Lemma dict_keys_remove d k x :
  List.NoDup (dict_keys d) ->
  In x (dict_keys (dict_remove d k)) <-> In x (dict_keys d) /\ x <> k.
Proof.
  induction d as [|[k' v'] d IH]; simpl; intros Hnd; [tauto|].
  apply NoDup_cons_iff in Hnd as [Hnotin Hnd].
  destruct (decide (k = k')) as [->|Hne]; simpl.
  - split.
    + intros Hx. split; [now right|]. intros ->. contradiction.
    + intros [[Hx|Hx] Hne]; [congruence | exact Hx].
  - unfold dict_keys in IH. rewrite (IH Hnd). split.
    + intros [Hx|[Hx Hxk]]; [split; [now left | congruence] | split; [now right | exact Hxk]].
    + intros [[Hx|Hx] Hxk]; [now left | right; now split].
Qed.

Lemma dict_set_nodup d k v : List.NoDup (dict_keys d) -> List.NoDup (dict_keys (dict_set d k v)).
Proof.
  induction d as [|[k' v'] d IH]; simpl; intros Hnd.
  - apply NoDup_cons_iff. split; [intros [] | constructor].
  - apply NoDup_cons_iff in Hnd as [Hnotin Hnd].
    destruct (decide (k = k')) as [->|Hne]; simpl.
    + apply NoDup_cons_iff. now split.
    + apply NoDup_cons_iff. split; [|now apply IH].
      intros Hin. apply dict_keys_set in Hin as [Heq|Hin]; [congruence | contradiction].
Qed.

Lemma dict_of_list_nodup (l : list (K * V)) : List.NoDup (dict_keys (dict_of_list l)).
Proof.
  unfold dict_of_list.
  assert (Hgen : forall d, List.NoDup (dict_keys d) ->
            List.NoDup (dict_keys (fold_left (fun d kv => dict_set d (fst kv) (snd kv)) l d))).
  { induction l as [|[k v] l IH]; intros d Hd; simpl; [exact Hd|].
    apply IH. now apply dict_set_nodup. }
  apply Hgen. constructor.
Qed.
End dict_nodup_facts.

(** ** The accelerator *)

Section accelerator_facts.
Import Accelerator.
Context (E : externals).

Lemma list_in_In (x : loc) (l : list loc) : list_in x l = true <-> In x l.
Proof.
  unfold list_in. rewrite existsb_exists. split.
  - intros (y & Hy & Heq). apply Nat.eqb_eq in Heq. now subst.
  - intros H. exists x. split; [exact H | apply Nat.eqb_refl].
Qed.

(** *** Idempotence *)

(** C10.  A model that is already in the list of prepared models is
    returned as it is by [prepare_model]: the accelerator and the object
    store are unchanged, whatever the external operations would do.
    Likewise [_prepare_model_for_mp] returns the model and leaves the
    state unchanged when the model is in that list or was already
    parallelized. *)
Theorem C10_prepare_model_skips_prepared_models
    (self : NeuronAccelerator) (h : heap) (model : loc)
    (device_placement : option bool) (evaluation_mode : bool) :
  (In model (_models self) ->
     prepare_model E model device_placement evaluation_mode (self, h)
     = ((self, h), Ok model))
  /\ (In model (_models self) \/ was_parallelized E h model = true ->
     _prepare_model_for_mp E model device_placement evaluation_mode (self, h)
     = ((self, h), Ok model)).
Proof.
  split.
  - intros Hin. apply list_in_In in Hin.
    unfold prepare_model, bind, self_get. simpl. rewrite Hin. reflexivity.
  - intros Hdone.
    unfold _prepare_model_for_mp, already_prepared, bind, self_get, on_heap, read.
    simpl.
    destruct (list_in model (_models self)) eqn:Hin; [reflexivity|].
    destruct Hdone as [Hm|Hp].
    + apply list_in_In in Hm. congruence.
    + simpl. rewrite Hp. reflexivity.
Qed.

(** *** ZeRO-1 *)

Lemma zero_1_arguments_dtype (optimizer : value) (d : dtype) h h' args :
  zero_1_arguments E optimizer d h = (h', Ok args) ->
  h' = h /\ z_optimizer_dtype args = d /\ z_pin_layout args = false.
Proof.
  unfold zero_1_arguments, bind, ret, lift, read, getattr, raise.
  repeat case_match; intros; simplify_eq; auto.
Qed.

Lemma zero_1_arguments_heap (optimizer : value) (d : dtype) h h' r :
  zero_1_arguments E optimizer d h = (h', r) -> h' = h.
Proof.
  unfold zero_1_arguments, bind, ret, lift, read, getattr, raise.
  repeat case_match; intros; simplify_eq; auto.
Qed.

(** An optimizer that was built eagerly, outside model parallelism. *)
Lemma zero_1_arguments_eager (optimizer : value) (d : dtype) h param_groups :
  model_parallel_is_initialized E = false ->
  hasattr h optimizer "_args_to_recreate" = false ->
  lookup_attr h optimizer "param_groups" = Some param_groups ->
  zero_1_arguments E optimizer d h
  = (h, Ok (mkZero1Args param_groups (class_name h optimizer) d false VNone VNone None)).
Proof.
  intros Hmp Hlazy Hpg.
  unfold zero_1_arguments, bind, ret, lift, read, getattr.
  rewrite Hmp. simpl. rewrite Hlazy, Hpg. reflexivity.
Qed.

(** An optimizer that was built lazily: its constructor arguments are
    kept, the first of them being the parameters. *)
Lemma zero_1_arguments_lazy (optimizer : value) (d : dtype) h params rest kw defaults :
  model_parallel_is_initialized E = false ->
  lookup_attr h optimizer "_args_to_recreate"
    = Some (VTuple [VTuple (params :: rest); kw]) ->
  args_and_kwargs_to_kwargs_only E (class_name h optimizer) (VTuple rest) kw = Ok defaults ->
  zero_1_arguments E optimizer d h
  = (h, Ok (mkZero1Args params (class_name h optimizer) d false VNone VNone (Some defaults))).
Proof.
  intros Hmp Hrec Hdef.
  unfold zero_1_arguments, bind, ret, lift, read, getattr, hasattr.
  rewrite Hmp. cbn -[class_name]. rewrite Hrec. cbn -[class_name].
  rewrite Hrec. cbn -[class_name]. rewrite drop_0, Hdef. reflexivity.
Qed.

(** C8.  [_prepare_optimizer_for_zero_1] raises [ValueError], without
    touching anything, for every mixed-precision mode other than "no" and
    "bf16".  For "no" (resp. "bf16") it is the call of
    [NeuronZero1Optimizer] on the arguments computed with
    [optimizer_dtype] float32 (resp. bfloat16); these arguments always
    carry that dtype, and for an optimizer built eagerly outside model
    parallelism they are the parameter groups and the class of the
    optimizer. *)
Theorem C8_zero_1_dtype_by_mixed_precision
    (self : NeuronAccelerator) (optimizer : value)
    (device_placement : option bool) (h : heap) :
  (mixed_precision self <> "no" -> mixed_precision self <> "bf16" ->
     _prepare_optimizer_for_zero_1 E self optimizer device_placement h
     = (h, Raise ValueError))
  /\ (forall d,
        (mixed_precision self = "no" /\ d = float32)
        \/ (mixed_precision self = "bf16" /\ d = bfloat16) ->
        _prepare_optimizer_for_zero_1 E self optimizer device_placement h
        = bind (zero_1_arguments E optimizer d) (NeuronZero1Optimizer E) h
        /\ (forall h' args, zero_1_arguments E optimizer d h = (h', Ok args) ->
              h' = h /\ z_optimizer_dtype args = d)
        /\ (forall param_groups,
              model_parallel_is_initialized E = false ->
              hasattr h optimizer "_args_to_recreate" = false ->
              lookup_attr h optimizer "param_groups" = Some param_groups ->
              _prepare_optimizer_for_zero_1 E self optimizer device_placement h
              = NeuronZero1Optimizer E
                  (mkZero1Args param_groups (class_name h optimizer) d false
                     VNone VNone None) h)).
Proof.
  split.
  - intros Hno Hbf. unfold _prepare_optimizer_for_zero_1, mixed_precision_to_dtype.
    simpl. repeat case_decide; try congruence. reflexivity.
  - intros d Hd.
    assert (Hget : dict_get mixed_precision_to_dtype (mixed_precision self) = Some d).
    { destruct Hd as [[-> ->]|[-> ->]]; reflexivity. }
    assert (Hrun : _prepare_optimizer_for_zero_1 E self optimizer device_placement h
                   = bind (zero_1_arguments E optimizer d) (NeuronZero1Optimizer E) h).
    { unfold _prepare_optimizer_for_zero_1. rewrite Hget. reflexivity. }
    split; [exact Hrun|]. split.
    + intros h' args Hargs. apply zero_1_arguments_dtype in Hargs. tauto.
    + intros pg Hmp Hlazy Hpg. rewrite Hrun.
      erewrite bind_ok; [reflexivity|].
      now apply zero_1_arguments_eager.
Qed.

(** *** The check of the parameter names *)

Lemma filter_nil_iff {A} (P : A -> Prop) `{!forall x, Decision (P x)} (l : list A) :
  filter P l = [] <-> (forall x, In x l -> ~ P x).
Proof.
  induction l as [|y l IH].
  - split; [intros _ x [] | reflexivity].
  - rewrite filter_cons. destruct (decide (P y)) as [Hy|Hy].
    + split; [discriminate|]. intros Hall. exfalso. apply (Hall y); [now left | exact Hy].
    + rewrite IH. split.
      * intros Hall x [<-|Hx]; auto.
      * intros Hall x Hx. apply Hall. now right.
Qed.

Lemma filter_missing_nil (a b : list string)
    `{!forall x, Decision (Is_true (negb (str_in x b)))} :
  filter (fun x => Is_true (negb (str_in x b))) a = [] <-> (forall x, In x a -> In x b).
Proof.
  rewrite filter_nil_iff. split.
  - intros Hall x Hx. specialize (Hall x Hx). apply str_in_In.
    destruct (str_in x b); [reflexivity | exfalso; apply Hall; exact I].
  - intros Hall x Hx Hn. apply Hall, str_in_In in Hx. rewrite Hx in Hn. exact Hn.
Qed.

Lemma symmetric_difference_nil (a b : list string) :
  symmetric_difference a b = [] <-> (forall x, In x a <-> In x b).
Proof.
  unfold symmetric_difference. split.
  - intros Hnil. apply app_eq_nil in Hnil as [Ha Hb].
    pose proof (proj1 (filter_missing_nil a b) Ha) as Hab.
    pose proof (proj1 (filter_missing_nil b a) Hb) as Hba.
    intros x. split; auto.
  - intros Hall.
    rewrite (proj2 (filter_missing_nil a b)) by (intros x; apply Hall).
    rewrite (proj2 (filter_missing_nil b a)) by (intros x; apply Hall).
    reflexivity.
Qed.

Lemma cpu_to_xla_total (cpu_ids xla_params named : list (string * loc)) acc :
  (forall n, In n (map fst named) ->
     In n (dict_keys cpu_ids) /\ In n (dict_keys xla_params)) ->
  exists mapping, cpu_to_xla cpu_ids xla_params named acc = Ok mapping.
Proof.
  revert acc. induction named as [|[name p] named IH]; intros acc Hin; simpl.
  - eauto.
  - destruct (Hin name) as [Hc Hx]; [now left|].
    apply dict_keys_get in Hc as [c Hc]. apply dict_keys_get in Hx as [x Hx].
    unfold dict_getitem. rewrite Hc, Hx. simpl.
    apply IH. intros n Hn. apply Hin. now right.
Qed.

Lemma same_names_dec (a b : list string) : {same_names a b} + {~ same_names a b}.
Proof.
  unfold same_names. destruct (symmetric_difference a b) eqn:Hd.
  - left. now apply symmetric_difference_nil.
  - right. intros Hs. apply symmetric_difference_nil in Hs. congruence.
Qed.

(** Lines 424-437, for a model that is not an [NxDPPModel]: after the
    model is moved and its weights are tied again, the names are compared
    and only then is the mapping recorded. *)
Lemma place_and_record_compares_names (model : loc) (tied : value)
    (cpu_ids : list (string * loc)) (self : NeuronAccelerator) (h h1 h2 : heap) :
  isinstance h (VRef model) "NxDPPModel" = false ->
  move_model_to_device E model (device self) h = (h1, Ok tt) ->
  tie_parameters E model tied h1 = (h2, Ok tt) ->
  (~ same_names (dict_keys cpu_ids) (map fst (named_parameters E h2 model)) ->
     place_and_record E model tied cpu_ids (self, h) = ((self, h2), Raise ValueError))
  /\ (same_names (dict_keys cpu_ids) (map fst (named_parameters E h2 model)) ->
     exists mapping,
       place_and_record E model tied cpu_ids (self, h)
       = ((with_cpu_parameters_to_xla self
             (dict_set (_model_cpu_parameters_to_xla self) model mapping), h2), Ok tt)).
Proof.
  intros Hpp Hmove Htie. unfold same_names.
  assert (Hkeys : forall x,
            In x (dict_keys (dict_of_list (named_parameters E h2 model)))
            <-> In x (map fst (named_parameters E h2 model))).
  { intros x. apply dict_keys_of_list. }
  unfold place_and_record, bind, on_heap, read, self_get, lift, raise, record_parameters,
    self_set.
  cbn [fst snd]. rewrite Hpp. cbn [fst snd]. rewrite Hmove. cbn [fst snd].
  rewrite Htie. cbn [fst snd].
  destruct (symmetric_difference (dict_keys cpu_ids)
              (dict_keys (dict_of_list (named_parameters E h2 model)))) eqn:Hd.
  - pose proof (proj1 (symmetric_difference_nil _ _) Hd) as Hd'. clear Hd.
    rename Hd' into Hd. split.
    + intros Hne. exfalso. apply Hne. intros x. rewrite (Hd x). apply Hkeys.
    + intros _.
      destruct (cpu_to_xla_total cpu_ids (dict_of_list (named_parameters E h2 model))
                  (named_parameters E h2 model) []) as [mapping Hm].
      { intros n Hn. split; [apply Hd|]; now apply Hkeys. }
      exists mapping. cbv beta iota. cbn [fst snd]. rewrite Hm. reflexivity.
  - split; [reflexivity|].
    intros Hsame. exfalso.
    assert (Hnil : symmetric_difference (dict_keys cpu_ids)
              (dict_keys (dict_of_list (named_parameters E h2 model))) = []).
    { apply symmetric_difference_nil. intros x. rewrite (Hsame x). symmetry. apply Hkeys. }
    congruence.
Qed.

(** The loop of lines 408-409 replaces every name by its renaming, as long
    as no name is renamed onto another recorded name: [pending] are the
    names still to be visited, [visited] the names already visited. *)
Lemma rekey_keys_invariant (names : list (string * string)) (original : list string)
    (pending visited : list string) (cpu_ids : list (string * loc)) :
  (forall k, In k original ->
     renamed names k = k \/ ~ In (renamed names k) original) ->
  (forall k, In k pending -> In k original) ->
  (forall k, In k visited -> In k original) ->
  List.NoDup pending ->
  (forall k, In k visited -> ~ In k pending) ->
  List.NoDup (dict_keys cpu_ids) ->
  (forall x, In x (dict_keys cpu_ids)
             <-> In x pending \/ exists p, In p visited /\ x = renamed names p) ->
  exists ids,
    rekey names pending cpu_ids = Ok ids
    /\ List.NoDup (dict_keys ids)
    /\ forall x, In x (dict_keys ids)
                 <-> exists k, (In k pending \/ In k visited) /\ x = renamed names k.
Proof.
  intros Hfresh. revert visited cpu_ids.
  induction pending as [|k pending IH]; intros visited cpu_ids Hpo Hvo Hnd Hdisj Hndk Hkeys.
  - exists cpu_ids. split; [reflexivity|]. split; [exact Hndk|].
    intros x. rewrite Hkeys. split.
    + intros [[]|(p & Hp & ->)]. eauto.
    + intros (p & [[]|Hp] & ->). eauto.
  - apply NoDup_cons_iff in Hnd as [Hk_pending Hnd].
    assert (Hk_in : In k (dict_keys cpu_ids)) by (apply Hkeys; left; now left).
    destruct (dict_keys_get _ _ Hk_in) as [v Hv].
    assert (Hk_visited : forall p, In p visited -> renamed names p <> k).
    { intros p Hp Heq.
      destruct (Hfresh p (Hvo p Hp)) as [Hsame|Hnew].
      - apply (Hdisj p Hp). left. congruence.
      - apply Hnew. rewrite Heq. apply Hpo. now left. }
    simpl. unfold rekey_step, dict_pop. rewrite Hv. simpl.
    destruct (IH (k :: visited) (dict_set (dict_remove cpu_ids k) (renamed names k) v))
      as (ids & Hrun & Hids_nd & Hids).
    + intros k' Hk'. apply Hpo. now right.
    + intros k' [<-|Hk']; [apply Hpo; now left | now apply Hvo].
    + exact Hnd.
    + intros k' [<-|Hk']; [exact Hk_pending|].
      intros Hin. apply (Hdisj k' Hk'). now right.
    + apply dict_set_nodup. now apply dict_remove_nodup.
    + intros x. rewrite dict_keys_set, (dict_keys_remove _ _ _ Hndk), Hkeys. split.
      * intros [->|[[[<-|Hx]|(p & Hp & ->)] Hne]].
        -- right. exists k. split; [now left | reflexivity].
        -- congruence.
        -- now left.
        -- right. exists p. split; [now right | reflexivity].
      * intros [Hx|(p & [<-|Hp] & ->)].
        -- right. split; [left; now right|]. intros ->. contradiction.
        -- now left.
        -- right. split; [right; eauto|]. now apply Hk_visited.
    + exists ids. split; [exact Hrun|]. split; [exact Hids_nd|].
      intros x. rewrite Hids. split.
      * intros (k' & Hk' & ->). exists k'. split; [|reflexivity].
        destruct Hk' as [Hk'|[Hk'|Hk']].
        -- left. now right.
        -- left. now left.
        -- now right.
      * intros (k' & Hk' & ->). exists k'. split; [|reflexivity].
        destruct Hk' as [[Hk'|Hk']|Hk'].
        -- right. now left.
        -- now left.
        -- right. now right.
Qed.

(** When no parameter is renamed onto the name of another parameter, the
    names after the loop are the renamings of the names before it. *)
Lemma rekey_renames_every_name (names : list (string * string))
    (cpu_ids : list (string * loc)) :
  List.NoDup (dict_keys cpu_ids) ->
  (forall k, In k (dict_keys cpu_ids) ->
     renamed names k = k \/ ~ In (renamed names k) (dict_keys cpu_ids)) ->
  exists ids,
    rekey names (dict_keys cpu_ids) cpu_ids = Ok ids
    /\ forall x, In x (dict_keys ids)
                 <-> exists k, In k (dict_keys cpu_ids) /\ x = renamed names k.
Proof.
  intros Hnd Hfresh.
  destruct (rekey_keys_invariant names (dict_keys cpu_ids) (dict_keys cpu_ids) [] cpu_ids)
    as (ids & Hrun & _ & Hids).
  - exact Hfresh.
  - intros k Hk. exact Hk.
  - intros k [].
  - exact Hnd.
  - intros k [].
  - exact Hnd.
  - intros x. split; [now left | intros [Hx|(p & [] & _)]; exact Hx].
  - exists ids. split; [exact Hrun|]. intros x. rewrite Hids. split.
    + intros (k & [Hk|[]] & ->). eauto.
    + intros (k & Hk & ->). eauto.
Qed.

Lemma on_heap_ok_inv {A} (m : M A) (s s' : astate) a :
  on_heap m s = (s', Ok a) -> m (snd s) = (snd s', Ok a) /\ fst s' = fst s.
Proof.
  unfold on_heap. destruct (m (snd s)) as [h' r]. intros Heq.
  inversion Heq; subst. simpl. auto.
Qed.

Lemma update_cpu_ids_rekeys (model : loc) (cpu_ids ids : list (string * loc)) h h' :
  update_cpu_ids model cpu_ids h = (h', Ok ids) ->
  h' = h
  /\ exists names, gqa_renaming h model names /\ rekey names (dict_keys cpu_ids) cpu_ids = Ok ids.
Proof.
  unfold update_cpu_ids, gqa_renaming, bind, getattr, lift, dict_getitem.
  destruct (lookup_attr h (VRef model) "_gqa_qkv_metadata") as [metadata|];
    [|discriminate].
  destruct metadata as [| | | | | |metadata| | | | |]; try discriminate.
  destruct (dict_get metadata "original_names_to_gqa_qkv_names") as [renaming|] eqn:Hget;
    [|discriminate].
  destruct renaming as [| | | | | |renaming| | | | |]; try discriminate.
  destruct (as_str_dict renaming) as [names|e] eqn:Hnames; [|discriminate].
  intros Hrun. injection Hrun as Hheap Hrekey. split; [congruence|].
  exists names. split; [|exact Hrekey].
  exists metadata, renaming. auto.
Qed.

(** The CPU names are re-keyed through the GQA renaming of the
    parallelized model: [ids] is what the loop of lines 408-409 makes of
    the names and identities taken before the transformation. *)
Lemma parallelize_and_update_ids_rekeys (model : loc) (s s' : astate) m tied ids :
  parallelize_and_update_ids E model s = (s', Ok (m, tied, ids)) ->
  exists names,
    gqa_renaming (snd s') m names
    /\ rekey names (dict_keys (dict_of_list (named_parameters E (snd s) model)))
             (dict_of_list (named_parameters E (snd s) model)) = Ok ids.
Proof.
  unfold parallelize_and_update_ids. intros Hrun.
  apply bind_ok_inv in Hrun as (cpu_ids & s1 & Hcpu & Hrun).
  apply on_heap_ok_inv in Hcpu as [Hcpu _]. unfold read in Hcpu.
  inversion Hcpu; subst cpu_ids. clear Hcpu.
  do 7 (apply bind_ok_inv in Hrun as (? & ? & _ & Hrun)).
  apply bind_ok_inv in Hrun as (ids' & s9 & Hupd & Hrun).
  unfold ret in Hrun. inversion Hrun; subst.
  apply on_heap_ok_inv in Hupd as [Hupd _].
  apply update_cpu_ids_rekeys in Hupd as [Hheap (names & Hnames & Hrekey)].
  exists names. rewrite Hheap. auto.
Qed.

(** C1 (amended).  For a model that is neither already prepared nor
    already parallelized and whose parallelized form is not an
    [NxDPPModel], once the model is parallelized, moved to the device and
    its weights tied again, [_prepare_model_for_mp] raises [ValueError]
    exactly when the set of CPU parameter names, re-keyed through the GQA
    renaming, differs from the set of parameter names of the resulting
    model; it returns the parallelized model exactly when the two sets
    are the same. *)
Theorem C1_names_checked_after_rekeying
    (self self1 : NeuronAccelerator) (h h1 h2 h3 : heap) (model m : loc)
    (device_placement : option bool) (evaluation_mode : bool)
    (tied : value) (ids : list (string * loc)) :
  already_prepared E model (self, h) = ((self, h), Ok false) ->
  parallelize_and_update_ids E model (self, h) = ((self1, h1), Ok (m, tied, ids)) ->
  isinstance h1 (VRef m) "NxDPPModel" = false ->
  move_model_to_device E m (device self1) h1 = (h2, Ok tt) ->
  tie_parameters E m tied h2 = (h3, Ok tt) ->
  let run := _prepare_model_for_mp E model device_placement evaluation_mode (self, h) in
  let after := map fst (named_parameters E h3 m) in
  (exists names,
     gqa_renaming h1 m names
     /\ rekey names (dict_keys (dict_of_list (named_parameters E h model)))
              (dict_of_list (named_parameters E h model)) = Ok ids)
  /\ (run = ((self1, h3), Raise ValueError) <-> ~ same_names (dict_keys ids) after)
  /\ ((exists s', run = (s', Ok m)) <-> same_names (dict_keys ids) after)
  /\ (forall s' r, run = (s', Ok r) -> r = m /\ snd s' = h3).
Proof.
  intros Hdone Hfront Hpp Hmove Htie run after.
  destruct (place_and_record_compares_names m tied ids self1 h1 h2 h3 Hpp Hmove Htie)
    as [Hdiff Hsame].
  fold after in Hdiff, Hsame.
  assert (Hrun : run = bind (place_and_record E m tied ids) (fun _ => ret m) (self1, h1)).
  { unfold run, _prepare_model_for_mp.
    rewrite (bind_ok _ _ _ _ _ Hdone). cbn iota.
    rewrite (bind_ok _ _ _ _ _ Hfront). reflexivity. }
  split.
  { apply (parallelize_and_update_ids_rekeys model (self, h) _ _ _ _ Hfront). }
  destruct (same_names_dec (dict_keys ids) after) as [Hs|Hn].
  - destruct (Hsame Hs) as [mapping Hm].
    assert (Hok : run = ((with_cpu_parameters_to_xla self1
                            (dict_set (_model_cpu_parameters_to_xla self1) m mapping), h3),
                         Ok m)).
    { rewrite Hrun. unfold bind. rewrite Hm. reflexivity. }
    split; [|split].
    + split; [rewrite Hok; discriminate | intros Hne; contradiction].
    + split; [intros _; exact Hs | intros _; eauto].
    + intros s' r Hr. rewrite Hok in Hr. inversion Hr. auto.
  - assert (Hraise : run = ((self1, h3), Raise ValueError)).
    { rewrite Hrun. unfold bind. rewrite (Hdiff Hn). reflexivity. }
    split; [|split].
    + split; [intros _; exact Hn | intros _; exact Hraise].
    + split; [intros [s' Hs']; rewrite Hraise in Hs'; discriminate
             | intros Hs; contradiction].
    + intros s' r Hr. rewrite Hraise in Hr. discriminate.
Qed.

End accelerator_facts.

(** ** Computations that only read the store *)

Section heap_preserving_facts.
Context {A B : Type}.

Lemma preserving_ret (a : A) : heap_preserving (ret a).
Proof. intros h h' r H. inversion H. reflexivity. Qed.

Lemma preserving_raise (e : exn) : heap_preserving (@raise heap A e).
Proof. intros h h' r H. inversion H. reflexivity. Qed.

Lemma preserving_lift (x : result A) : heap_preserving (lift x).
Proof. intros h h' r H. inversion H. reflexivity. Qed.

Lemma preserving_read (f : heap -> A) : heap_preserving (read f).
Proof. intros h h' r H. inversion H. reflexivity. Qed.

Lemma preserving_fun (f : heap -> result A) : heap_preserving (fun h => (h, f h)).
Proof. intros h h' r H. inversion H. reflexivity. Qed.

Lemma preserving_bind (m : M A) (k : A -> M B) :
  heap_preserving m -> (forall a, heap_preserving (k a)) -> heap_preserving (bind m k).
Proof.
  intros Hm Hk h h' r. unfold bind.
  destruct (m h) as [h1 [a|e]] eqn:Hrun; apply Hm in Hrun; subst h1.
  - apply Hk.
  - intros H. inversion H. reflexivity.
Qed.
End heap_preserving_facts.

Lemma preserving_getattr v name : heap_preserving (getattr v name).
Proof.
  intros h h' r. unfold getattr. destruct (lookup_attr h v name); intros H; now inversion H.
Qed.

Lemma preserving_getattr_default v name d : heap_preserving (getattr_default v name d).
Proof.
  intros h h' r. unfold getattr_default.
  destruct (lookup_attr h v name); intros H; now inversion H.
Qed.

Lemma preserving_get_submodule v target : heap_preserving (get_submodule v target).
Proof.
  intros h h' r. unfold get_submodule.
  destruct (String.eqb target ""); intros H; now inversion H.
Qed.

Lemma preserving_run {A} (m : M A) h h' r :
  heap_preserving m -> m h = (h', r) -> m h = (h, r).
Proof. intros Hm H. pose proof (Hm _ _ _ H) as ->. exact H. Qed.

Ltac preserving :=
  repeat first
    [ apply preserving_ret
    | apply preserving_raise
    | apply preserving_lift
    | apply preserving_read
    | apply preserving_fun
    | apply preserving_getattr
    | apply preserving_getattr_default
    | apply preserving_get_submodule
    | apply preserving_bind; [|intros ?]
    | match goal with
      | |- heap_preserving (match ?x with _ => _ end) => destruct x
      | |- heap_preserving (if ?b then _ else _) => destruct b
      end
    | progress cbv beta ].

(** ** Parallel layers *)

Section parallel_layers_facts.
Import ParallelLayers.
Context (E : externals).

Lemma preserving_layer_qualified_name_in model layer :
  heap_preserving (layer_qualified_name_in E model layer).
Proof.
  intros h h' r. unfold layer_qualified_name_in.
  repeat case_match; intros Hrun; now inversion Hrun.
Qed.

Lemma preserving_get_module_and_attribute_name module name :
  heap_preserving (_get_module_and_attribute_name module name).
Proof. unfold _get_module_and_attribute_name. preserving. Qed.

(** *** Self-attention *)

Lemma preserving_checks cls model layer kw :
  heap_preserving (ParallelSelfAttention_checks E cls model layer kw).
Proof.
  unfold ParallelSelfAttention_checks, kwargs_getitem, attr_name_or.
  preserving; try apply preserving_layer_qualified_name_in.
Qed.

Lemma preserving_key_value_heads cls layer ctx :
  heap_preserving (key_value_heads E cls layer ctx).
Proof. unfold key_value_heads. preserving. Qed.

Lemma not_divisible_by_true (a b : Z) :
  b <> 0 -> ~ (b | a) -> not_divisible_by a b = Ok true.
Proof.
  intros Hb Hdiv. unfold not_divisible_by, py_mod.
  destruct (Z.eqb_spec b 0) as [|_]; [contradiction|]. simpl.
  destruct (Z.eqb_spec (a mod b) 0) as [H0|H0]; [|reflexivity].
  exfalso. apply Hdiv. now apply Z.mod_divide.
Qed.

Lemma not_divisible_by_false (a b : Z) :
  b <> 0 -> (b | a) -> not_divisible_by a b = Ok false.
Proof.
  intros Hb Hdiv. unfold not_divisible_by, py_mod.
  destruct (Z.eqb_spec b 0) as [|_]; [contradiction|]. simpl.
  destruct (Z.eqb_spec (a mod b) 0) as [H0|H0]; [reflexivity|].
  exfalso. apply H0. now apply Z.mod_divide.
Qed.

Lemma divide_or_not (a b : Z) : (b | a) \/ ~ (b | a).
Proof.
  destruct (Z.eq_dec b 0) as [->|Hb].
  - destruct (Z.eq_dec a 0) as [->|Ha].
    + left. apply Z.divide_0_r.
    + right. intros Hd. apply Z.divide_0_l in Hd. contradiction.
  - destruct (Z.eq_dec (a mod b) 0) as [H0|H0].
    + left. now apply Z.mod_divide.
    + right. intros Hd. apply H0. now apply Z.mod_divide.
Qed.

(** Lines 491-497 on head counts that do not fit the shard count. *)
Lemma key_value_heads_incompatible cls layer ctx h kv_heads_name nkv :
  NUM_KEY_VALUE_HEADS_NAME cls = Some kv_heads_name ->
  lookup_attr h layer kv_heads_name = Some (VInt nkv) ->
  ~ (nkv | tp_size E) -> ~ (tp_size E | nkv) ->
  key_value_heads E cls layer ctx h = (h, Raise ValueError).
Proof.
  intros Hname Hattr Hn Ht.
  assert (Htp : tp_size E <> 0).
  { intros H0. apply Hn. rewrite H0. apply Z.divide_0_r. }
  assert (Hnkv : nkv <> 0).
  { intros H0. apply Ht. rewrite H0. apply Z.divide_0_r. }
  unfold key_value_heads. rewrite Hname.
  unfold bind, getattr, lift. rewrite Hattr. simpl.
  rewrite (not_divisible_by_true nkv (tp_size E) Htp Ht). simpl.
  rewrite (not_divisible_by_true (tp_size E) nkv Hnkv Hn). reflexivity.
Qed.

(** Lines 491-497 on head counts that fit. *)
Lemma key_value_heads_compatible cls layer ctx h kv_heads_name v nkv :
  NUM_KEY_VALUE_HEADS_NAME cls = Some kv_heads_name ->
  lookup_attr h layer kv_heads_name = Some v ->
  as_int v = Ok nkv ->
  tp_size E <> 0 ->
  (tp_size E | nkv) \/ (nkv | tp_size E) ->
  key_value_heads E cls layer ctx h = (h, Ok (v, Z.ltb nkv (tp_size E))).
Proof.
  intros Hname Hattr Hint Htp Hfit.
  unfold key_value_heads. rewrite Hname.
  unfold bind, getattr, lift. rewrite Hattr, Hint.
  destruct (divide_or_not nkv (tp_size E)) as [Ht|Ht].
  - rewrite (not_divisible_by_false nkv (tp_size E) Htp Ht). reflexivity.
  - rewrite (not_divisible_by_true nkv (tp_size E) Htp Ht). simpl.
    destruct Hfit as [Hfit|Hfit]; [contradiction|].
    assert (Hnkv : nkv <> 0).
    { intros H0. apply Ht. rewrite H0. apply Z.divide_0_r. }
    rewrite (not_divisible_by_false (tp_size E) nkv Hnkv Hfit). reflexivity.
Qed.

(** C3.  When the rule declares a key/value-head attribute and the number
    of key/value heads of the layer neither divides the tensor-parallel
    size nor is divided by it, [ParallelSelfAttention._transform] raises,
    and the store is the one it was called on: no attribute of the layer
    (or of anything else) has been modified.  The exception is
    [ValueError] whenever the preceding checks of the declared names and
    of the attributes of the layer pass. *)
Theorem C3_incompatible_head_count_raises_before_any_change
    (cls : ParallelSelfAttention) (model layer : value)
    (sequence_parallel_enabled : bool) (device : value) (kw : kwargs)
    (h : heap) (kv_heads_name : string) (nkv : Z) :
  NUM_KEY_VALUE_HEADS_NAME cls = Some kv_heads_name ->
  lookup_attr h layer kv_heads_name = Some (VInt nkv) ->
  ~ (nkv | tp_size E) ->
  ~ (tp_size E | nkv) ->
  exists e,
    ParallelSelfAttention_transform E cls model layer sequence_parallel_enabled device kw h
    = (h, Raise e)
    /\ (forall h' ctx, ParallelSelfAttention_checks E cls model layer kw h = (h', Ok ctx) ->
          e = ValueError).
Proof.
  intros Hname Hattr Hn Ht. unfold ParallelSelfAttention_transform.
  destruct (ParallelSelfAttention_checks E cls model layer kw h) as [h1 [ctx|e]] eqn:Hc.
  - pose proof (preserving_checks _ _ _ _ _ _ _ Hc) as ->.
    exists ValueError. split; [|reflexivity].
    rewrite (bind_ok _ _ _ _ _ Hc).
    apply bind_raise.
    now apply (key_value_heads_incompatible cls layer ctx h kv_heads_name nkv).
  - pose proof (preserving_checks _ _ _ _ _ _ _ Hc) as ->.
    exists e. split; [now apply bind_raise | discriminate].
Qed.

(** C2 (amended).  For a rule that declares a key/value-head attribute
    and a layer that passes the preceding checks and whose number of
    key/value heads fits the tensor-parallel size (one divides the other),
    [_transform] takes the GQA path exactly when the number of key/value
    heads is strictly less than the tensor-parallel size, and otherwise
    column-shards the query, key and value projections one by one: for
    each of the three names in turn, the attribute of the layer is replaced
    by what [linear_to_parallel_linear] returns for it along the axis
    "column" with [gather_output=False];
    and [replace_qkv_by_gqa_qkv_column_parallel_linear] raises
    [ValueError], changing nothing, when the tensor-parallel size is
    strictly less than the number of key/value heads. *)
Theorem C2_gqa_path_iff_fewer_kv_heads_than_shards
    (cls : ParallelSelfAttention) (model layer : value)
    (sequence_parallel_enabled : bool) (device : value) (kw : kwargs)
    (h : heap) (kv_heads_name : string) (v : value) (nkv : Z) :
  NUM_KEY_VALUE_HEADS_NAME cls = Some kv_heads_name ->
  lookup_attr h layer kv_heads_name = Some v ->
  as_int v = Ok nkv ->
  (forall ctx,
     ParallelSelfAttention_checks E cls model layer kw h = (h, Ok ctx) ->
     tp_size E <> 0 ->
     (tp_size E | nkv) \/ (nkv | tp_size E) ->
     (nkv < tp_size E ->
        ParallelSelfAttention_transform E cls model layer sequence_parallel_enabled
          device kw h
        = (do! replace_qkv_by_gqa_qkv_column_parallel_linear E cls model layer
                 sequence_parallel_enabled (ctx_kv_size_multiplier ctx)
                 (ctx_skip_linear_weight_load ctx) in
           do! shard_output_projection E cls layer sequence_parallel_enabled device ctx true in
           update_head_counts E cls layer ctx v true) h)
     /\ (tp_size E <= nkv ->
        let column_shard := fun name : string =>
          (let! infos :=
             lift (get_linear_weight_info E (ctx_weight_map ctx)
                     (ctx_layer_qualified_name ctx +:+ "." +:+ name) device (Some false)) in
           let! linear := getattr layer name in
           let! parallel_linear :=
             linear_to_parallel_linear E linear
               (mkLinearKwargs "column" None (Some false) (fst infos) (snd infos)
                  sequence_parallel_enabled (ctx_skip_linear_weight_load ctx) device) in
           setattr layer name parallel_linear) in
        ParallelSelfAttention_transform E cls model layer sequence_parallel_enabled
          device kw h
        = (do! column_shard (QUERIES_NAME cls) in
           do! column_shard (KEYS_NAME cls) in
           do! column_shard (VALUES_NAME cls) in
           do! shard_output_projection E cls layer sequence_parallel_enabled device ctx false in
           update_head_counts E cls layer ctx v false) h))
  /\ (tp_size E < nkv ->
      forall model' spe kv_size_multiplier skip,
        replace_qkv_by_gqa_qkv_column_parallel_linear E cls model' layer spe
          kv_size_multiplier skip h
        = (h, Raise ValueError)).
Proof.
  intros Hname Hattr Hint. split.
  - intros ctx Hc Htp Hfit.
    pose proof (key_value_heads_compatible cls layer ctx h kv_heads_name v nkv
                  Hname Hattr Hint Htp Hfit) as Hkv.
    assert (Hrun : ParallelSelfAttention_transform E cls model layer
                     sequence_parallel_enabled device kw h
                   = ParallelSelfAttention_apply E cls model layer
                       sequence_parallel_enabled device ctx v (Z.ltb nkv (tp_size E)) h).
    { unfold ParallelSelfAttention_transform.
      rewrite (bind_ok _ _ _ _ _ Hc). rewrite (bind_ok _ _ _ _ _ Hkv). reflexivity. }
    split; intros Hcmp; rewrite Hrun; unfold ParallelSelfAttention_apply.
    + rewrite (proj2 (Z.ltb_lt _ _) Hcmp). reflexivity.
    + rewrite (proj2 (Z.ltb_ge _ _) Hcmp). cbv zeta.
      unfold shard_qkv_separately, column_shard_projections.
      repeat (rewrite !bind_assoc; apply bind_ext; intros ? ?).
      reflexivity.
  - intros Hlt model' spe kvm skip.
    unfold replace_qkv_by_gqa_qkv_column_parallel_linear. rewrite Hname.
    unfold bind, getattr, lift. rewrite Hattr, Hint.
    rewrite (proj2 (Z.ltb_lt _ _) Hlt). reflexivity.
Qed.

(** *** Embedding *)

Lemma preserving_locate cls model layer device :
  heap_preserving (ParallelEmbedding_locate E cls model layer device).
Proof.
  unfold ParallelEmbedding_locate, locate_lm_head, locate_embedding_name,
    locate_weight_infos, locate_num_embeddings.
  preserving;
    try apply preserving_layer_qualified_name_in;
    try apply preserving_get_module_and_attribute_name.
Qed.

(** C4.  When the first part of [ParallelEmbedding._transform] (lines
    185-255) raises, the transformation raises the same exception and
    leaves the store as it was, whatever the number of embeddings.  When
    it finds the embedding, with [n] embeddings: if the tensor-parallel
    size does not divide [n], the transformation returns the layer and
    leaves the store as it was, so that no sublayer is replaced and no
    exception is raised; if it divides [n], the transformation is the
    replacement itself: the embedding (and the LM head, when the model has
    one) is given to [embedding_to_parallel_embedding], and what it
    returns is bound to the attribute of the embedding (and to the
    attribute of the LM head).  Hence the store changes only if the
    tensor-parallel size divides [n]. *)
Theorem C4_embedding_skipped_unless_divisible
    (cls : ParallelEmbedding) (model layer : value)
    (sequence_parallel_enabled : bool) (device : value) (kw : kwargs)
    (h : heap) :
  let run :=
    ParallelEmbedding_transform E cls model layer sequence_parallel_enabled device kw in
  (forall h0 e,
     ParallelEmbedding_locate E cls model layer device h = (h0, Raise e) ->
     run h = (h, Raise e))
  /\ (forall h0 located n,
        ParallelEmbedding_locate E cls model layer device h = (h0, Ok located) ->
        as_int (el_num_embeddings located) = Ok n ->
        tp_size E <> 0 ->
        (~ (tp_size E | n) -> run h = (h, Ok layer))
        /\ ((tp_size E | n) ->
            run h
            = (let! embedding := get_submodule layer (el_embedding_name located) in
               let! lm_head_layer :=
                 (if el_model_has_lm_head located
                  then get_submodule layer
                         (match el_lm_head_name located with Some n => n | None => "" end)
                  else ret VNone) in
               let! parallel_layers :=
                 embedding_to_parallel_embedding E embedding lm_head_layer
                   (el_embedding_weight_info located) (el_lm_head_weight_info located)
                   (el_lm_head_bias_weight_info located) device in
               let! pa := _get_module_and_attribute_name layer (el_embedding_name located) in
               if el_model_has_lm_head located then
                 let! p0 := lift (value_index parallel_layers 0) in
                 do! setattr (fst pa) (snd pa) p0 in
                 let! p1 := lift (value_index parallel_layers 1) in
                 match el_parent_lm_head located with
                 | Some parent_lm_head =>
                     do! setattr (fst parent_lm_head) (snd parent_lm_head) p1 in
                     ret layer
                 | None => raise ExternalError
                 end
               else
                 do! setattr (fst pa) (snd pa) parallel_layers in
                 ret layer) h)
        /\ (forall h' r, run h = (h', r) -> h' <> h -> (tp_size E | n))).
Proof.
  intros run. split.
  - intros h0 e Hloc.
    pose proof (preserving_locate _ _ _ _ _ _ _ Hloc) as ->.
    unfold run, ParallelEmbedding_transform.
    now rewrite (bind_raise _ _ _ _ _ Hloc).
  - intros h0 located n Hloc Hint Htp.
    pose proof (preserving_locate _ _ _ _ _ _ _ Hloc) as ->.
    assert (Hskip : ~ (tp_size E | n) -> run h = (h, Ok layer)).
    { intros Hdiv. unfold run, ParallelEmbedding_transform.
      rewrite (bind_ok _ _ _ _ _ Hloc). unfold bind, lift. rewrite Hint.
      rewrite (not_divisible_by_true n (tp_size E) Htp Hdiv). reflexivity. }
    split; [exact Hskip|]. split.
    + intros Hdiv. unfold run, ParallelEmbedding_transform.
      rewrite (bind_ok _ _ _ _ _ Hloc). unfold bind at 1, lift at 1. rewrite Hint.
      unfold bind at 1, lift at 1.
      rewrite (not_divisible_by_false n (tp_size E) Htp Hdiv).
      unfold ParallelEmbedding_replace.
      do 3 (apply bind_ext; intros ? ?).
      apply bind_ext; intros [parent_embedding_module embedding_attribute_name] ?; simpl.
      destruct (el_model_has_lm_head located); [|reflexivity].
      repeat (apply bind_ext; intros ? ?).
      destruct (el_parent_lm_head located) as [[? ?]|]; reflexivity.
    + intros h' r Hrun Hchanged.
      destruct (divide_or_not n (tp_size E)) as [Hdiv|Hdiv]; [exact Hdiv|].
      rewrite (Hskip Hdiv) in Hrun. inversion Hrun. congruence.
Qed.

(** The number of embeddings that the first part reads is the attribute
    [num_embeddings] of the submodule named by the rule (of its base layer
    under PEFT). *)
Lemma locate_num_embeddings_reads_attribute layer name h h' v :
  locate_num_embeddings E layer name h = (h', Ok v) ->
  exists embedding,
    get_submodule layer name h = (h, Ok embedding)
    /\ (lookup_attr h embedding "num_embeddings" = Some v
        \/ (is_peft_available E = true
            /\ isinstance h embedding BaseTunerLayer = true
            /\ exists base, get_base_layer E h embedding = Ok base
                            /\ lookup_attr h base "num_embeddings" = Some v)).
Proof.
  unfold locate_num_embeddings. intros Hrun.
  apply bind_ok_inv in Hrun as (embedding & h1 & Hsub & Hrun).
  pose proof (preserving_get_submodule _ _ _ _ _ Hsub) as ->.
  exists embedding. split; [exact Hsub|].
  assert (Hget : forall x hx, getattr x "num_embeddings" h = (hx, Ok v) ->
                              lookup_attr h x "num_embeddings" = Some v).
  { intros x hx. unfold getattr.
    destruct (lookup_attr h x "num_embeddings"); intros Heq; now inversion Heq. }
  destruct (is_peft_available E) eqn:Hpeft.
  - apply bind_ok_inv in Hrun as (tuner & h2 & Ht & Hrun).
    unfold read in Ht. inversion Ht; subst h2. clear Ht.
    destruct tuner eqn:Htuner.
    + apply bind_ok_inv in Hrun as (base & h3 & Hb & Hrun).
      inversion Hb; subst h3. right. split; [reflexivity|]. split; [congruence|].
      exists base. split; [congruence|]. eapply Hget, Hrun.
    + left. eapply Hget, Hrun.
  - left. eapply Hget, Hrun.
Qed.

(** *** Attributes after an assignment *)

Lemma setattr_ok_inv v name x h h' :
  setattr v name x h = (h', Ok tt) ->
  exists l o, v = VRef l /\ h !! l = Some o /\ h' = <[l := set_obj_attr o name x]> h.
Proof.
  unfold setattr. destruct v; try discriminate.
  destruct (h !! l) as [o|] eqn:Hl; [|discriminate].
  intros Heq. inversion Heq. eauto.
Qed.

Lemma lookup_attr_same_object h h' l name :
  h' !! l = h !! l -> lookup_attr h' (VRef l) name = lookup_attr h (VRef l) name.
Proof. intros Heq. unfold lookup_attr, get_attrs. now rewrite Heq. Qed.

Lemma isinstance_same_object h h' l cls :
  h' !! l = h !! l -> isinstance h' (VRef l) cls = isinstance h (VRef l) cls.
Proof. intros Heq. unfold isinstance. now rewrite Heq. Qed.

Lemma lookup_attr_live h l name x :
  lookup_attr h (VRef l) name = Some x -> is_Some (h !! l).
Proof.
  unfold lookup_attr, get_attrs. destruct (h !! l); [eauto|].
  rewrite lookup_empty. discriminate.
Qed.

Lemma setattr_lookup_same l name x h h' :
  setattr (VRef l) name x h = (h', Ok tt) -> lookup_attr h' (VRef l) name = Some x.
Proof.
  intros H. apply setattr_ok_inv in H as (l0 & o & Hl & Ho & ->).
  inversion Hl; subst l0.
  unfold lookup_attr, get_attrs; unfold heap, loc in *.
  rewrite lookup_insert_eq. simpl. apply lookup_insert_eq.
Qed.

Lemma setattr_lookup_other l name x h h' v n :
  setattr (VRef l) name x h = (h', Ok tt) ->
  v <> VRef l \/ n <> name ->
  lookup_attr h' v n = lookup_attr h v n.
Proof.
  intros H Hne. apply setattr_ok_inv in H as (l0 & o & Hl & Ho & ->).
  inversion Hl; subst l0.
  destruct v as [| | | |l'| | | | | | |]; try reflexivity.
  unfold lookup_attr, get_attrs; unfold heap, loc in *.
  destruct (decide (l' = l)) as [->|Hl'].
  - rewrite lookup_insert_eq, Ho. simpl.
    apply lookup_insert_ne. destruct Hne as [Hne|Hne]; congruence.
  - now rewrite lookup_insert_ne by congruence.
Qed.

Lemma setattr_isinstance v name x h h' w c :
  setattr v name x h = (h', Ok tt) -> isinstance h' w c = isinstance h w c.
Proof.
  intros H. apply setattr_ok_inv in H as (l & o & -> & Ho & ->).
  destruct w as [| | | |l'| | | | | | |]; try reflexivity.
  unfold isinstance; unfold heap, loc in *.
  destruct (decide (l' = l)) as [->|Hl'].
  - now rewrite lookup_insert_eq, Ho.
  - now rewrite lookup_insert_ne by congruence.
Qed.

Lemma setattr_live l name x h :
  is_Some (h !! l) -> exists h', setattr (VRef l) name x h = (h', Ok tt).
Proof. intros [o Ho]. unfold setattr. rewrite Ho. eauto. Qed.

(** *** Cross-entropy *)

(** What [patch_cross_entropy] has done when it returns: the class
    [CrossEntropyLoss] is patched everywhere by [ParallelCrossEntropyLoss],
    and the attribute [forward] of the model is the forward that the model
    had, wrapped so that both names of the functional cross-entropy denote
    [parallel_cross_entropy] while it runs; nothing else is changed after
    [patch_everywhere]. *)
Lemma patch_cross_entropy_ok_inv model h h' :
  patch_cross_entropy E model h = (h', Ok tt) ->
  exists h1 orig_forward,
    patch_everywhere E "CrossEntropyLoss" ParallelCrossEntropyLoss h = (h1, Ok tt)
    /\ (lookup_attr h1 model "forward" = Some orig_forward
        \/ (lookup_attr h1 model "forward" = None
            /\ exists l, model = VRef l /\ orig_forward = VBoundMethod l "forward"))
    /\ lookup_attr h' model "forward"
       = Some (VPatched
                 [("torch.nn.functional.cross_entropy", parallel_cross_entropy);
                  ("torch.nn.modules.loss.F.cross_entropy", parallel_cross_entropy)]
                 orig_forward)
    /\ (forall v n, v <> model \/ n <> "forward" -> lookup_attr h' v n = lookup_attr h1 v n)
    /\ (forall v c, isinstance h' v c = isinstance h1 v c).
Proof.
  unfold patch_cross_entropy. intros Hrun.
  apply bind_ok_inv in Hrun as ([] & h1 & Hpatch & Hrun).
  apply bind_ok_inv in Hrun as (orig & h2 & Hfwd & Hset).
  assert (Horig : h2 = h1
                  /\ (lookup_attr h1 model "forward" = Some orig
                      \/ (lookup_attr h1 model "forward" = None
                          /\ exists l, model = VRef l /\ orig = VBoundMethod l "forward"))).
  { unfold get_forward in Hfwd.
    destruct (lookup_attr h1 model "forward") as [f|] eqn:Hf.
    - inversion Hfwd. auto.
    - destruct model; try discriminate. inversion Hfwd. split; [reflexivity|].
      right. split; [reflexivity|]. eauto. }
  destruct Horig as [-> Horig].
  exists h1, orig. split; [exact Hpatch|]. split; [exact Horig|].
  pose proof (setattr_ok_inv _ _ _ _ _ Hset) as (l & o & Hl & _ & _). subst model.
  split; [now apply setattr_lookup_same in Hset|]. split.
  - intros v n Hne. now apply (setattr_lookup_other _ _ _ _ _ v n Hset).
  - intros v c. now apply (setattr_isinstance _ _ _ _ _ v c Hset).
Qed.

Lemma patch_cross_entropy_ok l h h1 :
  patch_everywhere E "CrossEntropyLoss" ParallelCrossEntropyLoss h = (h1, Ok tt) ->
  is_Some (h1 !! l) ->
  exists h', patch_cross_entropy E (VRef l) h = (h', Ok tt).
Proof.
  intros Hpatch Hlive. unfold patch_cross_entropy.
  rewrite (bind_ok _ _ _ _ _ Hpatch).
  assert (Hfwd : exists orig, get_forward (VRef l) h1 = (h1, Ok orig)).
  { unfold get_forward. destruct (lookup_attr h1 (VRef l) "forward"); eauto. }
  destruct Hfwd as [orig Hfwd]. rewrite (bind_ok _ _ _ _ _ Hfwd).
  now apply setattr_live.
Qed.

(** C6.  The case analysis of [ParallelCrossEntropy._transform], called
    with its prepared keyword arguments.  (A) For a model whose
    [problem_type] is "regression" or "multi_label_classification" the
    layer is returned and nothing is changed.  (B) For an eligible model
    whose last linear projection is found: if it is a column-parallel
    linear, the transformation is the patch of the cross-entropy followed
    by the return of the layer, and nothing else; if it is a row-parallel
    linear, [ValueError] is raised and nothing is changed; otherwise the
    projection is replaced by what [linear_to_parallel_linear] returns for
    the axis "column" with [gather_output=False], and the cross-entropy is
    patched.  In both cases where the cross-entropy is patched, a run that
    returns has called [patch_everywhere] to replace [CrossEntropyLoss] by
    [ParallelCrossEntropyLoss], and has bound the attribute [forward] of
    the model to the forward that the model had, wrapped so that
    "torch.nn.functional.cross_entropy" and
    "torch.nn.modules.loss.F.cross_entropy" denote
    [parallel_cross_entropy] while it runs, changing nothing else; and in
    the first of them the run does return whenever [patch_everywhere]
    does and the model is an object of the store. *)
Theorem C6_cross_entropy_case_analysis
    (cls : ParallelCrossEntropy) (model layer : value)
    (sequence_parallel_enabled : bool) (device : value) (kw : kwargs)
    (h : heap) (skip : value) :
  dict_get kw "skip_linear_weight_load" = Some skip ->
  let run :=
    ParallelCrossEntropy_transform E cls model layer sequence_parallel_enabled device kw in
  let patched := fun h0 h' : heap =>
    exists h1 orig_forward,
      patch_everywhere E "CrossEntropyLoss" ParallelCrossEntropyLoss h0 = (h1, Ok tt)
      /\ (lookup_attr h1 model "forward" = Some orig_forward
          \/ (lookup_attr h1 model "forward" = None
              /\ exists l, model = VRef l /\ orig_forward = VBoundMethod l "forward"))
      /\ lookup_attr h' model "forward"
         = Some (VPatched
                   [("torch.nn.functional.cross_entropy", parallel_cross_entropy);
                    ("torch.nn.modules.loss.F.cross_entropy", parallel_cross_entropy)]
                   orig_forward)
      /\ (forall v n, v <> model \/ n <> "forward" -> lookup_attr h' v n = lookup_attr h1 v n)
      /\ (forall v c, isinstance h' v c = isinstance h1 v c) in
  (forall config problem_type,
     lookup_attr h model "config" = Some config ->
     lookup_attr h config "problem_type" = Some (VStr problem_type) ->
     In problem_type ["regression"; "multi_label_classification"] ->
     run h = (h, Ok layer))
  /\ (forall spec name parent attr projection,
        LAST_LINEAR_PROJECTION_NAME cls = Some spec ->
        name_for_class spec (class_name h model) = Some name ->
        is_eligible_for_cross_entropy_parallelization model h = (h, Ok true) ->
        _get_module_and_attribute_name layer name h = (h, Ok (parent, attr)) ->
        lookup_attr h parent attr = Some projection ->
        (isinstance h projection ColumnParallelLinear = true ->
           run h = (do! patch_cross_entropy E model in ret layer) h
           /\ (forall h' r, run h = (h', Ok r) -> r = layer /\ patched h h')
           /\ (forall h1 l,
                 patch_everywhere E "CrossEntropyLoss" ParallelCrossEntropyLoss h
                 = (h1, Ok tt) ->
                 model = VRef l ->
                 is_Some (h1 !! l) ->
                 exists h', run h = (h', Ok layer)))
        /\ (isinstance h projection ColumnParallelLinear = false ->
            isinstance h projection RowParallelLinear = true ->
            run h = (h, Raise ValueError))
        /\ (isinstance h projection ColumnParallelLinear = false ->
            isinstance h projection RowParallelLinear = false ->
            run h = shard_last_projection E model layer device skip parent attr projection h
            /\ forall infos h1 parallel,
                 last_projection_weight_info E model projection device h = (h, Ok infos) ->
                 linear_to_parallel_linear E projection
                   (mkLinearKwargs "column" None (Some false) (fst infos) (snd infos)
                      false skip device) h = (h1, Ok parallel) ->
                 run h = (do! setattr parent attr parallel in
                          do! patch_cross_entropy E model in
                          ret layer) h1
                 /\ (forall h' r,
                       run h = (h', Ok r) ->
                       r = layer
                       /\ exists h2,
                            setattr parent attr parallel h1 = (h2, Ok tt)
                            /\ patched h2 h'))).
Proof.
  intros Hkw run patched. split.
  - intros config problem_type Hconfig Hpt Hin.
    unfold run, ParallelCrossEntropy_transform, kwargs_getitem, dict_getitem.
    rewrite Hkw. unfold bind at 1. unfold lift at 1.
    assert (Hel : is_eligible_for_cross_entropy_parallelization model h = (h, Ok false)).
    { unfold is_eligible_for_cross_entropy_parallelization, bind, getattr, getattr_default,
        ret.
      rewrite Hconfig, Hpt. unfold value_in_strs.
      apply str_in_In in Hin. rewrite Hin. reflexivity. }
    destruct (LAST_LINEAR_PROJECTION_NAME cls) as [spec|].
    + unfold bind at 1. unfold bind at 1. unfold read at 1. unfold ret at 1.
      destruct (name_for_class spec (class_name h model)) as [name|]; [|reflexivity].
      rewrite (bind_ok _ _ _ _ _ Hel). reflexivity.
    + reflexivity.
  - intros spec name parent attr projection Hspec Hname Hel Hpa Hproj.
    assert (Hget : getattr parent attr h = (h, Ok projection)).
    { unfold getattr. now rewrite Hproj. }
    assert (Hrun : run h =
              (let! is_column := read (fun h => isinstance h projection ColumnParallelLinear) in
               if is_column then do! patch_cross_entropy E model in ret layer
               else
                 let! is_row := read (fun h => isinstance h projection RowParallelLinear) in
                 if is_row then raise ValueError
                 else shard_last_projection E model layer device skip parent attr projection) h).
    { unfold run, ParallelCrossEntropy_transform, kwargs_getitem, dict_getitem.
      rewrite Hkw, Hspec. unfold bind at 1. unfold lift at 1.
      unfold bind at 1. unfold bind at 1. unfold read at 1. unfold ret at 1.
      rewrite Hname.
      rewrite (bind_ok _ _ _ _ _ Hel). cbn [negb].
      rewrite (bind_ok _ _ _ _ _ Hpa).
      rewrite (bind_ok _ _ _ _ _ Hget). reflexivity. }
    split; [|split].
    + intros Hcol.
      assert (Hpatch : run h = (do! patch_cross_entropy E model in ret layer) h).
      { rewrite Hrun. unfold bind at 1. unfold read at 1. rewrite Hcol. reflexivity. }
      split; [exact Hpatch|]. split.
      * intros h' r Hok. rewrite Hpatch in Hok.
        apply bind_ok_inv in Hok as ([] & h2 & Hp & Hret).
        inversion Hret; subst h2 r. split; [reflexivity|].
        now apply patch_cross_entropy_ok_inv.
      * intros h1 l Hev Hmodel Hlive. subst model.
        destruct (patch_cross_entropy_ok l h h1 Hev Hlive) as [h' Hp].
        exists h'. rewrite Hpatch. now rewrite (bind_ok _ _ _ _ _ Hp).
    + intros Hcol Hrow. rewrite Hrun. unfold bind at 1. unfold read at 1. rewrite Hcol.
      unfold bind at 1. unfold read at 1. rewrite Hrow. reflexivity.
    + intros Hcol Hrow.
      assert (Hshard : run h = shard_last_projection E model layer device skip parent attr
                                 projection h).
      { rewrite Hrun. unfold bind at 1. unfold read at 1. rewrite Hcol.
        unfold bind at 1. unfold read at 1. rewrite Hrow. reflexivity. }
      split; [exact Hshard|].
      intros infos h1 parallel Hinfos Hlin.
      assert (Hrest : run h = (do! setattr parent attr parallel in
                               do! patch_cross_entropy E model in
                               ret layer) h1).
      { rewrite Hshard. unfold shard_last_projection.
        rewrite (bind_ok _ _ _ _ _ Hinfos).
        rewrite (bind_ok _ _ _ _ _ Hget).
        rewrite (bind_ok _ _ _ _ _ Hlin). reflexivity. }
      split; [exact Hrest|].
      intros h' r Hok. rewrite Hrest in Hok.
      apply bind_ok_inv in Hok as ([] & h2 & Hset & Hok).
      apply bind_ok_inv in Hok as ([] & h3 & Hp & Hret).
      inversion Hret; subst h3 r. split; [reflexivity|].
      exists h2. split; [exact Hset|]. now apply patch_cross_entropy_ok_inv.
Qed.

(** *** The fused GQA projection and its proxies *)

Lemma fake_proj_on_same_object h h' l idx parent :
  h' !! l = h !! l -> fake_proj_on h (VRef l) idx parent -> fake_proj_on h' (VRef l) idx parent.
Proof.
  intros Heq (Hi & Ho & Hp & Hn). unfold fake_proj_on.
  rewrite (isinstance_same_object _ _ _ _ Heq), !(lookup_attr_same_object _ _ _ _ Heq).
  auto.
Qed.

(** One proxy is allocated and installed on the layer. *)
Lemma install_fake_proj (l : loc) (name fqn pn qn : string) (idx : Z)
    (h h1 h2 : heap) (f : value) :
  is_Some (h !! l) ->
  FakeProj fqn pn idx (VThunk l) qn GQA_QKV_PROJ_NAME h = (h1, Ok f) ->
  setattr (VRef l) name f h1 = (h2, Ok tt) ->
  exists lf,
    f = VRef lf
    /\ h !! lf = None
    /\ lookup_attr h2 (VRef l) name = Some f
    /\ fake_proj_on h2 f idx l
    /\ (forall n, n <> name -> lookup_attr h2 (VRef l) n = lookup_attr h (VRef l) n)
    /\ (forall l', l' <> l -> l' <> lf -> h2 !! l' = h !! l')
    /\ is_Some (h2 !! l).
Proof.
  intros [o Ho] Halloc Hset.
  unfold FakeProj, alloc in Halloc. inversion Halloc as [[Hh1 Hf]]. clear Halloc.
  set (lf := fresh (dom h)) in *.
  assert (Hfresh : h !! lf = None).
  { apply not_elem_of_dom. apply is_fresh. }
  assert (Hne : lf <> l) by congruence.
  apply setattr_ok_inv in Hset as (l0 & o1 & Hl0 & Ho1 & Hh2).
  inversion Hl0; subst l0. clear Hl0.
  unfold heap, loc in *.
  rewrite <- Hh1 in Ho1. rewrite lookup_insert_ne in Ho1 by exact Hne.
  assert (o1 = o) by congruence. subst o1.
  subst f. exists lf. split; [reflexivity|]. split; [exact Hfresh|].
  subst h2 h1. split; [|split; [|split; [|split]]].
  - unfold lookup_attr, get_attrs; unfold heap, loc.
    rewrite lookup_insert_eq. simpl. apply lookup_insert_eq.
  - unfold fake_proj_on, isinstance, lookup_attr, get_attrs; unfold heap, loc.
    rewrite lookup_insert_ne by congruence. rewrite lookup_insert_eq.
    simpl. repeat split; reflexivity.
  - intros n Hn. unfold lookup_attr, get_attrs; unfold heap, loc.
    rewrite lookup_insert_eq. simpl.
    rewrite lookup_insert_ne by congruence. now rewrite Ho.
  - intros l' Hl Hlf. rewrite lookup_insert_ne by congruence.
    now rewrite lookup_insert_ne by congruence.
  - rewrite lookup_insert_eq. eauto.
Qed.

Ltac step_reading H :=
  let a := fresh "a" in
  let h1 := fresh "h" in
  let Hs := fresh "Hs" in
  apply bind_ok_inv in H as (a & h1 & Hs & H);
  match type of Hs with
  | ?m _ = _ =>
      let Hp := fresh "Hp" in
      assert (Hp : heap_preserving m)
        by (unfold getattr_opt, get_layer_qualified_name; preserving;
            try apply preserving_layer_qualified_name_in);
      apply Hp in Hs; subst h1
  end.

(** C5.  Let the names of the query, key and value projections be
    pairwise distinct and different from "qkv_proj", and let the loading
    of the weights of the fused projection not rebind an attribute
    "qkv_proj".  After
    [replace_qkv_by_gqa_qkv_column_parallel_linear] succeeds on a layer,
    the attribute "qkv_proj" of the layer is the fused projection that the
    constructor returned, and the query, key and value attributes of the
    layer are [FakeProj] objects with output index 0, 1 and 2, each with
    that same layer as parent and "qkv_proj" as the name of the fused
    projection on it. *)
Theorem C5_qkv_replaced_by_indexed_proxies
    (cls : ParallelSelfAttention) (model : value) (l : loc)
    (sequence_parallel_enabled : bool) (kv_size_multiplier skip : value)
    (h h' : heap) :
  QUERIES_NAME cls <> KEYS_NAME cls ->
  QUERIES_NAME cls <> VALUES_NAME cls ->
  KEYS_NAME cls <> VALUES_NAME cls ->
  QUERIES_NAME cls <> "qkv_proj" ->
  KEYS_NAME cls <> "qkv_proj" ->
  VALUES_NAME cls <> "qkv_proj" ->
  (forall m g b1 b2 h1 h2 r x,
     maybe_load_weights_to_gqa_qkv_column_parallel_linear E m g b1 b2 h1 = (h2, r) ->
     lookup_attr h2 (VRef x) "qkv_proj" = lookup_attr h1 (VRef x) "qkv_proj") ->
  replace_qkv_by_gqa_qkv_column_parallel_linear E cls model (VRef l)
    sequence_parallel_enabled kv_size_multiplier skip h = (h', Ok tt) ->
  exists fused q k v,
    lookup_attr h' (VRef l) "qkv_proj" = Some fused
    /\ (exists args h0 h1, OptimumGQAQKVColumnParallelLinear E args h0 = (h1, Ok fused))
    /\ lookup_attr h' (VRef l) (QUERIES_NAME cls) = Some q
    /\ fake_proj_on h' q 0 l
    /\ lookup_attr h' (VRef l) (KEYS_NAME cls) = Some k
    /\ fake_proj_on h' k 1 l
    /\ lookup_attr h' (VRef l) (VALUES_NAME cls) = Some v
    /\ fake_proj_on h' v 2 l.
Proof.
  intros Hqk Hqv Hkv Hq Hk Hv Hframe Hrun.
  unfold replace_qkv_by_gqa_qkv_column_parallel_linear in Hrun.
  destruct (NUM_KEY_VALUE_HEADS_NAME cls) as [kv_heads_name|]; [|discriminate].
  do 2 step_reading Hrun.
  destruct (Z.ltb (tp_size E) a0); [discriminate|].
  do 11 (cbv zeta in Hrun; step_reading Hrun).
  cbv zeta in Hrun.
  apply bind_ok_inv in Hrun as (fused & h1 & Hctor & Hrun).
  apply bind_ok_inv in Hrun as ([] & h2 & Hset & Hrun).
  apply bind_ok_inv in Hrun as ([] & h3 & Hload & Hrun).
  step_reading Hrun.
  apply bind_ok_inv in Hrun as (q & h4 & Hfq & Hrun).
  apply bind_ok_inv in Hrun as ([] & h5 & Hsq & Hrun).
  apply bind_ok_inv in Hrun as (k & h6 & Hfk & Hrun).
  apply bind_ok_inv in Hrun as ([] & h7 & Hsk & Hrun).
  apply bind_ok_inv in Hrun as (v & h8 & Hfv & Hrun).
  (* the fused projection is on the layer after the weights are loaded *)
  assert (Hfused3 : lookup_attr h3 (VRef l) "qkv_proj" = Some fused).
  { rewrite (Hframe _ _ _ _ _ _ _ l Hload).
    apply setattr_ok_inv in Hset as (l0 & o & Hl0 & Ho & ->).
    inversion Hl0; subst l0.
    unfold lookup_attr, get_attrs; unfold heap, loc.
    rewrite lookup_insert_eq. simpl. apply lookup_insert_eq. }
  pose proof (lookup_attr_live _ _ _ _ Hfused3) as Hlive3.
  simpl thunk_of in *.
  destruct (install_fake_proj _ _ _ _ _ _ _ _ _ _ Hlive3 Hfq Hsq)
    as (lq & -> & Hq_fresh & Hq_attr & Hq_fake & Hq_other & Hq_frame & Hlive5).
  destruct (install_fake_proj _ _ _ _ _ _ _ _ _ _ Hlive5 Hfk Hsk)
    as (lk & -> & Hk_fresh & Hk_attr & Hk_fake & Hk_other & Hk_frame & Hlive7).
  destruct (install_fake_proj _ _ _ _ _ _ _ _ _ _ Hlive7 Hfv Hrun)
    as (lv & -> & Hv_fresh & Hv_attr & Hv_fake & Hv_other & Hv_frame & Hlive9).
  (* the proxies are distinct objects, none of which is the layer *)
  assert (Hq_live5 : is_Some (h5 !! lq)).
  { eapply lookup_attr_live. destruct Hq_fake as (_ & Ho & _). exact Ho. }
  assert (Hk_live7 : is_Some (h7 !! lk)).
  { eapply lookup_attr_live. destruct Hk_fake as (_ & Ho & _). exact Ho. }
  assert (Hlq_l : lq <> l).
  { intros ->. destruct Hlive3 as [o Ho]. congruence. }
  assert (Hlk_l : lk <> l).
  { intros ->. destruct Hlive5 as [o Ho]. congruence. }
  assert (Hlv_l : lv <> l).
  { intros ->. destruct Hlive7 as [o Ho]. congruence. }
  assert (Hlq_lk : lq <> lk).
  { intros ->. destruct Hq_live5 as [o Ho]. congruence. }
  assert (Hq_live7 : is_Some (h7 !! lq)).
  { rewrite (Hk_frame lq Hlq_l Hlq_lk). exact Hq_live5. }
  assert (Hlq_lv : lq <> lv).
  { intros ->. destruct Hq_live7 as [o Ho]. congruence. }
  assert (Hlk_lv : lk <> lv).
  { intros ->. destruct Hk_live7 as [o Ho]. congruence. }
  exists fused, (VRef lq), (VRef lk), (VRef lv).
  split.
  { rewrite (Hv_other "qkv_proj") by congruence.
    rewrite (Hk_other "qkv_proj") by congruence.
    rewrite (Hq_other "qkv_proj") by congruence.
    exact Hfused3. }
  split; [eauto|].
  split.
  { rewrite (Hv_other (QUERIES_NAME cls)) by congruence.
    rewrite (Hk_other (QUERIES_NAME cls)) by congruence.
    exact Hq_attr. }
  split.
  { apply (fake_proj_on_same_object h7); [now apply Hv_frame|].
    apply (fake_proj_on_same_object h5); [now apply Hk_frame|].
    exact Hq_fake. }
  split.
  { rewrite (Hv_other (KEYS_NAME cls)) by congruence. exact Hk_attr. }
  split.
  { apply (fake_proj_on_same_object h7); [now apply Hv_frame|]. exact Hk_fake. }
  split; [exact Hv_attr | exact Hv_fake].
Qed.

End parallel_layers_facts.

(** * Properties of the other functions *)

(** ** More facts about the monad *)

Lemma bind_ret_l {S A B} (a : A) (k : A -> ST S B) s : bind (ret a) k s = k a s.
Proof. reflexivity. Qed.

Lemma bind_read_l {S A B} (f : S -> A) (k : A -> ST S B) s : bind (read f) k s = k (f s) s.
Proof. reflexivity. Qed.

Lemma bind_raise_l {S A B} (e : exn) (k : A -> ST S B) s :
  bind (raise e) k s = (s, Raise e).
Proof. reflexivity. Qed.

Lemma bind_lift_ok {S A B} (a : A) (k : A -> ST S B) s : bind (lift (Ok a)) k s = k a s.
Proof. reflexivity. Qed.

Lemma bind_lift_raise {S A B} (e : exn) (k : A -> ST S B) s :
  bind (lift (Raise e)) k s = (s, Raise e).
Proof. reflexivity. Qed.

Lemma bind_raise_inv {S A B} (m : ST S A) (k : A -> ST S B) s s' e :
  bind m k s = (s', Raise e) ->
  m s = (s', Raise e) \/ exists a s1, m s = (s1, Ok a) /\ k a s1 = (s', Raise e).
Proof.
  unfold bind. destruct (m s) as [s1 [a|e1]]; [eauto|]. intros H. left. inversion H. reflexivity.
Qed.

Lemma getattr_ok h v name x :
  lookup_attr h v name = Some x -> getattr v name h = (h, Ok x).
Proof. intros H. unfold getattr. now rewrite H. Qed.

Lemma getattr_missing h v name :
  lookup_attr h v name = None -> getattr v name h = (h, Raise AttributeError).
Proof. intros H. unfold getattr. now rewrite H. Qed.

Lemma getattr_ok_inv h h' v name x :
  getattr v name h = (h', Ok x) -> h' = h /\ lookup_attr h v name = Some x.
Proof.
  unfold getattr. destruct (lookup_attr h v name); intros H; inversion H. auto.
Qed.

Lemma getattr_default_run h v name d :
  getattr_default v name d h
  = (h, Ok (match lookup_attr h v name with Some x => x | None => d end)).
Proof. unfold getattr_default. destruct (lookup_attr h v name); reflexivity. Qed.

(** One step of a run whose result is known. *)
Ltac run_with Heq :=
  rewrite ?bind_assoc; rewrite (bind_ok _ _ _ _ _ Heq); cbv beta.

Ltac fail_with Heq :=
  rewrite ?bind_assoc; rewrite (bind_raise _ _ _ _ _ Heq).

Ltac run_pure :=
  repeat first
    [ rewrite bind_assoc
    | rewrite bind_ret_l
    | rewrite bind_read_l
    | rewrite bind_lift_ok
    | progress cbv beta iota ].

(** One step of a successful run, for a step that only reads the store. *)
Ltac read_step H a Hs :=
  let h1 := fresh "h" in
  apply bind_ok_inv in H as (a & h1 & Hs & H);
  match type of Hs with
  | (_, _) = (_, _) =>
      let Hh := fresh "Hh" in
      injection Hs as Hh Hs; subst h1
  | ?m _ = _ =>
      let Hp := fresh "Hp" in
      assert (Hp : heap_preserving m) by (preserving; eauto using preserving_fun);
      pose proof (Hp _ _ _ Hs); subst h1; clear Hp
  end.

(** ** Names and keyword arguments of the rules *)

Section string_facts.

Lemma string_app_cons (c : ascii) (a b : string) : String c a +:+ b = String c (a +:+ b).
Proof. reflexivity. Qed.

Lemma string_app_nil (b : string) : "" +:+ b = b.
Proof. reflexivity. Qed.

Lemma string_app_assoc (a b c : string) : (a +:+ b) +:+ c = a +:+ (b +:+ c).
Proof.
  induction a as [|x a IH]; [reflexivity|].
  rewrite !string_app_cons. now rewrite IH.
Qed.

Lemma rev_chars_app (a b acc : string) :
  rev_chars (a +:+ b) acc = rev_chars b (rev_chars a acc).
Proof.
  revert acc. induction a as [|c a IH]; intros acc; [reflexivity|].
  rewrite string_app_cons. simpl. apply IH.
Qed.

Lemma rev_chars_acc (s acc : string) : rev_chars s acc = rev_chars s "" +:+ acc.
Proof.
  revert acc. induction s as [|c s IH]; intros acc; simpl; [reflexivity|].
  rewrite (IH (String c acc)), (IH (String c "")).
  rewrite string_app_assoc. reflexivity.
Qed.

Lemma rev_chars_involutive (s : string) : rev_chars (rev_chars s "") "" = s.
Proof.
  assert (Hgen : forall s acc, rev_chars (rev_chars s acc) "" = rev_chars acc s).
  { clear s. induction s as [|c s IH]; intros acc; simpl; [reflexivity|].
    rewrite IH. reflexivity. }
  rewrite Hgen. reflexivity.
Qed.

Lemma rev_chars_no_dot (s acc : string) :
  ~ In "."%char (list_ascii_of_string s) ->
  ~ In "."%char (list_ascii_of_string acc) ->
  ~ In "."%char (list_ascii_of_string (rev_chars s acc)).
Proof.
  revert acc. induction s as [|c s IH]; intros acc Hs Hacc; simpl; [exact Hacc|].
  apply IH.
  - intros Hin. apply Hs. now right.
  - simpl. intros [Heq|Hin]; [apply Hs; now left | contradiction].
Qed.

Lemma split_first_dot_no_dot (s acc : string) :
  ~ In "."%char (list_ascii_of_string s) -> split_first_dot s acc = None.
Proof.
  revert acc. induction s as [|c s IH]; intros acc Hs; simpl; [reflexivity|].
  destruct (Ascii.eqb_spec c ".") as [->|Hne].
  - exfalso. apply Hs. now left.
  - apply IH. intros Hin. apply Hs. now right.
Qed.

Lemma split_first_dot_at_dot (a b acc : string) :
  ~ In "."%char (list_ascii_of_string a) ->
  split_first_dot (a +:+ "." +:+ b) acc = Some (rev_chars a acc, b).
Proof.
  revert acc. induction a as [|c a IH]; intros acc Ha; [reflexivity|].
  rewrite string_app_cons. simpl.
  destruct (Ascii.eqb_spec c ".") as [->|Hne].
  - exfalso. apply Ha. now left.
  - apply IH. intros Hin. apply Ha. now right.
Qed.

Lemma rsplit_dot_no_dot (s : string) :
  ~ In "."%char (list_ascii_of_string s) -> rsplit_dot s = inl s.
Proof.
  intros Hs. unfold rsplit_dot.
  rewrite split_first_dot_no_dot; [reflexivity|].
  apply rev_chars_no_dot; [exact Hs | simpl; tauto].
Qed.

Lemma rsplit_dot_last_dot (head attr : string) :
  ~ In "."%char (list_ascii_of_string attr) ->
  rsplit_dot (head +:+ "." +:+ attr) = inr (head, attr).
Proof.
  intros Hattr. unfold rsplit_dot.
  rewrite rev_chars_app. simpl.
  rewrite (rev_chars_acc attr). 
  replace (rev_chars attr "" +:+ String "." (rev_chars head ""))
    with (rev_chars attr "" +:+ "." +:+ rev_chars head "") by reflexivity.
  rewrite split_first_dot_at_dot.
  - rewrite !rev_chars_involutive. reflexivity.
  - apply rev_chars_no_dot; [exact Hattr | simpl; tauto].
Qed.

End string_facts.

Section names_and_kwargs.
Import ParallelLayers.

(** X1.  [ParallelLayer._get_module_and_attribute_name] splits a
    qualified name at its last dot: a name without a dot denotes an
    attribute of the module itself, and for [head.attr], where [attr] has
    no dot, the result is the submodule that [get_submodule] finds at
    [head], with [attr]; an error of [get_submodule] is the error of the
    call.  The store is only read. *)
Theorem X1_module_and_attribute_name_splits_at_last_dot
    (module : value) (head attr : string) (h : heap) :
  ~ In "."%char (list_ascii_of_string attr) ->
  _get_module_and_attribute_name module attr h = (h, Ok (module, attr))
  /\ (forall leaf,
        get_submodule module head h = (h, Ok leaf) ->
        _get_module_and_attribute_name module (head +:+ "." +:+ attr) h
        = (h, Ok (leaf, attr)))
  /\ (forall e,
        get_submodule module head h = (h, Raise e) ->
        _get_module_and_attribute_name module (head +:+ "." +:+ attr) h
        = (h, Raise e))
  /\ (forall name h' r,
        _get_module_and_attribute_name module name h = (h', r) -> h' = h).
Proof.
  intros Hattr. unfold _get_module_and_attribute_name.
  rewrite (rsplit_dot_no_dot attr Hattr), (rsplit_dot_last_dot head attr Hattr).
  split; [reflexivity|]. split; [|split].
  - intros leaf Hsub. unfold bind. rewrite Hsub. reflexivity.
  - intros e Hsub. unfold bind. rewrite Hsub. reflexivity.
  - intros name h' r.
    destruct (rsplit_dot name) as [a|[a b]]; unfold bind, ret, get_submodule.
    + intros H. now inversion H.
    + destruct (String.eqb a ""); [intros H; now inversion H|].
      destruct (get_submodule_atoms h module (split_dots a)); intros H; now inversion H.
Qed.

End names_and_kwargs.

Section kwargs_facts.
Import ParallelLayers.
Context {K V : Type} `{EqDecision K}.
Implicit Types (d : list (K * V)) (k : K) (v : V).

Lemma dict_set_new d k v :
  ~ In k (dict_keys d) -> dict_set d k v = d ++ [(k, v)].
Proof.
  induction d as [|[k' v'] d IH]; simpl; intros Hk; [reflexivity|].
  destruct (decide (k = k')) as [->|Hne]; [exfalso; apply Hk; now left|].
  rewrite IH; [reflexivity|]. intros Hin. apply Hk. now right.
Qed.

Lemma dict_of_list_nodup_id (l : list (K * V)) :
  List.NoDup (map fst l) -> dict_of_list l = l.
Proof.
  unfold dict_of_list.
  assert (Hgen : forall d, List.NoDup (map fst (d ++ l)) ->
            fold_left (fun d kv => dict_set d (fst kv) (snd kv)) l d = d ++ l).
  { induction l as [|[k v] l IH]; intros d Hnd; simpl.
    - now rewrite app_nil_r.
    - rewrite dict_set_new.
      + rewrite IH; rewrite <- app_assoc; [reflexivity | exact Hnd].
      + rewrite map_app in Hnd. simpl in Hnd.
        apply NoDup_remove_2 in Hnd. intros Hin. apply Hnd.
        apply in_or_app. now left. }
  intros Hnd. apply (Hgen []). exact Hnd.
Qed.

Lemma dict_get_map_values (f : K -> V -> V) (l : list (K * V)) k :
  dict_get (map (fun kv => (fst kv, f (fst kv) (snd kv))) l) k
  = match dict_get l k with Some v => Some (f k v) | None => None end.
Proof.
  induction l as [|[k' v'] l IH]; simpl; [reflexivity|].
  destruct (decide (k = k')) as [->|Hne]; [reflexivity | exact IH].
Qed.
End kwargs_facts.

Section prepared_kwargs.
Import ParallelLayers.

(** X2.  [ParallelLayer.prepare_parallel_layer_specific_kwargs] keeps
    exactly the arguments that the class declares, in the order of the
    declaration: an argument that was given replaces the default value, an
    argument that was not given gets it, and an argument that the class
    does not declare is dropped.  A class that declares nothing gets no
    argument. *)
Theorem X2_kwargs_are_the_declared_ones (defaults given : kwargs) :
  List.NoDup (dict_keys defaults) ->
  dict_keys (prepare_parallel_layer_specific_kwargs (Some defaults) given)
  = dict_keys defaults
  /\ (forall k d,
        dict_get defaults k = Some d ->
        dict_get (prepare_parallel_layer_specific_kwargs (Some defaults) given) k
        = Some (match dict_get given k with Some v => v | None => d end))
  /\ (forall k,
        dict_get defaults k = None ->
        dict_get (prepare_parallel_layer_specific_kwargs (Some defaults) given) k = None)
  /\ prepare_parallel_layer_specific_kwargs None given = [].
Proof.
  intros Hnd. unfold prepare_parallel_layer_specific_kwargs.
  pose (f := fun (k : string) (d : value) =>
               match dict_get given k with Some v => v | None => d end).
  change (map _ defaults)
    with (map (fun kv : string * value => (fst kv, f (fst kv) (snd kv))) defaults).
  assert (Hkeys : map fst (map (fun kv : string * value => (fst kv, f (fst kv) (snd kv)))
                             defaults) = map fst defaults).
  { rewrite map_map. reflexivity. }
  rewrite dict_of_list_nodup_id by (rewrite Hkeys; exact Hnd).
  split; [exact Hkeys|]. split; [|split].
  - intros k d Hget. rewrite (dict_get_map_values f). now rewrite Hget.
  - intros k Hget. rewrite (dict_get_map_values f). now rewrite Hget.
  - reflexivity.
Qed.

End prepared_kwargs.

(** ** What every rule returns *)

Ltac returned_value H :=
  repeat first
    [ discriminate H
    | apply bind_ok_inv in H as (? & ? & _ & H)
    | match type of H with
      | (if ?b then _ else _) _ = _ => destruct b
      | (match ?x with _ => _ end) _ = _ => destruct x
      | (let '(_, _) := ?x in _) _ = _ => destruct x
      end
    | progress cbv beta in H ];
  try (inversion H; subst; reflexivity).

Section returned_layer.
Import ParallelLayers.
Context (E : externals).

Lemma replace_returns_layer layer device located h h' r :
  ParallelEmbedding_replace E layer device located h = (h', Ok r) -> r = layer.
Proof. unfold ParallelEmbedding_replace. intros H. returned_value H. Qed.

Lemma update_head_counts_returns_layer cls layer ctx nkv needs h h' r :
  update_head_counts E cls layer ctx nkv needs h = (h', Ok r) -> r = layer.
Proof. unfold update_head_counts. intros H. returned_value H. Qed.

Lemma shard_last_projection_returns_layer model layer device skip parent name proj h h' r :
  shard_last_projection E model layer device skip parent name proj h = (h', Ok r) ->
  r = layer.
Proof. unfold shard_last_projection. intros H. returned_value H. Qed.

(** X3.  Every rule transforms the layer in place: when the method
    [_transform] of [ParallelEmbedding], [ParallelSelfAttention],
    [ParallelSelfAttentionWithFusedQKV], [ParallelSelfOutput],
    [ParallelMLP] or [ParallelCrossEntropy] returns, it returns the layer
    that it was given, and so does [ParallelLayer.transform] over any of
    them, whether the predicate lets the layer through or not. *)
Theorem X3_rules_return_the_layer_they_were_given
    (model layer : value) (sequence_parallel_enabled : bool) (device : value)
    (kw : kwargs) (h h' : heap) (r : value) :
  (forall cls,
     ParallelEmbedding_transform E cls model layer sequence_parallel_enabled device kw h
     = (h', Ok r) -> r = layer)
  /\ (forall cls,
     ParallelSelfAttention_transform E cls model layer sequence_parallel_enabled device kw h
     = (h', Ok r) -> r = layer)
  /\ (forall cls with_stride,
     ParallelSelfAttentionWithFusedQKV._transform E with_stride cls model layer
       sequence_parallel_enabled device kw h
     = (h', Ok r) -> r = layer)
  /\ (forall cls,
     ParallelSelfOutput._transform E cls model layer sequence_parallel_enabled device kw h
     = (h', Ok r) -> r = layer)
  /\ (forall cls,
     ParallelMLP._transform E cls model layer sequence_parallel_enabled device kw h
     = (h', Ok r) -> r = layer)
  /\ (forall cls,
     ParallelCrossEntropy_transform E cls model layer sequence_parallel_enabled device kw h
     = (h', Ok r) -> r = layer)
  /\ (forall defaults _transform predicate given,
     (forall kw0 h0 h1 r0,
        _transform model layer sequence_parallel_enabled device kw0 h0 = (h1, Ok r0) ->
        r0 = layer) ->
     transform defaults _transform model layer sequence_parallel_enabled device
       predicate given h
     = (h', Ok r) -> r = layer).
Proof.
  repeat split.
  - intros cls H. unfold ParallelEmbedding_transform in H.
    apply bind_ok_inv in H as (loc_ & h1 & _ & H).
    apply bind_ok_inv in H as (n & h2 & _ & H).
    apply bind_ok_inv in H as (skip & h3 & _ & H).
    destruct skip.
    + inversion H. reflexivity.
    + now apply replace_returns_layer in H.
  - intros cls H. unfold ParallelSelfAttention_transform in H.
    apply bind_ok_inv in H as (ctx & h1 & _ & H).
    apply bind_ok_inv in H as (kv & h2 & _ & H).
    unfold ParallelSelfAttention_apply in H.
    apply bind_ok_inv in H as (? & h3 & _ & H).
    apply bind_ok_inv in H as (? & h4 & _ & H).
    now apply update_head_counts_returns_layer in H.
  - intros cls with_stride H.
    unfold ParallelSelfAttentionWithFusedQKV._transform,
      ParallelSelfAttentionWithFusedQKV.shard_and_update in H.
    returned_value H.
  - intros cls H. unfold ParallelSelfOutput._transform in H. returned_value H.
  - intros cls H. unfold ParallelMLP._transform in H. returned_value H.
  - intros cls H. unfold ParallelCrossEntropy_transform in H.
    apply bind_ok_inv in H as (skip & h1 & _ & H).
    apply bind_ok_inv in H as (name & h2 & _ & H).
    destruct name as [name|]; [|inversion H; reflexivity].
    apply bind_ok_inv in H as (eligible & h3 & _ & H).
    destruct eligible; simpl in H; [|inversion H; reflexivity].
    apply bind_ok_inv in H as ([parent attr] & h4 & _ & H).
    apply bind_ok_inv in H as (proj & h5 & _ & H).
    apply bind_ok_inv in H as (is_column & h6 & _ & H).
    destruct is_column.
    + apply bind_ok_inv in H as (? & h7 & _ & H). inversion H. reflexivity.
    + apply bind_ok_inv in H as (is_row & h7 & _ & H).
      destruct is_row; [discriminate H|].
      now apply shard_last_projection_returns_layer in H.
  - intros defaults _transform predicate given Hrule H. unfold transform in H.
    destruct predicate as [p|].
    + destruct (negb (p h layer)); [inversion H; reflexivity | now apply Hrule in H].
    + now apply Hrule in H.
Qed.

End returned_layer.

(** ** Attributes after an assignment *)

Section setattr_facts.
Import ParallelLayers.

Lemma setattr_class_name v name x h h' w :
  setattr v name x h = (h', Ok tt) -> class_name h' w = class_name h w.
Proof.
  intros H. apply setattr_ok_inv in H as (l & o & -> & Ho & ->).
  destruct w as [| | | |l'| | | | | | |]; try reflexivity.
  unfold class_name; unfold heap, loc in *.
  destruct (decide (l' = l)) as [->|Hl'].
  - now rewrite lookup_insert_eq, Ho.
  - now rewrite lookup_insert_ne by congruence.
Qed.

Lemma set_floordiv_ok_inv obj name a b h h' :
  set_floordiv obj name a b h = (h', Ok tt) ->
  exists z, as_int a = Ok z /\ b <> 0 /\ setattr obj name (VInt (z / b)) h = (h', Ok tt).
Proof.
  unfold set_floordiv, bind, lift, py_floordiv.
  destruct (as_int a) as [z|e]; [|discriminate].
  destruct (Z.eqb_spec b 0) as [->|Hb]; [discriminate|].
  intros H. exists z. auto.
Qed.

End setattr_facts.

(** ** The vocabulary size *)

Section vocab_size_facts.
Import ParallelLayers VocabSize.
Context (E : externals).

(** X4.  [ParallelEmbedding.overwrite_vocab_size_value_for_cross_entropy_computation]
    follows the dotted name [VOCAB_SIZE_NAME] from the layer and replaces
    the integer found at its end by its quotient by the tensor-parallel
    size; no other attribute of any object changes, and no object changes
    class.  With a tensor-parallel size of 0 it raises
    [ZeroDivisionError] and with no [VOCAB_SIZE_NAME] it does nothing,
    leaving the store as it is in both cases. *)
Theorem X4_vocab_size_is_divided_in_place
    (cls : ParallelEmbedding) (layer : value) (h : heap)
    (vocab_size_name : string) (o : loc) (vocab_size : Z) :
  VOCAB_SIZE_NAME cls = Some vocab_size_name ->
  getattr_path layer (removelast (split_dots vocab_size_name)) h = (h, Ok (VRef o)) ->
  lookup_attr h (VRef o) (List.last (split_dots vocab_size_name) "")
  = Some (VInt vocab_size) ->
  (tp_size E <> 0 ->
   exists h',
     overwrite_vocab_size_value_for_cross_entropy_computation E cls layer h = (h', Ok tt)
     /\ lookup_attr h' (VRef o) (List.last (split_dots vocab_size_name) "")
        = Some (VInt (vocab_size / tp_size E))
     /\ (forall v n,
           v <> VRef o \/ n <> List.last (split_dots vocab_size_name) "" ->
           lookup_attr h' v n = lookup_attr h v n)
     /\ (forall v c, isinstance h' v c = isinstance h v c))
  /\ (tp_size E = 0 ->
      overwrite_vocab_size_value_for_cross_entropy_computation E cls layer h
      = (h, Raise ZeroDivisionError))
  /\ (forall cls' layer' h0,
        VOCAB_SIZE_NAME cls' = None ->
        overwrite_vocab_size_value_for_cross_entropy_computation E cls' layer' h0
        = (h0, Ok tt)).
Proof.
  intros Hname Hpath Hattr. split; [|split].
  - intros Htp.
    assert (Hlive : is_Some (h !! o)) by (eapply lookup_attr_live; exact Hattr).
    destruct (setattr_live o (List.last (split_dots vocab_size_name) "")
                (VInt (vocab_size / tp_size E)) h Hlive) as [h' Hset].
    exists h'. split; [|split; [|split]].
    + unfold overwrite_vocab_size_value_for_cross_entropy_computation. rewrite Hname.
      rewrite (bind_ok _ _ _ _ _ Hpath).
      unfold bind at 1. unfold getattr. rewrite Hattr.
      unfold set_floordiv, bind, lift, py_floordiv. simpl.
      destruct (Z.eqb_spec (tp_size E) 0) as [H0|_]; [contradiction|]. exact Hset.
    + now apply setattr_lookup_same in Hset.
    + intros v n Hne. now apply (setattr_lookup_other _ _ _ _ _ v n Hset).
    + intros v c. now apply (setattr_isinstance _ _ _ _ _ v c Hset).
  - intros Htp.
    unfold overwrite_vocab_size_value_for_cross_entropy_computation. rewrite Hname.
    rewrite (bind_ok _ _ _ _ _ Hpath).
    unfold bind at 1. unfold getattr. rewrite Hattr.
    unfold set_floordiv, bind, lift, py_floordiv. simpl. rewrite Htp. reflexivity.
  - intros cls' layer' h0 Hnone.
    unfold overwrite_vocab_size_value_for_cross_entropy_computation. now rewrite Hnone.
Qed.

End vocab_size_facts.

(** ** The embedding rule: names and weights *)

Section embedding_facts.
Import ParallelLayers.
Context (E : externals).

Lemma preserving_locate_lm_head cls model layer :
  heap_preserving (locate_lm_head cls model layer).
Proof.
  unfold locate_lm_head. preserving; apply preserving_get_module_and_attribute_name.
Qed.

(** X5.  When [EMBEDDING_NAME] is a dictionary, the name of the embedding
    is the entry of the class of the model, and the entry "default" only
    when the class has none; with neither entry
    [ParallelEmbedding._transform] raises and leaves the store as it is,
    and the exception is [ValueError] whenever the search of the LM head,
    which comes first, raises nothing. *)
Theorem X5_embedding_name_by_class_then_default
    (cls : ParallelEmbedding) (model layer : value)
    (sequence_parallel_enabled : bool) (device : value) (kw : kwargs)
    (h : heap) (d : list (string * string)) :
  EMBEDDING_NAME cls = NameDict d ->
  (forall name,
     dict_get d (class_name h model) = Some name ->
     locate_embedding_name cls model h = (h, Ok name))
  /\ (forall name,
     dict_get d (class_name h model) = None ->
     dict_get d "default" = Some name ->
     locate_embedding_name cls model h = (h, Ok name))
  /\ (dict_get d (class_name h model) = None ->
      dict_get d "default" = None ->
      exists e,
        ParallelEmbedding_transform E cls model layer sequence_parallel_enabled device kw h
        = (h, Raise e)
        /\ (forall lm, locate_lm_head cls model layer h = (h, Ok lm) -> e = ValueError)).
Proof.
  intros Hd. split; [|split].
  - intros name Hget. unfold locate_embedding_name. rewrite Hd.
    unfold bind, read, ret. now rewrite Hget.
  - intros name Hcls Hdef. unfold locate_embedding_name. rewrite Hd.
    unfold bind, read, ret. now rewrite Hcls, Hdef.
  - intros Hcls Hdef.
    assert (Hname : locate_embedding_name cls model h = (h, Raise ValueError)).
    { unfold locate_embedding_name. rewrite Hd.
      unfold bind, read, raise. now rewrite Hcls, Hdef. }
    unfold ParallelEmbedding_transform, ParallelEmbedding_locate.
    destruct (locate_lm_head cls model layer h) as [h1 [lm|e]] eqn:Hlm.
    + pose proof (preserving_locate_lm_head _ _ _ _ _ _ Hlm) as ->.
      exists ValueError. split; [|reflexivity].
      apply bind_raise. rewrite (bind_ok _ _ _ _ _ Hlm).
      destruct lm as [[lm_head_name has] parent].
      now apply bind_raise.
    + pose proof (preserving_locate_lm_head _ _ _ _ _ _ Hlm) as ->.
      exists e. split; [|discriminate].
      apply bind_raise. now apply bind_raise.
Qed.

(** X6.  With a weight map on the model, the weight information of the
    embedding is looked up in two steps that use two different keys
    (lines 220-222): it is built only if the map has the bare name of the
    embedding among its keys, and then from the entry of the qualified
    name of the weight, [<layer>.<embedding>.weight]; if the map has the
    first key but not the second, the look-up raises [KeyError], and so
    does [_transform]; if the map lacks the first key, no weight
    information is passed, whether or not the weight itself is in the
    map.  The store is only read. *)
Theorem X6_embedding_weight_needs_both_keys
    (model layer : value) (device : value) (embedding_name : string)
    (h : heap) (weight_map : list (string * value)) (layer_qualified_name : string) :
  lookup_attr h model "_weight_map" = Some (VDict weight_map) ->
  layer_qualified_name_in E model layer h = (h, Ok layer_qualified_name) ->
  let embedding_weight_name :=
    with_prefix layer_qualified_name (embedding_name +:+ ".weight") in
  (dict_get weight_map embedding_name = None ->
   locate_weight_infos E model layer device embedding_name None false h
   = (h, Ok (VNone, VNone, VNone)))
  /\ (forall filename,
        dict_get weight_map embedding_name <> None ->
        dict_get weight_map embedding_weight_name = Some filename ->
        locate_weight_infos E model layer device embedding_name None false h
        = (h, Ok (WeightInformation filename embedding_weight_name (VDict weight_map) device,
                  VNone, VNone)))
  /\ (dict_get weight_map embedding_name <> None ->
      dict_get weight_map embedding_weight_name = None ->
      locate_weight_infos E model layer device embedding_name None false h
      = (h, Raise KeyError)
      /\ forall cls spe kw,
           EMBEDDING_NAME cls = NameStr embedding_name ->
           LM_HEAD_NAME cls = None ->
           ParallelEmbedding_transform E cls model layer spe device kw h
           = (h, Raise KeyError)).
Proof.
  intros Hmap Hname ewn.
  assert (Hrun : locate_weight_infos E model layer device embedding_name None false h
                 = (let! embedding_weight_info :=
                      (if dict_mem weight_map embedding_name then
                         let! filename := lift (dict_getitem weight_map ewn) in
                         ret (WeightInformation filename ewn (VDict weight_map) device)
                       else ret VNone) in
                    ret (embedding_weight_info, VNone, VNone)) h).
  { unfold locate_weight_infos.
    unfold bind at 1. unfold getattr_default. rewrite Hmap. simpl.
    rewrite (bind_ok _ _ _ _ _ Hname). reflexivity. }
  split; [|split].
  - intros Hnone. rewrite Hrun. unfold bind, dict_mem. now rewrite Hnone.
  - intros filename Hsome Hfile. rewrite Hrun. unfold bind, dict_mem, lift, dict_getitem.
    destruct (dict_get weight_map embedding_name); [|congruence].
    now rewrite Hfile.
  - intros Hsome Hfile.
    assert (Hkey : locate_weight_infos E model layer device embedding_name None false h
                   = (h, Raise KeyError)).
    { rewrite Hrun. unfold bind, dict_mem, lift, dict_getitem.
      destruct (dict_get weight_map embedding_name); [|congruence].
      now rewrite Hfile. }
    split; [exact Hkey|].
    intros cls spe kw Hemb Hlm.
    unfold ParallelEmbedding_transform, ParallelEmbedding_locate, locate_lm_head,
      locate_embedding_name.
    rewrite Hemb, Hlm.
    apply bind_raise. unfold bind at 1. unfold ret at 1.
    unfold bind at 1. unfold ret at 1.
    now apply bind_raise.
Qed.

End embedding_facts.

(** ** The self-attention rule: what is checked first *)

Section attention_checks_facts.
Import ParallelLayers.
Context (E : externals).

Lemma prepared_attention_kwargs (given : kwargs) :
  exists skip kv_size_multiplier,
    prepare_parallel_layer_specific_kwargs (Some PARALLEL_LAYER_SPECIFIC_KWARGS) given
    = [("skip_linear_weight_load", skip); ("kv_size_multiplier", kv_size_multiplier)].
Proof.
  unfold prepare_parallel_layer_specific_kwargs, PARALLEL_LAYER_SPECIFIC_KWARGS. simpl.
  eexists _, _. reflexivity.
Qed.

(** X7.  [ParallelSelfAttention._transform] raises [AttributeError] as
    soon as exactly one of [NUM_KEY_VALUE_HEADS_NAME] and
    [NUM_KEY_VALUE_GROUPS_NAME] is declared, whatever the model and the
    layer.  For a rule with consistent names, run through
    [ParallelLayer.transform] on a model whose configuration is known, it
    raises [KeyError] when the layer is not one of the modules of the
    model, and [AttributeError] when the layer lacks the attribute with
    the number of attention heads or the one with the head size.  In all
    these cases the store is left as it is. *)
Theorem X7_attention_rule_rejects_before_any_change
    (cls : ParallelSelfAttention) (model : value) (l : loc)
    (sequence_parallel_enabled : bool) (device : value) (given : kwargs) (h : heap)
    (config model_type : value) (nc : normalized_config)
    (heads_name size_name : string) :
  let run :=
    transform (Some PARALLEL_LAYER_SPECIFIC_KWARGS) (ParallelSelfAttention_transform E cls)
      model (VRef l) sequence_parallel_enabled device None given h in
  ((NUM_KEY_VALUE_HEADS_NAME cls = None <-> NUM_KEY_VALUE_GROUPS_NAME cls <> None) ->
   run = (h, Raise AttributeError))
  /\ ((NUM_KEY_VALUE_HEADS_NAME cls = None <-> NUM_KEY_VALUE_GROUPS_NAME cls = None) ->
      lookup_attr h model "config" = Some config ->
      lookup_attr h config "model_type" = Some model_type ->
      get_normalized_config E h model_type config = Ok nc ->
      NUM_ATTENTION_HEADS_NAME cls = Some heads_name ->
      ALL_HEAD_SIZE_NAME cls = Some size_name ->
      (last_name_of (named_modules E h model) l None = None ->
       run = (h, Raise KeyError))
      /\ (last_name_of (named_modules E h model) l None <> None ->
          lookup_attr h (VRef l) heads_name = None ->
          run = (h, Raise AttributeError))
      /\ (last_name_of (named_modules E h model) l None <> None ->
          lookup_attr h (VRef l) heads_name <> None ->
          lookup_attr h (VRef l) size_name = None ->
          run = (h, Raise AttributeError))).
Proof.
  intros run. subst run. unfold transform.
  destruct (prepared_attention_kwargs given) as (skip & kvm & ->).
  unfold ParallelSelfAttention_transform, ParallelSelfAttention_checks, kv_names_inconsistent.
  split.
  - intros Hincons.
    destruct (NUM_KEY_VALUE_HEADS_NAME cls) as [a|], (NUM_KEY_VALUE_GROUPS_NAME cls) as [b|];
      simpl; try reflexivity.
    + exfalso. destruct Hincons as [_ Hi]. discriminate Hi. discriminate.
    + exfalso. destruct Hincons as [Hi _]. now apply Hi.
  - intros Hcons Hconfig Htype Hnc Hheads Hsize.
    assert (Hok : (bool_decide (NUM_KEY_VALUE_HEADS_NAME cls <> None)
                     && bool_decide (NUM_KEY_VALUE_GROUPS_NAME cls = None))
                  || (bool_decide (NUM_KEY_VALUE_HEADS_NAME cls = None)
                        && bool_decide (NUM_KEY_VALUE_GROUPS_NAME cls <> None)) = false).
    { destruct (NUM_KEY_VALUE_HEADS_NAME cls) as [a|], (NUM_KEY_VALUE_GROUPS_NAME cls) as [b|];
        try reflexivity.
      - exfalso. destruct Hcons as [_ Hi]. discriminate Hi. reflexivity.
      - exfalso. destruct Hcons as [Hi _]. discriminate Hi. reflexivity. }
    rewrite Hok, Hheads, Hsize. cbv iota.
    change (kwargs_getitem _ "skip_linear_weight_load") with (@ret heap _ skip).
    change (kwargs_getitem _ "kv_size_multiplier") with (@ret heap _ kvm).
    unfold attr_name_or, hasattr.
    run_pure.
    run_with (getattr_default_run h model "_weight_map" VNone).
    run_with (getattr_ok _ _ _ _ Hconfig).
    run_with (getattr_ok _ _ _ _ Htype).
    assert (Hn : (fun h0 : heap => (h0, get_normalized_config E h0 model_type config)) h
                 = (h, Ok nc)) by (now rewrite Hnc).
    run_with Hn.
    destruct (last_name_of (named_modules E h model) l None) as [name|] eqn:Hreg.
    + assert (Hl : layer_qualified_name_in E model (VRef l) h = (h, Ok name)).
      { unfold layer_qualified_name_in. now rewrite Hreg. }
      run_with Hl. run_pure.
      split; [congruence|].
      destruct (lookup_attr h (VRef l) heads_name) as [a|] eqn:Ha.
      * split; [congruence|]. intros _ _ Hs. simpl negb. cbv iota.
        run_with (getattr_ok _ _ _ _ Ha). run_pure.
        rewrite Hs. reflexivity.
      * split; [reflexivity | intros _ Hn'; congruence].
    + assert (Hl : layer_qualified_name_in E model (VRef l) h = (h, Raise KeyError)).
      { unfold layer_qualified_name_in. now rewrite Hreg. }
      fail_with Hl.
      split; [reflexivity | split; intros Hn'; congruence].
Qed.

End attention_checks_facts.

(** ** The self-attention rule: the head counts after the transformation *)

Section attention_heads_facts.
Import ParallelLayers.
Context (E : externals).

Lemma not_divisible_by_ok_inv a b c :
  not_divisible_by a b = Ok c -> b <> 0 /\ (c = false <-> (b | a)).
Proof.
  unfold not_divisible_by, py_mod.
  destruct (Z.eqb_spec b 0) as [->|Hb]; [discriminate|]. simpl.
  intros H. inversion H as [Hc]. split; [exact Hb|].
  rewrite negb_false_iff, Z.eqb_eq. now apply Z.mod_divide.
Qed.

Lemma checks_ok_inv cls model layer kw h h' ctx heads_name size_name :
  ParallelSelfAttention_checks E cls model layer kw h = (h', Ok ctx) ->
  NUM_ATTENTION_HEADS_NAME cls = Some heads_name ->
  ALL_HEAD_SIZE_NAME cls = Some size_name ->
  h' = h
  /\ ctx_num_attention_heads_name ctx = heads_name
  /\ lookup_attr h layer heads_name = Some (ctx_num_attention_heads ctx)
  /\ ctx_all_head_size_name ctx = size_name
  /\ dict_get kw "skip_linear_weight_load" = Some (ctx_skip_linear_weight_load ctx)
  /\ dict_get kw "kv_size_multiplier" = Some (ctx_kv_size_multiplier ctx).
Proof.
  intros Hrun Hheads Hsize.
  pose proof (preserving_checks _ _ _ _ _ _ _ _ Hrun) as ->.
  split; [reflexivity|].
  unfold ParallelSelfAttention_checks in Hrun.
  destruct (kv_names_inconsistent cls); [discriminate|].
  rewrite Hheads, Hsize in Hrun. unfold attr_name_or, kwargs_getitem in Hrun.
  read_step Hrun skip Hskip.
  read_step Hrun kvm Hkvm.
  read_step Hrun wm Hwm.
  read_step Hrun config Hconfig.
  read_step Hrun mt Hmt.
  read_step Hrun nc Hnc.
  apply bind_ok_inv in Hrun as (lqn & h1 & Hlqn & Hrun).
  pose proof (preserving_layer_qualified_name_in _ _ _ _ _ _ Hlqn) as ->.
  read_step Hrun hname Hhn. inversion Hhn; subst hname. clear Hhn.
  read_step Hrun has Hhas.
  destruct (negb has); [discriminate|].
  read_step Hrun a Ha.
  apply getattr_ok_inv in Ha as [_ Ha].
  read_step Hrun sname Hsn. inversion Hsn; subst sname. clear Hsn.
  read_step Hrun has' Hhas'.
  destruct (negb has'); [discriminate|].
  inversion Hrun; subst. simpl.
  unfold lift, dict_getitem in Hskip, Hkvm.
  destruct (dict_get kw "skip_linear_weight_load") as [s|]; [|discriminate].
  destruct (dict_get kw "kv_size_multiplier") as [m|]; [|discriminate].
  inversion Hskip; inversion Hkvm; subst. auto.
Qed.

Lemma key_value_heads_ok_inv cls layer ctx h h' v needs kv_heads_name :
  NUM_KEY_VALUE_HEADS_NAME cls = Some kv_heads_name ->
  key_value_heads E cls layer ctx h = (h', Ok (v, needs)) ->
  h' = h
  /\ lookup_attr h layer kv_heads_name = Some v
  /\ exists nkv,
       as_int v = Ok nkv
       /\ tp_size E <> 0
       /\ ((tp_size E | nkv) \/ (nkv <> 0 /\ (nkv | tp_size E)))
       /\ needs = Z.ltb nkv (tp_size E).
Proof.
  intros Hname Hrun.
  pose proof (preserving_key_value_heads _ _ _ _ _ _ _ Hrun) as ->.
  split; [reflexivity|].
  unfold key_value_heads in Hrun. rewrite Hname in Hrun.
  read_step Hrun v0 Hv. apply getattr_ok_inv in Hv as [_ Hv].
  read_step Hrun nkv Hnkv.
  read_step Hrun c1 Hc1.
  read_step Hrun c2 Hc2.
  unfold lift in Hnkv, Hc1. inversion Hnkv as [Hint]. inversion Hc1 as [Hd1].
  apply not_divisible_by_ok_inv in Hd1 as [Htp Hd1].
  destruct c1.
  - unfold lift in Hc2. inversion Hc2 as [Hd2].
    apply not_divisible_by_ok_inv in Hd2 as [Hnz Hd2].
    destruct c2; [discriminate|]. simpl in Hrun. inversion Hrun; subst.
    split; [exact Hv|]. exists nkv. repeat split; auto.
    right. split; [exact Hnz | now apply Hd2].
  - simpl in Hrun. inversion Hrun; subst.
    split; [exact Hv|]. exists nkv. repeat split; auto.
    left. now apply Hd1.
Qed.

Lemma setattr_keeps_objects v name x h h' l :
  setattr v name x h = (h', Ok tt) -> is_Some (h' !! l) <-> is_Some (h !! l).
Proof.
  intros H. apply setattr_ok_inv in H as (l0 & o & -> & Ho & ->).
  unfold heap, loc in *.
  destruct (decide (l = l0)) as [->|Hne].
  - rewrite lookup_insert_eq, Ho. split; eauto.
  - now rewrite lookup_insert_ne by congruence.
Qed.

(** Lines 566-606 when the projections were sharded one by one. *)
Lemma update_head_counts_separate cls l ctx v h h' r kv_heads_name :
  NUM_KEY_VALUE_HEADS_NAME cls = Some kv_heads_name ->
  update_head_counts E cls (VRef l) ctx v false h = (h', Ok r) ->
  ctx_num_attention_heads_name ctx <> kv_heads_name ->
  ctx_num_attention_heads_name ctx <> ctx_all_head_size_name ctx ->
  kv_heads_name <> ctx_all_head_size_name ctx ->
  exists a nkv size s,
    as_int (ctx_num_attention_heads ctx) = Ok a
    /\ as_int v = Ok nkv
    /\ lookup_attr h (VRef l) (ctx_all_head_size_name ctx) = Some size
    /\ as_int size = Ok s
    /\ lookup_attr h' (VRef l) (ctx_num_attention_heads_name ctx)
       = Some (VInt (a / tp_size E))
    /\ lookup_attr h' (VRef l) kv_heads_name = Some (VInt (nkv / tp_size E))
    /\ lookup_attr h' (VRef l) (ctx_all_head_size_name ctx) = Some (VInt (s / tp_size E)).
Proof.
  intros Hname Hrun Hn1 Hn2 Hn3.
  unfold update_head_counts in Hrun. rewrite Hname in Hrun. simpl negb in Hrun.
  cbv iota in Hrun.
  apply bind_ok_inv in Hrun as ([] & h1 & Hs1 & Hrun).
  apply bind_ok_inv in Hrun as ([] & h2 & Hs2 & Hrun).
  apply bind_ok_inv in Hrun as (size & h3 & Hsize & Hrun).
  apply getattr_ok_inv in Hsize as [-> Hsize].
  apply bind_ok_inv in Hrun as ([] & h4 & Hs3 & Hrun).
  inversion Hrun; subst h4 r. clear Hrun.
  apply set_floordiv_ok_inv in Hs1 as (a & Ha & Htp & Hs1).
  apply set_floordiv_ok_inv in Hs2 as (nkv & Hnkv & _ & Hs2).
  apply set_floordiv_ok_inv in Hs3 as (s & Hs & _ & Hs3).
  exists a, nkv, size, s.
  split; [exact Ha|]. split; [exact Hnkv|].
  split.
  { rewrite <- Hsize.
    rewrite (setattr_lookup_other _ _ _ _ _ (VRef l) (ctx_all_head_size_name ctx) Hs2)
      by (right; congruence).
    rewrite (setattr_lookup_other _ _ _ _ _ (VRef l) (ctx_all_head_size_name ctx) Hs1)
      by (right; congruence).
    reflexivity. }
  split; [exact Hs|]. split; [|split].
  - rewrite (setattr_lookup_other _ _ _ _ _ (VRef l) (ctx_num_attention_heads_name ctx) Hs3)
      by (right; congruence).
    rewrite (setattr_lookup_other _ _ _ _ _ (VRef l) (ctx_num_attention_heads_name ctx) Hs2)
      by (right; congruence).
    now apply setattr_lookup_same in Hs1.
  - rewrite (setattr_lookup_other _ _ _ _ _ (VRef l) kv_heads_name Hs3)
      by (right; congruence).
    now apply setattr_lookup_same in Hs2.
  - now apply setattr_lookup_same in Hs3.
Qed.

(** X8.  Let a rule declare its attribute names, all different, and let
    [ParallelSelfAttention._transform] succeed on a layer with [a]
    attention heads and [nkv] key/value heads, at least as many as the
    tensor-parallel size, which is positive.  Whatever the functions that
    shard the projections do, the layer then has [a // tp_size] attention
    heads and [nkv // tp_size] key/value heads; the key/value heads are
    split evenly, [nkv = tp_size * (nkv // tp_size)], since the head
    count passed the check of lines 493-496; and its head size is an
    integer divided by the tensor-parallel size. *)
Theorem X8_heads_per_rank_after_sharding
    (cls : ParallelSelfAttention) (model : value) (l : loc)
    (sequence_parallel_enabled : bool) (device : value) (kw : kwargs)
    (h h' : heap) (r : value)
    (heads_name kv_heads_name size_name : string) (a nkv : Z) :
  NUM_ATTENTION_HEADS_NAME cls = Some heads_name ->
  NUM_KEY_VALUE_HEADS_NAME cls = Some kv_heads_name ->
  ALL_HEAD_SIZE_NAME cls = Some size_name ->
  heads_name <> kv_heads_name ->
  heads_name <> size_name ->
  kv_heads_name <> size_name ->
  lookup_attr h (VRef l) heads_name = Some (VInt a) ->
  lookup_attr h (VRef l) kv_heads_name = Some (VInt nkv) ->
  0 < tp_size E <= nkv ->
  ParallelSelfAttention_transform E cls model (VRef l) sequence_parallel_enabled device kw h
  = (h', Ok r) ->
  lookup_attr h' (VRef l) heads_name = Some (VInt (a / tp_size E))
  /\ lookup_attr h' (VRef l) kv_heads_name = Some (VInt (nkv / tp_size E))
  /\ nkv = tp_size E * (nkv / tp_size E)
  /\ exists s, lookup_attr h' (VRef l) size_name = Some (VInt (s / tp_size E)).
Proof.
  intros Hheads Hkv Hsize Hn1 Hn2 Hn3 Ha Hnkv Htp Hrun.
  unfold ParallelSelfAttention_transform in Hrun.
  apply bind_ok_inv in Hrun as (ctx & h1 & Hc & Hrun).
  apply (checks_ok_inv _ _ _ _ _ _ _ heads_name size_name) in Hc
    as (-> & Hhn & Hheads_v & Hsn & _); [|exact Hheads|exact Hsize].
  apply bind_ok_inv in Hrun as ([v needs] & h2 & Hk & Hrun).
  apply (key_value_heads_ok_inv _ _ _ _ _ _ _ kv_heads_name Hkv) in Hk
    as (-> & Hv & nkv' & Hint & Htp0 & Hfit & Hneeds).
  rewrite Hnkv in Hv. inversion Hv; subst v. clear Hv.
  simpl in Hint. inversion Hint; subst nkv'. clear Hint.
  assert (Hno : Z.ltb nkv (tp_size E) = false) by (apply Z.ltb_ge; lia).
  rewrite Hno in Hneeds. subst needs. cbn [fst snd] in Hrun.
  unfold ParallelSelfAttention_apply in Hrun.
  apply bind_ok_inv in Hrun as ([] & h3 & _ & Hrun).
  apply bind_ok_inv in Hrun as ([] & h4 & _ & Hrun).
  rewrite Ha in Hheads_v. inversion Hheads_v as [Hav].
  apply (update_head_counts_separate cls l ctx (VInt nkv) h4 h' r kv_heads_name Hkv) in Hrun
    as (a' & nkv' & size & s & Ha' & Hnkv' & _ & _ & R1 & R2 & R3);
    [|congruence|congruence|congruence].
  rewrite <- Hav in Ha'. simpl in Ha', Hnkv'.
  inversion Ha'; inversion Hnkv'; subst a' nkv'.
  rewrite Hhn in R1. rewrite Hsn in R3.
  split; [exact R1|]. split; [exact R2|]. split; [|eauto].
  assert (Hdiv : (tp_size E | nkv)).
  { destruct Hfit as [Hd|[Hnz Hd]]; [exact Hd|].
    assert (Hle : nkv <= tp_size E) by (apply Z.divide_pos_le; [lia | exact Hd]).
    assert (nkv = tp_size E) by lia. subst nkv. apply Z.divide_refl. }
  destruct Hdiv as [q Hq]. rewrite Hq at 2. rewrite Z.div_mul by exact Htp0. lia.
Qed.

End attention_heads_facts.

Section gqa_heads_facts.
Import ParallelLayers.
Context (E : externals).

(** X9.  The last step of [ParallelSelfAttention._transform] (lines
    566-606) on the GQA path, for a rule whose four attribute names are
    different from each other and from "qkv_proj", once the fused
    projection, with a multiplier [kvm], is on the layer.  The layer gets
    [a // tp_size] attention heads, [(nkv * kvm) // tp_size] key/value
    heads, and as many query groups as the quotient of these two numbers.
    With the default multiplier [tp_size // nkv] and a number of
    key/value heads that divides the tensor-parallel size, this is one
    key/value head for each rank.  With a multiplier so small that
    [nkv * kvm < tp_size], the division by the new number of key/value
    heads, which is 0, raises [ZeroDivisionError], and the layer is left
    with 0 key/value heads. *)
Theorem X9_gqa_heads_per_rank
    (cls : ParallelSelfAttention) (l fused : loc) (ctx : attention_ctx) (h : heap)
    (kv_heads_name groups_name : string) (a nkv kvm s : Z) :
  let heads_name := ctx_num_attention_heads_name ctx in
  let size_name := ctx_all_head_size_name ctx in
  let new_nkv := (nkv * kvm) / tp_size E in
  NUM_KEY_VALUE_HEADS_NAME cls = Some kv_heads_name ->
  NUM_KEY_VALUE_GROUPS_NAME cls = Some groups_name ->
  NoDup [heads_name; kv_heads_name; groups_name; size_name; "qkv_proj"] ->
  ctx_num_attention_heads ctx = VInt a ->
  lookup_attr h (VRef l) "qkv_proj" = Some (VRef fused) ->
  fused <> l ->
  lookup_attr h (VRef fused) "kv_size_multiplier" = Some (VInt kvm) ->
  lookup_attr h (VRef l) size_name = Some (VInt s) ->
  0 < tp_size E ->
  0 <= nkv * kvm ->
  (tp_size E <= nkv * kvm ->
   exists h',
     update_head_counts E cls (VRef l) ctx (VInt nkv) true h = (h', Ok (VRef l))
     /\ lookup_attr h' (VRef l) heads_name = Some (VInt (a / tp_size E))
     /\ lookup_attr h' (VRef l) kv_heads_name = Some (VInt new_nkv)
     /\ lookup_attr h' (VRef l) groups_name = Some (VInt ((a / tp_size E) / new_nkv))
     /\ lookup_attr h' (VRef l) size_name = Some (VInt (s / tp_size E))
     /\ (0 < nkv -> (nkv | tp_size E) -> kvm = tp_size E / nkv -> new_nkv = 1))
  /\ (nkv * kvm < tp_size E ->
      exists h',
        update_head_counts E cls (VRef l) ctx (VInt nkv) true h
        = (h', Raise ZeroDivisionError)
        /\ lookup_attr h' (VRef l) kv_heads_name = Some (VInt 0)).
Proof.
  intros heads_name size_name new_nkv Hkv Hgroups Hnd Ha Hfused Hne Hkvm Hs Htp Hpos.
  apply NoDup_cons in Hnd as [Hn1 Hnd].
  apply NoDup_cons in Hnd as [Hn2 Hnd].
  apply NoDup_cons in Hnd as [Hn3 Hnd].
  apply NoDup_cons in Hnd as [Hn4 _].
  repeat rewrite not_elem_of_cons in Hn1.
  repeat rewrite not_elem_of_cons in Hn2.
  repeat rewrite not_elem_of_cons in Hn3.
  repeat rewrite not_elem_of_cons in Hn4.
  assert (Hlive : is_Some (h !! l)) by (eapply lookup_attr_live; exact Hfused).
  assert (Htp0 : tp_size E <> 0) by lia.
  assert (Hflo : forall x, py_floordiv x (tp_size E) = Ok (x / tp_size E)).
  { intros x. unfold py_floordiv. destruct (Z.eqb_spec (tp_size E) 0); [contradiction|].
    reflexivity. }
  (* the number of attention heads *)
  destruct (setattr_live l heads_name (VInt (a / tp_size E)) h Hlive) as [h1 Hs1].
  assert (Hstep1 : set_floordiv (VRef l) heads_name (ctx_num_attention_heads ctx)
                     (tp_size E) h = (h1, Ok tt)).
  { unfold set_floordiv. rewrite Ha. simpl as_int. run_pure. rewrite Hflo. run_pure.
    exact Hs1. }
  assert (Hfused1 : lookup_attr h1 (VRef l) "qkv_proj" = Some (VRef fused)).
  { rewrite (setattr_lookup_other _ _ _ _ _ (VRef l) "qkv_proj" Hs1); [exact Hfused|].
    right. intros Heq. clear - Heq Hn1 Hn2 Hn3 Hn4. intuition congruence. }
  assert (Hkvm1 : lookup_attr h1 (VRef fused) "kv_size_multiplier" = Some (VInt kvm)).
  { rewrite (setattr_lookup_other _ _ _ _ _ (VRef fused) "kv_size_multiplier" Hs1);
      [exact Hkvm|]. left. congruence. }
  assert (Hlive1 : is_Some (h1 !! l)) by (now apply (setattr_keeps_objects _ _ _ _ _ l Hs1)).
  (* the number of key/value heads *)
  destruct (setattr_live l kv_heads_name (VInt new_nkv) h1 Hlive1) as [h2 Hs2].
  assert (Hheads2 : lookup_attr h2 (VRef l) heads_name = Some (VInt (a / tp_size E))).
  { rewrite (setattr_lookup_other _ _ _ _ _ (VRef l) heads_name Hs2);
      [now apply setattr_lookup_same in Hs1|].
    right. intros Heq. clear - Heq Hn1 Hn2 Hn3 Hn4. intuition congruence. }
  assert (Hprefix : forall k : unit -> M value,
            (do! set_floordiv (VRef l) heads_name (ctx_num_attention_heads ctx) (tp_size E) in
             do! (let! gqa_qkv_proj := getattr (VRef l) GQA_QKV_PROJ_NAME in
                  let! kvm := getattr gqa_qkv_proj "kv_size_multiplier" in
                  let! nkv := lift (as_int (VInt nkv)) in
                  let! kvm := lift (as_int kvm) in
                  let! new_num_key_value_heads := lift (py_floordiv (nkv * kvm) (tp_size E)) in
                  do! setattr (VRef l) kv_heads_name (VInt new_num_key_value_heads) in
                  let! heads := getattr (VRef l) heads_name in
                  let! heads := lift (as_int heads) in
                  let! groups := lift (py_floordiv heads new_num_key_value_heads) in
                  setattr (VRef l) groups_name (VInt groups)) in
             k tt) h
            = (do! lift (SequenceParallel.rmap (fun _ => tt)
                           (py_floordiv (a / tp_size E) new_nkv)) in
               do! setattr (VRef l) groups_name (VInt ((a / tp_size E) / new_nkv)) in
               k tt) h2).
  { intros k. run_with Hstep1.
    run_with (getattr_ok _ _ _ _ Hfused1).
    run_with (getattr_ok _ _ _ _ Hkvm1).
    simpl as_int. run_pure. rewrite Hflo. run_pure.
    run_with Hs2.
    run_with (getattr_ok _ _ _ _ Hheads2).
    simpl as_int. run_pure.
    fold new_nkv. unfold py_floordiv.
    destruct (Z.eqb_spec new_nkv 0); simpl; [reflexivity|]. run_pure. reflexivity. }
  assert (Hrun : update_head_counts E cls (VRef l) ctx (VInt nkv) true h
                 = (do! lift (SequenceParallel.rmap (fun _ => tt)
                                (py_floordiv (a / tp_size E) new_nkv)) in
                    do! setattr (VRef l) groups_name (VInt ((a / tp_size E) / new_nkv)) in
                    let! all_head_size := getattr (VRef l) size_name in
                    do! set_floordiv (VRef l) size_name all_head_size (tp_size E) in
                    ret (VRef l)) h2).
  { unfold update_head_counts. rewrite Hkv, Hgroups. simpl negb. cbv iota.
    fold heads_name. fold size_name.
    rewrite <- (Hprefix (fun _ =>
      let! all_head_size := getattr (VRef l) size_name in
      do! set_floordiv (VRef l) size_name all_head_size (tp_size E) in
      ret (VRef l))).
    reflexivity. }
  split.
  - intros Hbig.
    assert (Hnew : 0 < new_nkv).
    { unfold new_nkv. apply Z.div_str_pos. lia. }
    assert (Hlive2 : is_Some (h2 !! l))
      by (now apply (setattr_keeps_objects _ _ _ _ _ l Hs2)).
    destruct (setattr_live l groups_name (VInt ((a / tp_size E) / new_nkv)) h2 Hlive2)
      as [h3 Hs3].
    assert (Hlive3 : is_Some (h3 !! l))
      by (now apply (setattr_keeps_objects _ _ _ _ _ l Hs3)).
    destruct (setattr_live l size_name (VInt (s / tp_size E)) h3 Hlive3) as [h' Hs4].
    assert (Hsize3 : lookup_attr h3 (VRef l) size_name = Some (VInt s)).
    { rewrite (setattr_lookup_other _ _ _ _ _ (VRef l) size_name Hs3)
        by (right; intros Heq; clear - Heq Hn1 Hn2 Hn3 Hn4; intuition congruence).
      rewrite (setattr_lookup_other _ _ _ _ _ (VRef l) size_name Hs2)
        by (right; intros Heq; clear - Heq Hn1 Hn2 Hn3 Hn4; intuition congruence).
      rewrite (setattr_lookup_other _ _ _ _ _ (VRef l) size_name Hs1)
        by (right; intros Heq; clear - Heq Hn1 Hn2 Hn3 Hn4; intuition congruence).
      exact Hs. }
    exists h'. split; [|split; [|split; [|split; [|split]]]].
    + rewrite Hrun. unfold py_floordiv.
      destruct (Z.eqb_spec new_nkv 0); [lia|]. simpl SequenceParallel.rmap. run_pure.
      run_with Hs3. run_with (getattr_ok _ _ _ _ Hsize3).
      unfold set_floordiv. simpl as_int. run_pure. rewrite Hflo. run_pure.
      run_with Hs4. reflexivity.
    + rewrite (setattr_lookup_other _ _ _ _ _ (VRef l) heads_name Hs4)
        by (right; intros Heq; clear - Heq Hn1 Hn2 Hn3 Hn4; intuition congruence).
      rewrite (setattr_lookup_other _ _ _ _ _ (VRef l) heads_name Hs3)
        by (right; intros Heq; clear - Heq Hn1 Hn2 Hn3 Hn4; intuition congruence).
      exact Hheads2.
    + rewrite (setattr_lookup_other _ _ _ _ _ (VRef l) kv_heads_name Hs4)
        by (right; intros Heq; clear - Heq Hn1 Hn2 Hn3 Hn4; intuition congruence).
      rewrite (setattr_lookup_other _ _ _ _ _ (VRef l) kv_heads_name Hs3)
        by (right; intros Heq; clear - Heq Hn1 Hn2 Hn3 Hn4; intuition congruence).
      now apply setattr_lookup_same in Hs2.
    + rewrite (setattr_lookup_other _ _ _ _ _ (VRef l) groups_name Hs4)
        by (right; intros Heq; clear - Heq Hn1 Hn2 Hn3 Hn4; intuition congruence).
      now apply setattr_lookup_same in Hs3.
    + now apply setattr_lookup_same in Hs4.
    + intros Hnkv [q Hq] Hdef. unfold new_nkv. subst kvm.
      rewrite Hq. rewrite Z.div_mul by lia.
      replace (nkv * q) with (q * nkv) by lia. apply Z.div_same. lia.
  - intros Hsmall. exists h2.
    assert (Hzero : new_nkv = 0) by (unfold new_nkv; apply Z.div_small; lia).
    split.
    + rewrite Hrun, Hzero. reflexivity.
    + rewrite <- Hzero. now apply setattr_lookup_same in Hs2.
Qed.

End gqa_heads_facts.

(** ** The fused projection: proxies and constructor *)

Section gqa_projection_facts.
Import ParallelLayers.
Context (E : externals).



End gqa_projection_facts.

(** ** The rule for a fused query/key/value projection *)

Section fused_qkv_facts.
Import ParallelLayers.
Context (E : externals).
Context (with_stride : value -> linear_kwargs -> Z -> M value).


End fused_qkv_facts.

(** ** The properties on concrete layers *)

Section layer_examples.
Import ParallelLayers Fixtures.

(** Three key/value heads under a tensor-parallel size of 4: neither
    number divides the other. *)
Lemma C3_witness :
  let E := fx_layers 4 in
  let h := fx_attention_heap 3 in
  NUM_KEY_VALUE_HEADS_NAME fx_llama_attention = Some "num_key_value_heads"
  /\ lookup_attr h (VRef 2) "num_key_value_heads" = Some (VInt 3)
  /\ ~ (3 | tp_size E)
  /\ ~ (tp_size E | 3)
  /\ exists e,
       ParallelSelfAttention_transform E fx_llama_attention (VRef 0) (VRef 2) false VNone
         fx_attention_kwargs h = (h, Raise e)
       /\ (forall h' ctx,
             ParallelSelfAttention_checks E fx_llama_attention (VRef 0) (VRef 2)
               fx_attention_kwargs h = (h', Ok ctx) ->
             e = ValueError).
Proof.
  cbv zeta.
  assert (H1 : NUM_KEY_VALUE_HEADS_NAME fx_llama_attention = Some "num_key_value_heads")
    by reflexivity.
  assert (H2 : lookup_attr (fx_attention_heap 3) (VRef 2) "num_key_value_heads" = Some (VInt 3))
    by (vm_compute; reflexivity).
  assert (H3 : ~ (3 | tp_size (fx_layers 4))) by (intros [z Hz]; simpl in Hz; lia).
  assert (H4 : ~ (tp_size (fx_layers 4) | 3)) by (intros [z Hz]; simpl in Hz; lia).
  exact (conj H1 (conj H2 (conj H3 (conj H4
    (C3_incompatible_head_count_raises_before_any_change (fx_layers 4) fx_llama_attention
       (VRef 0) (VRef 2) false VNone fx_attention_kwargs (fx_attention_heap 3)
       "num_key_value_heads" 3 H1 H2 H3 H4))))).
Defined.

(** The same layer refutes the unconditional reading of the choice of the
    path: 3 key/value heads are fewer than the 4 shards, and the fused
    replacement would succeed on the layer, but [_transform] raises
    [ValueError] before it and leaves the layer as it was. *)
Lemma C2_counterexample :
  let E := fx_layers 4 in
  let h := fx_attention_heap 3 in
  lookup_attr h (VRef 2) "num_key_value_heads" = Some (VInt 3)
  /\ 3 < tp_size E
  /\ ParallelSelfAttention_transform E fx_llama_attention (VRef 0) (VRef 2) false VNone
       fx_attention_kwargs h = (h, Raise ValueError)
  /\ snd (replace_qkv_by_gqa_qkv_column_parallel_linear E fx_llama_attention (VRef 0)
            (VRef 2) false VNone (VBool false) h) = Ok tt
  /\ lookup_attr
       (fst (ParallelSelfAttention_transform E fx_llama_attention (VRef 0) (VRef 2) false
               VNone fx_attention_kwargs h))
       (VRef 2) "qkv_proj" = None.
Proof.
  cbv zeta. repeat split; try (vm_compute; reflexivity).
Qed.

(** Two key/value heads under a tensor-parallel size of 4: the GQA path.
    Four key/value heads under a tensor-parallel size of 2: the three
    projections are replaced, one by one, by column-parallel layers that
    keep their output partitioned, and no fused projection is created. *)
Lemma C2_witness :
  let E := fx_layers 4 in
  let h := fx_attention_heap 2 in
  NUM_KEY_VALUE_HEADS_NAME fx_llama_attention = Some "num_key_value_heads"
  /\ lookup_attr h (VRef 2) "num_key_value_heads" = Some (VInt 2)
  /\ as_int (VInt 2) = Ok 2
  /\ ParallelSelfAttention_transform E fx_llama_attention (VRef 0) (VRef 2) false VNone
       fx_attention_kwargs h
     = (do! replace_qkv_by_gqa_qkv_column_parallel_linear E fx_llama_attention (VRef 0)
              (VRef 2) false VNone (VBool false) in
        do! shard_output_projection E fx_llama_attention (VRef 2) false VNone
              fx_attention_ctx true in
        update_head_counts E fx_llama_attention (VRef 2) fx_attention_ctx (VInt 2) true) h
  /\ (let E2 := fx_layers 2 in
      let h4 := fx_attention_heap 4 in
      let after := fst (ParallelSelfAttention_transform E2 fx_llama_attention (VRef 0)
                          (VRef 2) false VNone fx_attention_kwargs h4) in
      ~ 4 < tp_size E2
      /\ lookup_attr after (VRef 2) "qkv_proj" = None
      /\ Forall (fun name_old : string * loc =>
                   exists parallel,
                     lookup_attr after (VRef 2) (fst name_old) = Some parallel
                     /\ isinstance after parallel ColumnParallelLinear = true
                     /\ lookup_attr after parallel "gather_output" = Some (VBool false)
                     /\ lookup_attr after parallel "original" = Some (VRef (snd name_old)))
                [("q_proj", 3%nat); ("k_proj", 4%nat); ("v_proj", 5%nat)]).
Proof.
  cbv zeta.
  assert (Hseparate :
    let E2 := fx_layers 2 in
    let h4 := fx_attention_heap 4 in
    let after := fst (ParallelSelfAttention_transform E2 fx_llama_attention (VRef 0)
                        (VRef 2) false VNone fx_attention_kwargs h4) in
    ~ 4 < tp_size E2
    /\ lookup_attr after (VRef 2) "qkv_proj" = None
    /\ Forall (fun name_old : string * loc =>
                 exists parallel,
                   lookup_attr after (VRef 2) (fst name_old) = Some parallel
                   /\ isinstance after parallel ColumnParallelLinear = true
                   /\ lookup_attr after parallel "gather_output" = Some (VBool false)
                   /\ lookup_attr after parallel "original" = Some (VRef (snd name_old)))
              [("q_proj", 3%nat); ("k_proj", 4%nat); ("v_proj", 5%nat)]).
  { cbv zeta.
    assert (G1 : lookup_attr (fx_attention_heap 4) (VRef 2) "num_key_value_heads"
                 = Some (VInt 4)) by (vm_compute; reflexivity).
    assert (Gc : ParallelSelfAttention_checks (fx_layers 2) fx_llama_attention (VRef 0)
                   (VRef 2) fx_attention_kwargs (fx_attention_heap 4)
                 = (fx_attention_heap 4, Ok fx_attention_ctx))
      by (vm_compute; reflexivity).
    assert (Gtp : tp_size (fx_layers 2) <> 0) by (simpl; lia).
    assert (Gfit : (tp_size (fx_layers 2) | 4) \/ (4 | tp_size (fx_layers 2)))
      by (left; exists 2; reflexivity).
    assert (Gle : tp_size (fx_layers 2) <= 4) by (simpl; lia).
    rewrite (proj2 (proj1 (C2_gqa_path_iff_fewer_kv_heads_than_shards (fx_layers 2)
                             fx_llama_attention (VRef 0) (VRef 2) false VNone
                             fx_attention_kwargs (fx_attention_heap 4)
                             "num_key_value_heads" (VInt 4) 4 eq_refl G1 eq_refl)
                          fx_attention_ctx Gc Gtp Gfit) Gle).
    split; [simpl; lia|]. split; [vm_compute; reflexivity|].
    repeat (apply Forall_cons; split;
            [eexists; repeat split; vm_compute; reflexivity|]).
    apply Forall_nil. exact I. }
  assert (H1 : NUM_KEY_VALUE_HEADS_NAME fx_llama_attention = Some "num_key_value_heads")
    by reflexivity.
  assert (H2 : lookup_attr (fx_attention_heap 2) (VRef 2) "num_key_value_heads" = Some (VInt 2))
    by (vm_compute; reflexivity).
  assert (H3 : as_int (VInt 2) = Ok 2) by reflexivity.
  assert (Hc : ParallelSelfAttention_checks (fx_layers 4) fx_llama_attention (VRef 0) (VRef 2)
                 fx_attention_kwargs (fx_attention_heap 2)
               = (fx_attention_heap 2, Ok fx_attention_ctx))
    by (vm_compute; reflexivity).
  assert (Htp : tp_size (fx_layers 4) <> 0) by (simpl; lia).
  assert (Hfit : (tp_size (fx_layers 4) | 2) \/ (2 | tp_size (fx_layers 4)))
    by (right; exists 2; reflexivity).
  assert (Hlt : 2 < tp_size (fx_layers 4)) by (simpl; lia).
  exact (conj H1 (conj H2 (conj H3 (conj
    (proj1 (proj1 (C2_gqa_path_iff_fewer_kv_heads_than_shards (fx_layers 4)
                     fx_llama_attention (VRef 0) (VRef 2) false VNone fx_attention_kwargs
                     (fx_attention_heap 2) "num_key_value_heads" (VInt 2) 2 H1 H2 H3)
                  fx_attention_ctx Hc Htp Hfit) Hlt)
    Hseparate)))).
Defined.

(** An embedding of 10 rows under a tensor-parallel size of 4, in a model
    whose weight map has the key "embed_tokens" and no key
    "embed_tokens.weight": line 220 finds the first and line 222 looks up
    the second, so that [KeyError] is raised where the layer should have
    been returned.  With a rule that names no embedding for the class of
    the model and no default, line 205 raises [ValueError]. *)
Lemma C4_counterexample :
  let E := fx_layers 4 in
  let h := fx_mapped_lm_heap 10 in
  lookup_attr h (VRef 0) "embed_tokens" = Some (VRef 1)
  /\ lookup_attr h (VRef 1) "num_embeddings" = Some (VInt 10)
  /\ lookup_attr h (VRef 0) "_weight_map"
     = Some (VDict [("embed_tokens", VStr "model-00001.safetensors")])
  /\ ~ (tp_size E | 10)
  /\ ParallelEmbedding_transform E fx_llama_embedding (VRef 0) (VRef 0) false VNone [] h
     = (h, Raise KeyError)
  /\ ParallelEmbedding_transform E fx_bert_embedding (VRef 0) (VRef 0) false VNone []
       (fx_lm_heap 10 VNone)
     = (fx_lm_heap 10 VNone, Raise ValueError).
Proof.
  cbv zeta. repeat split; try (vm_compute; reflexivity).
  intros [z Hz]. simpl in Hz. lia.
Qed.

(** Under a tensor-parallel size of 4: an embedding of 10 rows is skipped;
    with 12 rows the embedding and the LM head are replaced by the two
    layers that [embedding_to_parallel_embedding] returns for them; and
    when the first part raises, so does the transformation. *)
Lemma C4_witness :
  let E := fx_layers 4 in
  let run :=
    ParallelEmbedding_transform E fx_llama_embedding (VRef 0) (VRef 0) false VNone [] in
  (let h := fx_lm_heap 10 VNone in
   ParallelEmbedding_locate E fx_llama_embedding (VRef 0) (VRef 0) VNone h
     = (h, Ok (fx_located 10))
   /\ as_int (el_num_embeddings (fx_located 10)) = Ok 10
   /\ tp_size E <> 0
   /\ ~ (tp_size E | 10)
   /\ run h = (h, Ok (VRef 0)))
  /\ (let h := fx_lm_heap 12 VNone in
      (tp_size E | 12)
      /\ snd (run h) = Ok (VRef 0)
      /\ lookup_attr (fst (run h)) (VRef 0) "embed_tokens" = Some (VRef 4)
      /\ isinstance (fst (run h)) (VRef 4) "ParallelEmbedding" = true
      /\ lookup_attr (fst (run h)) (VRef 4) "original" = Some (VRef 1)
      /\ lookup_attr (fst (run h)) (VRef 0) "lm_head" = Some (VRef 5)
      /\ isinstance (fst (run h)) (VRef 5) ColumnParallelLinear = true
      /\ lookup_attr (fst (run h)) (VRef 5) "original" = Some (VRef 2))
  /\ (let h := fx_mapped_lm_heap 10 in
      ParallelEmbedding_locate E fx_llama_embedding (VRef 0) (VRef 0) VNone h
        = (h, Raise KeyError)
      /\ run h = (h, Raise KeyError)).
Proof.
  cbv zeta.
  pose proof (C4_embedding_skipped_unless_divisible (fx_layers 4) fx_llama_embedding
                (VRef 0) (VRef 0) false VNone []) as Hrule.
  cbv zeta in Hrule.
  assert (Htp : tp_size (fx_layers 4) <> 0) by (simpl; lia).
  split; [|split].
  - assert (H1 : ParallelEmbedding_locate (fx_layers 4) fx_llama_embedding (VRef 0) (VRef 0)
                   VNone (fx_lm_heap 10 VNone)
                 = (fx_lm_heap 10 VNone, Ok (fx_located 10)))
      by (vm_compute; reflexivity).
    assert (H2 : as_int (el_num_embeddings (fx_located 10)) = Ok 10) by reflexivity.
    assert (H4 : ~ (tp_size (fx_layers 4) | 10)) by (intros [z Hz]; simpl in Hz; lia).
    exact (conj H1 (conj H2 (conj Htp (conj H4
      (proj1 (proj2 (Hrule (fx_lm_heap 10 VNone)) _ (fx_located 10) 10 H1 H2 Htp) H4))))).
  - assert (H1 : ParallelEmbedding_locate (fx_layers 4) fx_llama_embedding (VRef 0) (VRef 0)
                   VNone (fx_lm_heap 12 VNone)
                 = (fx_lm_heap 12 VNone, Ok (fx_located 12)))
      by (vm_compute; reflexivity).
    assert (H2 : as_int (el_num_embeddings (fx_located 12)) = Ok 12) by reflexivity.
    assert (H4 : (tp_size (fx_layers 4) | 12)) by (exists 3; reflexivity).
    split; [exact H4|].
    rewrite (proj1 (proj2 (proj2 (Hrule (fx_lm_heap 12 VNone)) _ (fx_located 12) 12
                             H1 H2 Htp)) H4).
    repeat split; vm_compute; reflexivity.
  - assert (H1 : ParallelEmbedding_locate (fx_layers 4) fx_llama_embedding (VRef 0) (VRef 0)
                   VNone (fx_mapped_lm_heap 10)
                 = (fx_mapped_lm_heap 10, Raise KeyError))
      by (vm_compute; reflexivity).
    exact (conj H1 (proj1 (Hrule (fx_mapped_lm_heap 10)) _ KeyError H1)).
Defined.

(** With 12 rows the embedding and the tied LM head are replaced. *)
Example embedding_replaced_when_divisible :
  let E := fx_layers 4 in
  let run := ParallelEmbedding_transform E fx_llama_embedding (VRef 0) (VRef 0) false VNone []
               (fx_lm_heap 12 VNone) in
  snd run = Ok (VRef 0)
  /\ lookup_attr (fst run) (VRef 0) "embed_tokens" = Some (VRef 4)
  /\ isinstance (fst run) (VRef 4) "ParallelEmbedding" = true
  /\ lookup_attr (fst run) (VRef 0) "lm_head" = Some (VRef 5)
  /\ isinstance (fst run) (VRef 5) ColumnParallelLinear = true.
Proof. cbv zeta. repeat split; vm_compute; reflexivity. Qed.

(** The stand-in for the loading of the weights only marks the fused
    projection. *)
Lemma fx_load_gqa_weights_keeps_qkv_proj m g b1 b2 (h1 h2 : heap) r x :
  fx_load_gqa_weights m g b1 b2 h1 = (h2, r) ->
  lookup_attr h2 (VRef x) "qkv_proj" = lookup_attr h1 (VRef x) "qkv_proj".
Proof.
  unfold fx_load_gqa_weights, setattr. intros Hrun. inversion Hrun as [[Hh2 Hr]]. clear Hrun.
  destruct g as [| | | |l| | | | | | |]; try reflexivity.
  destruct (h1 !! l) as [o|] eqn:Hl; [|reflexivity].
  simpl. unfold lookup_attr, get_attrs; unfold heap, loc in *.
  destruct (decide (l = x)) as [->|Hne].
  - rewrite lookup_insert_eq, Hl. simpl. now rewrite lookup_insert_ne.
  - now rewrite lookup_insert_ne.
Qed.

(** The fused replacement on the layer with two key/value heads. *)
Lemma C5_witness :
  let E := fx_layers 4 in
  let cls := fx_llama_attention in
  QUERIES_NAME cls <> KEYS_NAME cls
  /\ QUERIES_NAME cls <> VALUES_NAME cls
  /\ KEYS_NAME cls <> VALUES_NAME cls
  /\ QUERIES_NAME cls <> "qkv_proj"
  /\ KEYS_NAME cls <> "qkv_proj"
  /\ VALUES_NAME cls <> "qkv_proj"
  /\ replace_qkv_by_gqa_qkv_column_parallel_linear E cls (VRef 0) (VRef 2) false VNone
       (VBool false) (fx_attention_heap 2) = (fx_after_gqa_replacement, Ok tt)
  /\ exists fused q k v,
       lookup_attr fx_after_gqa_replacement (VRef 2) "qkv_proj" = Some fused
       /\ (exists args h0 h1, OptimumGQAQKVColumnParallelLinear E args h0 = (h1, Ok fused))
       /\ lookup_attr fx_after_gqa_replacement (VRef 2) (QUERIES_NAME cls) = Some q
       /\ fake_proj_on fx_after_gqa_replacement q 0 2%nat
       /\ lookup_attr fx_after_gqa_replacement (VRef 2) (KEYS_NAME cls) = Some k
       /\ fake_proj_on fx_after_gqa_replacement k 1 2%nat
       /\ lookup_attr fx_after_gqa_replacement (VRef 2) (VALUES_NAME cls) = Some v
       /\ fake_proj_on fx_after_gqa_replacement v 2 2%nat.
Proof.
  cbv zeta.
  assert (H1 : QUERIES_NAME fx_llama_attention <> KEYS_NAME fx_llama_attention) by discriminate.
  assert (H2 : QUERIES_NAME fx_llama_attention <> VALUES_NAME fx_llama_attention)
    by discriminate.
  assert (H3 : KEYS_NAME fx_llama_attention <> VALUES_NAME fx_llama_attention) by discriminate.
  assert (H4 : QUERIES_NAME fx_llama_attention <> "qkv_proj") by discriminate.
  assert (H5 : KEYS_NAME fx_llama_attention <> "qkv_proj") by discriminate.
  assert (H6 : VALUES_NAME fx_llama_attention <> "qkv_proj") by discriminate.
  assert (H7 : replace_qkv_by_gqa_qkv_column_parallel_linear (fx_layers 4) fx_llama_attention
                 (VRef 0) (VRef 2) false VNone (VBool false) (fx_attention_heap 2)
               = (fx_after_gqa_replacement, Ok tt))
    by (vm_compute; reflexivity).
  exact (conj H1 (conj H2 (conj H3 (conj H4 (conj H5 (conj H6 (conj H7
    (C5_qkv_replaced_by_indexed_proxies (fx_layers 4) fx_llama_attention (VRef 0) 2%nat false
       VNone (VBool false) (fx_attention_heap 2) fx_after_gqa_replacement
       H1 H2 H3 H4 H5 H6 fx_load_gqa_weights_keeps_qkv_proj H7)))))))).
Defined.

(** What the store holds after that replacement. *)
Example gqa_replacement_result :
  lookup_attr fx_after_gqa_replacement (VRef 2) "qkv_proj" = Some (VRef 7)
  /\ isinstance fx_after_gqa_replacement (VRef 7) "OptimumGQAQKVColumnParallelLinear" = true
  /\ lookup_attr fx_after_gqa_replacement (VRef 7) "kv_size_multiplier" = Some (VInt 2)
  /\ lookup_attr fx_after_gqa_replacement (VRef 2) "q_proj" = Some (VRef 8)
  /\ lookup_attr fx_after_gqa_replacement (VRef 8) "output_index" = Some (VInt 0)
  /\ lookup_attr fx_after_gqa_replacement (VRef 2) "k_proj" = Some (VRef 9)
  /\ lookup_attr fx_after_gqa_replacement (VRef 9) "output_index" = Some (VInt 1)
  /\ lookup_attr fx_after_gqa_replacement (VRef 2) "v_proj" = Some (VRef 10)
  /\ lookup_attr fx_after_gqa_replacement (VRef 10) "output_index" = Some (VInt 2).
Proof. repeat split; vm_compute; reflexivity. Qed.

(** A regression model is skipped.  A head that the embedding rule made
    column-parallel is kept, and only the cross-entropy is patched.  A
    row-parallel head is refused.  A dense head is replaced by a
    column-parallel linear that keeps its output partitioned, and the
    cross-entropy is patched. *)
Lemma C6_witness :
  let E := fx_layers 4 in
  let run := ParallelCrossEntropy_transform E fx_llama_cross_entropy (VRef 0) (VRef 0) false
               VNone fx_skip_kwargs in
  let wrapped :=
    VPatched [("torch.nn.functional.cross_entropy", parallel_cross_entropy);
              ("torch.nn.modules.loss.F.cross_entropy", parallel_cross_entropy)]
      (VBoundMethod 0 "forward") in
  dict_get fx_skip_kwargs "skip_linear_weight_load" = Some (VBool false)
  /\ (let h := fx_lm_heap 12 (VStr "regression") in run h = (h, Ok (VRef 0)))
  /\ (isinstance fx_tied_heap (VRef 5) ColumnParallelLinear = true
      /\ exists h', run fx_tied_heap = (h', Ok (VRef 0))
           /\ lookup_attr h' (VRef 0) "forward" = Some wrapped
           /\ lookup_attr h' (VRef 0) "lm_head" = Some (VRef 5)
           /\ isinstance h' (VRef 5) ColumnParallelLinear = true)
  /\ (isinstance fx_row_head_heap (VRef 2) RowParallelLinear = true
      /\ run fx_row_head_heap = (fx_row_head_heap, Raise ValueError))
  /\ (let h := fx_lm_heap 12 VNone in
      isinstance h (VRef 2) ColumnParallelLinear = false
      /\ isinstance h (VRef 2) RowParallelLinear = false
      /\ exists h', run h = (h', Ok (VRef 0))
           /\ lookup_attr h' (VRef 0) "lm_head" = Some (VRef 4)
           /\ isinstance h' (VRef 4) ColumnParallelLinear = true
           /\ lookup_attr h' (VRef 4) "gather_output" = Some (VBool false)
           /\ lookup_attr h' (VRef 0) "forward" = Some wrapped).
Proof.
  cbv zeta.
  assert (H1 : dict_get fx_skip_kwargs "skip_linear_weight_load" = Some (VBool false))
    by reflexivity.
  pose proof (fun h => C6_cross_entropy_case_analysis (fx_layers 4) fx_llama_cross_entropy
                         (VRef 0) (VRef 0) false VNone fx_skip_kwargs h (VBool false) H1)
    as Hcases.
  cbv zeta in Hcases.
  split; [exact H1|]. split; [|split; [|split]].
  - apply (proj1 (Hcases _) (VRef 3) "regression");
      [vm_compute; reflexivity | vm_compute; reflexivity | now left].
  - assert (Hinst : isinstance fx_tied_heap (VRef 5) ColumnParallelLinear = true)
      by (vm_compute; reflexivity).
    split; [exact Hinst|].
    destruct (proj2 (Hcases fx_tied_heap) (NameDict [("LlamaForCausalLM", "lm_head")])
                "lm_head" (VRef 0) "lm_head" (VRef 5)) as [Hcol _];
      [vm_compute; reflexivity ..|].
    destruct (Hcol Hinst) as (_ & Hpatched & Hreturns).
    assert (Hlive : is_Some (fx_tied_heap !! 0%nat)) by (eexists; vm_compute; reflexivity).
    destruct (Hreturns fx_tied_heap 0%nat eq_refl eq_refl Hlive) as [h' Hrun].
    destruct (Hpatched h' _ Hrun) as (_ & h1 & orig & Hev & Horig & Hfwd & Hother & Hsame).
    assert (Hh1 : h1 = fx_tied_heap) by (symmetry; exact (f_equal fst Hev)). subst h1.
    assert (Hnone : lookup_attr fx_tied_heap (VRef 0) "forward" = None)
      by (vm_compute; reflexivity).
    destruct Horig as [Hsome | (_ & l & Hl & ->)]; [rewrite Hnone in Hsome; discriminate|].
    injection Hl as <-.
    exists h'. split; [exact Hrun|]. split; [exact Hfwd|]. split.
    + rewrite Hother by (right; discriminate). vm_compute; reflexivity.
    + rewrite Hsame. exact Hinst.
  - destruct (proj2 (Hcases fx_row_head_heap) (NameDict [("LlamaForCausalLM", "lm_head")])
                "lm_head" (VRef 0) "lm_head" (VRef 2)) as (_ & Hrow & _);
      [vm_compute; reflexivity ..|].
    split; [vm_compute; reflexivity|].
    apply Hrow; vm_compute; reflexivity.
  - assert (Hc : isinstance (fx_lm_heap 12 VNone) (VRef 2) ColumnParallelLinear = false)
      by (vm_compute; reflexivity).
    assert (Hr : isinstance (fx_lm_heap 12 VNone) (VRef 2) RowParallelLinear = false)
      by (vm_compute; reflexivity).
    split; [exact Hc|]. split; [exact Hr|].
    destruct (proj2 (Hcases (fx_lm_heap 12 VNone))
                (NameDict [("LlamaForCausalLM", "lm_head")])
                "lm_head" (VRef 0) "lm_head" (VRef 2)) as (_ & _ & Hdense);
      [vm_compute; reflexivity ..|].
    destruct (Hdense Hc Hr) as [_ Hshard].
    pose (column := mkLinearKwargs "column" None (Some false) VNone VNone false (VBool false)
                      VNone).
    pose (h1 := fst (fx_linear_to_parallel_linear (VRef 2) column (fx_lm_heap 12 VNone))).
    assert (Hinfos : last_projection_weight_info (fx_layers 4) (VRef 0) (VRef 2) VNone
                       (fx_lm_heap 12 VNone)
                     = (fx_lm_heap 12 VNone, Ok (VNone, VNone)))
      by (vm_compute; reflexivity).
    assert (Hlin : linear_to_parallel_linear (fx_layers 4) (VRef 2)
                     (mkLinearKwargs "column" None (Some false) (fst (VNone, VNone))
                        (snd (VNone, VNone)) false (VBool false) VNone)
                     (fx_lm_heap 12 VNone)
                   = (h1, Ok (VRef 4)))
      by (vm_compute; reflexivity).
    destruct (Hshard (VNone, VNone) h1 (VRef 4) Hinfos Hlin) as [_ Hafter].
    assert (Hrun : ParallelCrossEntropy_transform (fx_layers 4) fx_llama_cross_entropy
                     (VRef 0) (VRef 0) false VNone fx_skip_kwargs (fx_lm_heap 12 VNone)
                   = (fst (ParallelCrossEntropy_transform (fx_layers 4)
                             fx_llama_cross_entropy (VRef 0) (VRef 0) false VNone
                             fx_skip_kwargs (fx_lm_heap 12 VNone)),
                      Ok (VRef 0)))
      by (vm_compute; reflexivity).
    destruct (Hafter _ _ Hrun)
      as (_ & h2 & Hset & h3 & orig & Hev & Horig & Hfwd & Hother & Hsame).
    assert (Hh3 : h3 = h2) by (symmetry; exact (f_equal fst Hev)). subst h3.
    assert (Hnone : lookup_attr h2 (VRef 0) "forward" = None).
    { rewrite (setattr_lookup_other _ _ _ _ _ (VRef 0) "forward" Hset)
        by (right; discriminate).
      vm_compute; reflexivity. }
    destruct Horig as [Hsome | (_ & l & Hl & ->)]; [rewrite Hnone in Hsome; discriminate|].
    injection Hl as <-.
    eexists. split; [exact Hrun|]. split; [|split; [|split]].
    + rewrite Hother by (right; discriminate).
      exact (setattr_lookup_same _ _ _ _ _ Hset).
    + rewrite Hsame, (setattr_isinstance _ _ _ _ _ (VRef 4) ColumnParallelLinear Hset).
      vm_compute; reflexivity.
    + rewrite Hother by (left; discriminate).
      rewrite (setattr_lookup_other _ _ _ _ _ (VRef 4) "gather_output" Hset)
        by (left; discriminate).
      vm_compute; reflexivity.
    + exact Hfwd.
Defined.

(** A causal language model whose LM head is dense: the head is replaced
    by a column-parallel linear that keeps its output partitioned, and the
    forward of the model is patched. *)
Example cross_entropy_shards_dense_head :
  let E := fx_layers 4 in
  let run := ParallelCrossEntropy_transform E fx_llama_cross_entropy (VRef 0) (VRef 0) false
               VNone fx_skip_kwargs (fx_lm_heap 12 VNone) in
  snd run = Ok (VRef 0)
  /\ lookup_attr (fst run) (VRef 0) "lm_head" = Some (VRef 4)
  /\ isinstance (fst run) (VRef 4) ColumnParallelLinear = true
  /\ lookup_attr (fst run) (VRef 4) "gather_output" = Some (VBool false)
  /\ lookup_attr (fst run) (VRef 0) "forward"
     = Some (VPatched [("torch.nn.functional.cross_entropy", parallel_cross_entropy);
                       ("torch.nn.modules.loss.F.cross_entropy", parallel_cross_entropy)]
                      (VBoundMethod 0 "forward")).
Proof. cbv zeta. repeat split; vm_compute; reflexivity. Qed.

End layer_examples.

(** ** The properties on a concrete sequence-parallel model *)

Section sequence_examples.
Import SequenceParallel Fixtures.

(** The output of the first embedding is scattered. *)
Lemma C7_witness :
  io fx_scatter_embedding_output = "output"
  /\ _sequence_parallelize fx_torch_ops fx_sequence_model fx_scatter_embedding_output
       fx_sequence_heap = (fx_after_scatter, Ok tt)
  /\ exists l m m',
       fx_sequence_heap !! l = Some m
       /\ fx_after_scatter = <[l := m']> fx_sequence_heap
       /\ m_mro m' = m_mro m
       /\ forall args kw,
            (forall t, m_forward m args kw = Ok (PTensor t) ->
               m_forward m' args kw
               = rmap PTensor
                   (reshaped_for fx_torch_ops (collective_op fx_scatter_embedding_output) t))
            /\ (forall t rest, m_forward m args kw = Ok (PTuple (PTensor t :: rest)) ->
               m_forward m' args kw
               = rmap (fun x => PTuple (PTensor x :: rest))
                   (reshaped_for fx_torch_ops (collective_op fx_scatter_embedding_output) t))
            /\ (forall x, m_forward m' args kw = Ok (PTensor x) ->
               exists t, m_forward m args kw = Ok (PTensor t)).
Proof.
  assert (H1 : io fx_scatter_embedding_output = "output") by reflexivity.
  assert (H2 : _sequence_parallelize fx_torch_ops fx_sequence_model
                 fx_scatter_embedding_output fx_sequence_heap = (fx_after_scatter, Ok tt))
    by reflexivity.
  exact (conj H1 (conj H2
    (C7_output_wrapper_keeps_return_shape fx_torch_ops fx_sequence_model
       fx_scatter_embedding_output fx_sequence_heap fx_after_scatter H1 H2))).
Defined.

(** The wrapped forwards on the concrete model: a bare tensor stays a
    bare tensor, a tuple stays a tuple with its tail. *)
Example scattered_embedding_output :
  match fx_after_scatter !! 1%nat with
  | Some m => m_forward m [PTensor "ids"] tt
  | None => Raise KeyError
  end
  = Ok (PTensor "scatter(embeds.transpose(0,1).contiguous())").
Proof. vm_compute. reflexivity. Qed.

Example gathered_block_output :
  match fst (_sequence_parallelize fx_torch_ops fx_sequence_model
               fx_gather_block_output fx_sequence_heap) !! 2%nat with
  | Some m => m_forward m [PTensor "hidden"] tt
  | None => Raise KeyError
  end
  = Ok (PTuple [PTensor "gather(hidden).transpose(0,1).contiguous()";
                PTensor "attentions"]).
Proof. vm_compute. reflexivity. Qed.

End sequence_examples.

(** ** The properties on a concrete accelerator *)

Section accelerator_examples.
Import Accelerator AcceleratorFixtures.

Ltac not_a_member H :=
  vm_compute in H;
  repeat match type of H with
         | _ \/ _ => destruct H as [H|H]
         | False => contradiction
         | _ = _ => discriminate H
         end.

(** The check compares the names after the GQA renaming, and only outside
    pipeline parallelism.  On the model whose query and key projections
    are fused, the names recorded on CPU ("q_proj.weight", ...) differ
    from the names after parallelization ("qkv_proj.weight_q", ...), and
    [_prepare_model_for_mp] returns the model without an error.  On the
    model split over pipeline stages, the local stage holds one of the two
    parameters, and no error is raised either. *)
Lemma C1_counterexample :
  (let before := map fst (named_parameters fx_accelerate fx_gqa_model_heap 0%nat) in
   let run := _prepare_model_for_mp fx_accelerate 0%nat None false
                (fx_accelerator "bf16", fx_gqa_model_heap) in
   let after := map fst (named_parameters fx_accelerate (snd (fst run)) 0%nat) in
   snd run = Ok 0%nat /\ ~ same_names before after)
  /\ (let before := map fst (named_parameters fx_accelerate fx_pipeline_model_heap 0%nat) in
      let run := _prepare_model_for_mp fx_accelerate 0%nat None false
                   (fx_accelerator "bf16", fx_pipeline_model_heap) in
      let after := map fst (named_parameters fx_accelerate (snd (fst run)) 2%nat) in
      snd run = Ok 2%nat /\ ~ same_names before after).
Proof.
  cbv zeta. split; split; try (vm_compute; reflexivity).
  - intros Hsame.
    assert (Hin : In "q_proj.weight"
                    (map fst (named_parameters fx_accelerate
                                (snd (fst (_prepare_model_for_mp fx_accelerate 0%nat None false
                                             (fx_accelerator "bf16", fx_gqa_model_heap))))
                                0%nat))).
    { apply Hsame. vm_compute. now left. }
    not_a_member Hin.
  - intros Hsame.
    assert (Hin : In "layers.1.weight"
                    (map fst (named_parameters fx_accelerate
                                (snd (fst (_prepare_model_for_mp fx_accelerate 0%nat None false
                                             (fx_accelerator "bf16", fx_pipeline_model_heap))))
                                2%nat))).
    { apply Hsame. vm_compute. right. now left. }
    not_a_member Hin.
Qed.

(** The GQA model again: the names re-keyed through the renaming are the
    names after parallelization, and the model is returned. *)
Lemma C1_witness :
  let E := fx_accelerate in
  let self := fx_accelerator "bf16" in
  let run := _prepare_model_for_mp E 0%nat None false (self, fx_gqa_model_heap) in
  let after := map fst (named_parameters E fx_gqa_placed 0%nat) in
  already_prepared E 0%nat (self, fx_gqa_model_heap) = ((self, fx_gqa_model_heap), Ok false)
  /\ parallelize_and_update_ids E 0%nat (self, fx_gqa_model_heap)
     = ((self, fx_gqa_parallelized), Ok (0%nat, VDict [], fx_gqa_ids))
  /\ isinstance fx_gqa_parallelized (VRef 0) "NxDPPModel" = false
  /\ move_model_to_device E 0%nat (device self) fx_gqa_parallelized = (fx_gqa_placed, Ok tt)
  /\ tie_parameters E 0%nat (VDict []) fx_gqa_placed = (fx_gqa_placed, Ok tt)
  /\ (exists names,
        gqa_renaming fx_gqa_parallelized 0%nat names
        /\ rekey names (dict_keys (dict_of_list (named_parameters E fx_gqa_model_heap 0%nat)))
                 (dict_of_list (named_parameters E fx_gqa_model_heap 0%nat)) = Ok fx_gqa_ids)
  /\ (run = ((self, fx_gqa_placed), Raise ValueError)
      <-> ~ same_names (dict_keys fx_gqa_ids) after)
  /\ ((exists s', run = (s', Ok 0%nat)) <-> same_names (dict_keys fx_gqa_ids) after)
  /\ (forall s' r, run = (s', Ok r) -> r = 0%nat /\ snd s' = fx_gqa_placed).
Proof.
  cbv zeta.
  assert (H1 : already_prepared fx_accelerate 0%nat (fx_accelerator "bf16", fx_gqa_model_heap)
               = ((fx_accelerator "bf16", fx_gqa_model_heap), Ok false))
    by (vm_compute; reflexivity).
  assert (H2 : parallelize_and_update_ids fx_accelerate 0%nat
                 (fx_accelerator "bf16", fx_gqa_model_heap)
               = ((fx_accelerator "bf16", fx_gqa_parallelized), Ok (0%nat, VDict [], fx_gqa_ids)))
    by (vm_compute; reflexivity).
  assert (H3 : isinstance fx_gqa_parallelized (VRef 0) "NxDPPModel" = false)
    by (vm_compute; reflexivity).
  assert (H4 : move_model_to_device fx_accelerate 0%nat (device (fx_accelerator "bf16"))
                 fx_gqa_parallelized = (fx_gqa_placed, Ok tt))
    by (vm_compute; reflexivity).
  assert (H5 : tie_parameters fx_accelerate 0%nat (VDict []) fx_gqa_placed
               = (fx_gqa_placed, Ok tt))
    by reflexivity.
  exact (conj H1 (conj H2 (conj H3 (conj H4 (conj H5
    (C1_names_checked_after_rekeying fx_accelerate (fx_accelerator "bf16")
       (fx_accelerator "bf16") fx_gqa_model_heap fx_gqa_parallelized fx_gqa_placed
       fx_gqa_placed 0%nat 0%nat None false (VDict []) fx_gqa_ids H1 H2 H3 H4 H5)))))).
Defined.

(** A parallelization that loses a parameter is refused. *)
Example lost_parameter_is_refused :
  snd (_prepare_model_for_mp fx_accelerate 0%nat None false
         (fx_accelerator "bf16", fx_broken_model_heap)) = Raise ValueError.
Proof. vm_compute. reflexivity. Qed.

(** The re-keying follows the order of the names: a renaming onto a name
    that is itself renamed later moves the entry twice. *)
Example rekey_follows_insertion_order :
  rekey [("a", "b"); ("b", "c")] ["a"; "b"] [("a", 1%nat); ("b", 2%nat)]
    = Ok [("c", 1%nat)]
  /\ rekey [("a", "b"); ("b", "c")] ["b"; "a"] [("b", 2%nat); ("a", 1%nat)]
    = Ok [("c", 2%nat); ("b", 1%nat)].
Proof. split; vm_compute; reflexivity. Qed.

(** [prepare_model] twice: the second call returns the prepared model and
    changes nothing. *)
Example prepare_model_twice :
  let first := prepare_model fx_accelerate 0%nat None false
                 (fx_accelerator "bf16", fx_gqa_model_heap) in
  snd first = Ok 0%nat
  /\ _models (fst (fst first)) = [0%nat]
  /\ prepare_model fx_accelerate 0%nat None false (fst first) = (fst first, Ok 0%nat).
Proof. cbv zeta. repeat split; vm_compute; reflexivity. Qed.

(** ZeRO-1 on the three mixed-precision modes. *)
Example zero_1_by_mode :
  (let run := _prepare_optimizer_for_zero_1 fx_accelerate (fx_accelerator "no") (VRef 0) None
                fx_optimizer_heap in
   snd run = Ok (VRef 2)
   /\ lookup_attr (fst run) (VRef 2) "optimizer_dtype" = Some (VStr "float32"))
  /\ (let run := _prepare_optimizer_for_zero_1 fx_accelerate (fx_accelerator "bf16") (VRef 1)
                   None fx_optimizer_heap in
      snd run = Ok (VRef 2)
      /\ lookup_attr (fst run) (VRef 2) "optimizer_dtype" = Some (VStr "bfloat16")
      /\ lookup_attr (fst run) (VRef 2) "params" = Some (VTuple [VRef 10; VRef 11]))
  /\ _prepare_optimizer_for_zero_1 fx_accelerate (fx_accelerator "fp16") (VRef 0) None
       fx_optimizer_heap = (fx_optimizer_heap, Raise ValueError).
Proof. cbv zeta. repeat split; vm_compute; reflexivity. Qed.

End accelerator_examples.

(** ** The properties of the other functions on concrete layers *)

Section more_layer_examples.
Import ParallelLayers Fixtures MoreFixtures.

(** The query projection, as it is named from the model. *)
Lemma X1_witness :
  ~ In "."%char (list_ascii_of_string "q_proj")
  /\ _get_module_and_attribute_name (VRef 0) ("self_attn" +:+ "." +:+ "q_proj")
       (fx_attention_heap 2)
     = (fx_attention_heap 2, Ok (VRef 2, "q_proj")).
Proof.
  assert (H1 : ~ In "."%char (list_ascii_of_string "q_proj")).
  { simpl. intros H. repeat (destruct H as [H|H]; [discriminate H|]). exact H. }
  split; [exact H1|].
  apply (proj1 (proj2 (X1_module_and_attribute_name_splits_at_last_dot
                         (VRef 0) "self_attn" "q_proj" (fx_attention_heap 2) H1))).
  vm_compute. reflexivity.
Defined.

(** An argument that the class declares, and one that it does not. *)
Lemma X2_witness :
  let given := [("skip_linear_weight_load", VBool true); ("not_declared", VInt 1)] in
  List.NoDup (dict_keys PARALLEL_LAYER_SPECIFIC_KWARGS)
  /\ dict_keys (prepare_parallel_layer_specific_kwargs
                  (Some PARALLEL_LAYER_SPECIFIC_KWARGS) given)
     = ["skip_linear_weight_load"; "kv_size_multiplier"]
  /\ dict_get (prepare_parallel_layer_specific_kwargs
                 (Some PARALLEL_LAYER_SPECIFIC_KWARGS) given) "skip_linear_weight_load"
     = Some (VBool true)
  /\ dict_get (prepare_parallel_layer_specific_kwargs
                 (Some PARALLEL_LAYER_SPECIFIC_KWARGS) given) "not_declared"
     = None.
Proof.
  cbv zeta.
  assert (H1 : List.NoDup (dict_keys PARALLEL_LAYER_SPECIFIC_KWARGS)).
  { simpl. repeat constructor; simpl; intros H;
      repeat (destruct H as [H|H]; [discriminate H|]); exact H. }
  split; [exact H1|].
  pose proof (X2_kwargs_are_the_declared_ones PARALLEL_LAYER_SPECIFIC_KWARGS
                [("skip_linear_weight_load", VBool true); ("not_declared", VInt 1)] H1)
    as (Hkeys & Hget & Hnone & _).
  split; [exact Hkeys|]. split.
  - apply (Hget "skip_linear_weight_load" (VBool false)). reflexivity.
  - apply Hnone. reflexivity.
Defined.

(** A vocabulary of 32000 entries over 4 shards. *)
Lemma X4_witness :
  let E := fx_layers 4 in
  let h := fx_lm_heap 32000 VNone in
  exists h',
    VocabSize.overwrite_vocab_size_value_for_cross_entropy_computation E
      fx_llama_embedding (VRef 0) h = (h', Ok tt)
    /\ lookup_attr h' (VRef 3) "vocab_size" = Some (VInt 8000)
    /\ lookup_attr h' (VRef 1) "num_embeddings" = Some (VInt 32000).
Proof.
  cbv zeta.
  assert (H1 : VOCAB_SIZE_NAME fx_llama_embedding = Some "config.vocab_size") by reflexivity.
  assert (H2 : VocabSize.getattr_path (VRef 0) (removelast (split_dots "config.vocab_size"))
                 (fx_lm_heap 32000 VNone) = (fx_lm_heap 32000 VNone, Ok (VRef 3)))
    by (vm_compute; reflexivity).
  assert (H3 : lookup_attr (fx_lm_heap 32000 VNone) (VRef 3)
                 (List.last (split_dots "config.vocab_size") "") = Some (VInt 32000))
    by (vm_compute; reflexivity).
  assert (H4 : tp_size (fx_layers 4) <> 0) by (simpl; lia).
  destruct (proj1 (X4_vocab_size_is_divided_in_place (fx_layers 4) fx_llama_embedding
                     (VRef 0) (fx_lm_heap 32000 VNone) "config.vocab_size" 3%nat 32000
                     H1 H2 H3) H4) as (h' & Hrun & Hnew & Hother & _).
  exists h'. split; [exact Hrun|]. split.
  - exact Hnew.
  - rewrite (Hother (VRef 1) "num_embeddings") by (left; discriminate).
    vm_compute. reflexivity.
Defined.

(** A rule written for another architecture. *)
Lemma X5_witness :
  let h := fx_lm_heap 32000 VNone in
  ParallelEmbedding_transform (fx_layers 4) fx_bert_embedding (VRef 0) (VRef 0) false VNone
    fx_skip_kwargs h
  = (h, Raise ValueError).
Proof.
  cbv zeta.
  destruct (proj2 (proj2 (X5_embedding_name_by_class_then_default (fx_layers 4)
                            fx_bert_embedding (VRef 0) (VRef 0) false VNone fx_skip_kwargs
                            (fx_lm_heap 32000 VNone)
                            [("BertModel", "embeddings.word_embeddings")] eq_refl))
              ltac:(vm_compute; reflexivity) ltac:(vm_compute; reflexivity))
    as (e & Hrun & He).
  rewrite Hrun. f_equal. f_equal. apply (He (None, false, None)). reflexivity.
Defined.

(** A weight map with the bare name of the embedding but without its
    weight. *)
Lemma X6_witness :
  let h := fx_mapped_heap false in
  ParallelEmbedding_transform (fx_layers 4) fx_plain_embedding (VRef 0) (VRef 0) false VNone
    fx_skip_kwargs h
  = (h, Raise KeyError).
Proof.
  cbv zeta.
  assert (H1 : lookup_attr (fx_mapped_heap false) (VRef 0) "_weight_map"
               = Some (VDict (fx_weight_map false))) by (vm_compute; reflexivity).
  assert (H2 : layer_qualified_name_in (fx_layers 4) (VRef 0) (VRef 0) (fx_mapped_heap false)
               = (fx_mapped_heap false, Ok "")) by (vm_compute; reflexivity).
  pose proof (X6_embedding_weight_needs_both_keys (fx_layers 4) (VRef 0) (VRef 0) VNone
                "embed_tokens" (fx_mapped_heap false) (fx_weight_map false) "" H1 H2)
    as (_ & _ & Hkey).
  apply Hkey; [discriminate | reflexivity | reflexivity | reflexivity].
Defined.

(** Eight heads and four key/value heads over two shards. *)
Lemma X8_witness :
  let E := fx_layers 2 in
  let h := fx_attention_heap 4 in
  let h' := fst (ParallelSelfAttention_transform E fx_llama_attention (VRef 0) (VRef 2)
                   false VNone fx_attention_kwargs h) in
  lookup_attr h' (VRef 2) "num_heads" = Some (VInt (8 / 2))
  /\ lookup_attr h' (VRef 2) "num_key_value_heads" = Some (VInt (4 / 2))
  /\ 4 = 2 * (4 / 2)
  /\ exists s, lookup_attr h' (VRef 2) "hidden_size" = Some (VInt (s / 2)).
Proof.
  cbv zeta.
  apply (X8_heads_per_rank_after_sharding (fx_layers 2) fx_llama_attention (VRef 0) 2%nat
           false VNone fx_attention_kwargs (fx_attention_heap 4) _ (VRef 2)
           "num_heads" "num_key_value_heads" "hidden_size" 8 4);
    try reflexivity; try discriminate; try (simpl; lia); vm_compute; reflexivity.
Defined.

(** Two key/value heads and the default multiplier over four shards: one
    key/value head and two query groups for each rank. *)
Lemma X9_witness :
  let E := fx_layers 4 in
  exists h',
    update_head_counts E fx_llama_attention (VRef 2) fx_attention_ctx (VInt 2) true
      fx_after_gqa_replacement = (h', Ok (VRef 2))
    /\ lookup_attr h' (VRef 2) "num_heads" = Some (VInt 2)
    /\ lookup_attr h' (VRef 2) "num_key_value_heads" = Some (VInt 1)
    /\ lookup_attr h' (VRef 2) "num_key_value_groups" = Some (VInt 2)
    /\ lookup_attr h' (VRef 2) "hidden_size" = Some (VInt 16).
Proof.
  cbv zeta.
  assert (Hnd : NoDup [ctx_num_attention_heads_name fx_attention_ctx; "num_key_value_heads";
                       "num_key_value_groups"; ctx_all_head_size_name fx_attention_ctx;
                       "qkv_proj"]).
  { simpl. apply (bool_decide_unpack _). vm_compute. exact I. }
  destruct (proj1 (X9_gqa_heads_per_rank (fx_layers 4) fx_llama_attention 2%nat 7%nat
                     fx_attention_ctx fx_after_gqa_replacement
                     "num_key_value_heads" "num_key_value_groups" 8 2 2 64
                     eq_refl eq_refl Hnd eq_refl
                     ltac:(vm_compute; reflexivity) ltac:(discriminate)
                     ltac:(vm_compute; reflexivity) ltac:(vm_compute; reflexivity)
                     ltac:(simpl; lia) ltac:(lia))
              ltac:(simpl; lia))
    as (h' & Hrun & R1 & R2 & R3 & R4 & _).
  exists h'. split; [exact Hrun|]. auto.
Defined.




End more_layer_examples.
